(** * twarc-csv: the record-to-table converter of [twarc_csv.py]

    A shallow embedding of [DataFrameConverter] (column schema construction,
    reference expansion, record normalisation, deduplication, schema
    reconciliation and cell escaping) and the properties checked about it.

    Conventions of the embedding

    - A decoded JSON object is a [value]; a Python [dict] is an association
      list in insertion order, its keys being the strings JSON gives them.
      Numbers are the integers of JSON.
    - A Python [str] is a [string] of bytes (its UTF-8 encoding); the two
      characters the program looks for, carriage return and line feed, are
      single bytes that occur in no multi-byte sequence.
    - A method that can raise returns a [result]; [Raise e] stands for the
      exception leaving the method.
    - [self] is passed explicitly; a method that updates the counters or the
      identifier set returns the updated converter.
    - Generators are run to completion, as [list(tweet_batch)] does in
      [process]. The two generators that [process] chains take turns, but
      they write to different counters and only one of them to the
      identifier set, so running one after the other gives the same rows
      and the same converter.
    - pandas and [json] are libraries the program calls: a table is its
      column labels and its rows of cells, [json_normalize] is the
      flattening of nested dictionaries into dotted key paths, and
      [json.dumps] is a parameter. The column types that pandas infers are
      not modelled: a cell holds the value of the record. pandas keeps a
      string or a list as it is, and the statements about the values of
      cells are about these; what it makes of a number, a boolean or
      [None] depends on the other cells of the column, and nothing is
      stated about it. *)

From stdpp Require Import gmap strings list.
From Stdlib Require Import ZArith Ascii.

#[local] Set Warnings "-register-all,-clear-no-such-hyp".

Local Open Scope Z_scope.

(** ** Python values *)

Inductive value : Type :=
| VNone
| VBool (b : bool)
| VInt (n : Z)
| VStr (s : string)
| VList (l : list value)
| VDict (d : list (string * value)).

Abbreviation dict := (list (string * value)).

Inductive pyerr : Type := KeyError | TypeError | ValueError.

(** [Unmodelled] marks the one place where the source goes on with a value
    this embedding has no room for: a dictionary key that is not a string. *)
Inductive result (A : Type) : Type :=
| Ok (a : A)
| Raise (e : pyerr)
| Unmodelled.

Arguments Ok {A} a.
Arguments Raise {A} e.
Arguments Unmodelled {A}.

Definition bind {A B : Type} (m : result A) (f : A -> result B) : result B :=
  match m with
  | Ok a => f a
  | Raise e => Raise e
  | Unmodelled => Unmodelled
  end.

Notation "'let*' x ':=' m 'in' k" := (bind m (fun x => k))
  (at level 10, x pattern, m at level 100, k at level 200).

Fixpoint mapM {A B : Type} (f : A -> result B) (l : list A) : result (list B) :=
  match l with
  | [] => Ok []
  | x :: r =>
      let* y := f x in
      let* ys := mapM f r in
      Ok (y :: ys)
  end.

(** [bool(v)] *)
Definition truthy (v : value) : bool :=
  match v with
  | VNone => false
  | VBool b => b
  | VInt n => negb (n =? 0)
  | VStr s => negb (String.eqb s "")
  | VList l => match l with [] => false | _ :: _ => true end
  | VDict d => match d with [] => false | _ :: _ => true end
  end.

(** [v == s] for a string literal [s] *)
Definition eq_str (v : value) (s : string) : bool :=
  match v with
  | VStr x => String.eqb x s
  | _ => false
  end.

(** [iter(v)]: a list gives its items, a dict its keys, a str its
    characters; anything else is not iterable. *)
Definition py_iter (v : value) : result (list value) :=
  match v with
  | VList l => Ok l
  | VDict d => Ok (map (fun kv => VStr (fst kv)) d)
  | VStr s => Ok (map (fun c => VStr (String c "")) (String.list_ascii_of_string s))
  | _ => Raise TypeError
  end.

(** *** Hashable values, as the members of a [set] *)

Inductive key : Type := KNone | KInt (n : Z) | KStr (s : string).

Global Instance key_eq_dec : EqDecision key.
Proof. solve_decision. Defined.

Definition key_encode (k : key) : unit + Z + string :=
  match k with
  | KNone => inl (inl tt)
  | KInt n => inl (inr n)
  | KStr s => inr s
  end.

Definition key_decode (x : unit + Z + string) : key :=
  match x with
  | inl (inl _) => KNone
  | inl (inr n) => KInt n
  | inr s => KStr s
  end.

Global Instance key_countable : Countable key.
Proof.
  apply (inj_countable' key_encode key_decode).
  intros []; reflexivity.
Defined.

(** [hash(v)]: [True == 1] and [False == 0] in Python, so a boolean and the
    integer it equals are one member of a set; lists and dicts are
    unhashable. *)
Definition hash_key (v : value) : result key :=
  match v with
  | VNone => Ok KNone
  | VBool b => Ok (KInt (if b then 1 else 0))
  | VInt n => Ok (KInt n)
  | VStr s => Ok (KStr s)
  | VList _ | VDict _ => Raise TypeError
  end.

(** *** Dictionaries *)

(** [k in d] *)
Definition dict_in (k : string) (d : dict) : bool :=
  existsb (fun kv => String.eqb (fst kv) k) d.

(** [d.get(k)], with [None] of [option] for an absent key *)
Fixpoint dict_get (k : string) (d : dict) : option value :=
  match d with
  | [] => None
  | (k', v) :: r => if String.eqb k' k then Some v else dict_get k r
  end.

(** [d[k]] *)
Definition dict_item (k : string) (d : dict) : result value :=
  match dict_get k d with
  | Some v => Ok v
  | None => Raise KeyError
  end.

(** [d[k] = v]: an existing key keeps its place, a new one goes last. *)
Fixpoint dict_set (k : string) (v : value) (d : dict) : dict :=
  match d with
  | [] => [(k, v)]
  | (k', v') :: r =>
      if String.eqb k' k then (k, v) :: r else (k', v') :: dict_set k v r
  end.

(** [d.pop(k, None)]: the value taken and the dictionary left *)
Definition dict_del (k : string) (d : dict) : dict :=
  List.filter (fun kv => negb (String.eqb (fst kv) k)) d.

Definition dict_pop (k : string) (d : dict) : value * dict :=
  (match dict_get k d with Some v => v | None => VNone end, dict_del k d).

(** [v[k]] for a string [k]: only a dict can be subscripted by a string. *)
Definition subscript (v : value) (k : string) : result value :=
  match v with
  | VDict d => dict_item k d
  | _ => Raise TypeError
  end.

(** ** Strings *)

Definition LF : ascii := ascii_of_nat 10.
Definition CR : ascii := ascii_of_nat 13.

(** [s.split(sep)] for a one-character separator *)
Fixpoint split_on (sep : ascii) (s : string) : list string :=
  match s with
  | EmptyString => [""]
  | String c r =>
      if Ascii.eqb c sep then "" :: split_on sep r
      else match split_on sep r with
           | h :: t => String c h :: t
           | [] => [String c ""]
           end
  end.

(** [p in s] for two strings: [p] occurs in [s] *)
Fixpoint str_contains (p s : string) : bool :=
  String.prefix p s ||
  match s with
  | EmptyString => false
  | String _ r => str_contains p r
  end.

(** Iterating a [str] gives its characters as one-character strings. *)
Definition chars (s : string) : list string :=
  map (fun c => String c "") (String.list_ascii_of_string s).

(** [x in l] for a list of strings *)
Definition py_in (x : string) (l : list string) : bool :=
  existsb (String.eqb x) l.

(** ** The default columns *)

Definition DEFAULT_TWEET_COLUMNS : list string := split_on LF "id
conversation_id
referenced_tweets.replied_to.id
referenced_tweets.retweeted.id
referenced_tweets.quoted.id
author_id
in_reply_to_user_id
retweeted_user_id
quoted_user_id
created_at
text
lang
source
public_metrics.like_count
public_metrics.quote_count
public_metrics.reply_count
public_metrics.retweet_count
reply_settings
possibly_sensitive
withheld.scope
withheld.copyright
withheld.country_codes
entities.annotations
entities.cashtags
entities.hashtags
entities.mentions
entities.urls
context_annotations
attachments.media
attachments.media_keys
attachments.poll.duration_minutes
attachments.poll.end_datetime
attachments.poll.id
attachments.poll.options
attachments.poll.voting_status
attachments.poll_ids
author.id
author.created_at
author.username
author.name
author.description
author.entities.description.cashtags
author.entities.description.hashtags
author.entities.description.mentions
author.entities.description.urls
author.entities.url.urls
author.location
author.pinned_tweet_id
author.profile_image_url
author.protected
author.public_metrics.followers_count
author.public_metrics.following_count
author.public_metrics.listed_count
author.public_metrics.tweet_count
author.url
author.verified
author.withheld.scope
author.withheld.copyright
author.withheld.country_codes
geo.coordinates.coordinates
geo.coordinates.type
geo.country
geo.country_code
geo.full_name
geo.geo.bbox
geo.geo.type
geo.id
geo.name
geo.place_id
geo.place_type
__twarc.retrieved_at
__twarc.url
__twarc.version
".

Definition DEFAULT_USER_COLUMNS : list string := split_on LF "id
created_at
username
name
description
entities.description.cashtags
entities.description.hashtags
entities.description.mentions
entities.description.urls
entities.url.urls
location
pinned_tweet_id
pinned_tweet
profile_image_url
protected
public_metrics.followers_count
public_metrics.following_count
public_metrics.listed_count
public_metrics.tweet_count
url
verified
withheld.scope
withheld.copyright
withheld.country_codes
__twarc.retrieved_at
__twarc.url
__twarc.version
".

Definition DEFAULT_COMPLIANCE_COLUMNS : list string := split_on LF "id
action
created_at
redacted_at
reason
".

(** The counts constant is the text itself: the source does not split it. *)
Definition DEFAULT_COUNTS_COLUMNS : string := "start
end
count
".

(** ** The converter *)

Module Counts.
Record t : Type := mk {
  lines : Z;
  tweets : Z;
  referenced_tweets : Z;
  retweets : Z;
  quotes : Z;
  replies : Z;
  unavailable : Z;
  non_tweets : Z;
  parse_errors : Z;
  duplicates : Z;
  rows : Z;
  input_columns : Z;
  output_columns : Z
}.
End Counts.

Record DataFrameConverter : Type := mkConverter {
  json_encode_all : bool;
  json_encode_text : bool;
  json_encode_lists : bool;
  inline_referenced_tweets : bool;
  merge_retweets : bool;
  allow_duplicates : bool;
  columns : list string;
  output_columns : list string;
  dataset_ids : gset key;
  counts : Counts.t
}.

(** The keyword arguments of [DataFrameConverter.__init__] *)
Record init_args : Type := mkArgs {
  arg_input_data_type : string;
  arg_json_encode_all : bool;
  arg_json_encode_text : bool;
  arg_json_encode_lists : bool;
  arg_inline_referenced_tweets : bool;
  arg_merge_retweets : bool;
  arg_allow_duplicates : bool;
  arg_extra_input_columns : string;
  arg_output_columns : string;
  arg_dataset_ids : option (gset key);
  arg_counts : option Counts.t
}.

Definition default_args : init_args :=
  {| arg_input_data_type := "tweets";
     arg_json_encode_all := false;
     arg_json_encode_text := false;
     arg_json_encode_lists := true;
     arg_inline_referenced_tweets := false;
     arg_merge_retweets := true;
     arg_allow_duplicates := false;
     arg_extra_input_columns := "";
     arg_output_columns := "";
     arg_dataset_ids := None;
     arg_counts := None |}.

(** [cols.extend(x for x in xs if x not in cols)]: [list.extend] appends
    each item as the generator produces it, so the test [x not in cols]
    already sees the items appended before [x]. *)
Fixpoint extend_new (cols xs : list string) : list string :=
  match xs with
  | [] => cols
  | x :: r => extend_new (if py_in x cols then cols else cols ++ [x]) r
  end.

Definition init_columns (input_data_type extra_input_columns : string) : list string :=
  let cols := [] in
  let cols := if str_contains "tweets" input_data_type
              then extend_new cols DEFAULT_TWEET_COLUMNS else cols in
  let cols := if str_contains "users" input_data_type
              then extend_new cols DEFAULT_USER_COLUMNS else cols in
  let cols := if str_contains "compliance" input_data_type
              then extend_new cols DEFAULT_COMPLIANCE_COLUMNS else cols in
  let cols := if str_contains "counts" input_data_type
              then extend_new cols (chars DEFAULT_COUNTS_COLUMNS) else cols in
  if negb (String.eqb extra_input_columns "")
  then extend_new cols (split_on "," extra_input_columns)
  else cols.

Definition __init__ (a : init_args) : DataFrameConverter :=
  let cols := init_columns (arg_input_data_type a) (arg_extra_input_columns a) in
  {| json_encode_all := arg_json_encode_all a;
     json_encode_text := arg_json_encode_text a;
     json_encode_lists := arg_json_encode_lists a;
     inline_referenced_tweets := arg_inline_referenced_tweets a;
     merge_retweets := arg_merge_retweets a;
     allow_duplicates := arg_allow_duplicates a;
     columns := cols;
     output_columns :=
       if negb (String.eqb (arg_output_columns a) "")
       then split_on "," (arg_output_columns a) else cols;
     dataset_ids :=
       match arg_dataset_ids a with
       | Some s => s
       | None => ∅
       end;
     counts :=
       match arg_counts a with
       | Some c => c
       | None =>
           {| Counts.lines := 0; Counts.tweets := 0;
              Counts.referenced_tweets := 0; Counts.retweets := 0;
              Counts.quotes := 0; Counts.replies := 0;
              Counts.unavailable := 0; Counts.non_tweets := 0;
              Counts.parse_errors := 0; Counts.duplicates := 0;
              Counts.rows := 0;
              Counts.input_columns := Z.of_nat (length cols);
              Counts.output_columns :=
                Z.of_nat (String.length (arg_output_columns a)) |}
       end |}.

(** ** [_format_tweet] *)

(** [copy.deepcopy]: a value of the embedding is never shared, so its copy is
    the value itself; every update below builds a new dictionary. *)
Definition deepcopy (tweet : dict) : dict := tweet.

(** [[t for t in refs if t["type"] == kind]] *)
Fixpoint of_type (kind : string) (refs : list value) : result (list dict) :=
  match refs with
  | [] => Ok []
  | t :: r =>
      let* ty := subscript t "type" in
      let* rest := of_type kind r in
      match t with
      | VDict d => Ok (if eq_str ty kind then d :: rest else rest)
      | _ => Raise TypeError
      end
  end.

(** [tweet[k] = src[k]] when [src] is there, is not empty and has [k] *)
Definition copy_author_id (k : string) (src : option dict) (tweet : dict) : dict :=
  match src with
  | Some d =>
      if truthy (VDict d) && dict_in "author_id" d
      then match dict_get "author_id" d with
           | Some a => dict_set k a tweet
           | None => tweet
           end
      else tweet
  | None => tweet
  end.

(** The five assignments [tweet[f] = retweeted_tweet.pop(f, None)]: the
    record after them and what is left of the retweeted entry. *)
Definition inherit_retweet (tweet retweeted_tweet : dict) : dict * dict :=
  let '(v, rt) := dict_pop "text" retweeted_tweet in
  let tweet := dict_set "text" v tweet in
  let '(v, rt) := dict_pop "entities" rt in
  let tweet := dict_set "entities" v tweet in
  let '(v, rt) := dict_pop "attachments" rt in
  let tweet := dict_set "attachments" v tweet in
  let '(v, rt) := dict_pop "context_annotations" rt in
  let tweet := dict_set "context_annotations" v tweet in
  let '(v, rt) := dict_pop "public_metrics" rt in
  let tweet := dict_set "public_metrics" v tweet in
  (tweet, rt).

Definition has_type (kind : string) (t : value) : bool :=
  match t with
  | VDict d => match dict_get "type" d with
               | Some ty => eq_str ty kind
               | None => false
               end
  | _ => false
  end.

(** [rts[-1]] is an item of the list [tweet["referenced_tweets"]], the last
    one of its kind: what is popped from it is gone from that item. *)
Fixpoint replace_last (p : value -> bool) (new : value) (l : list value) : list value :=
  match l with
  | [] => []
  | x :: r =>
      if p x && negb (existsb p r) then new :: r
      else x :: replace_last p new r
  end.

(** [{r["type"]: {"id": r["id"]}}] *)
Definition ref_entry (r : value) : result dict :=
  let* ty := subscript r "type" in
  let* id := subscript r "id" in
  match ty with
  | VStr kind => Ok [(kind, VDict [("id", id)])]
  | VList _ | VDict _ => Raise TypeError
  | VNone | VBool _ | VInt _ => Unmodelled
  end.

(** *** [collections.ChainMap]

    A lookup goes through the maps in the order given and stops at the
    first one that has the key; the keys are listed from the last map to
    the first, each once. *)
Fixpoint ChainMap_get (k : string) (maps : list dict) : option value :=
  match maps with
  | [] => None
  | m :: r => match dict_get k m with
              | Some v => Some v
              | None => ChainMap_get k r
              end
  end.

Definition ChainMap_keys (maps : list dict) : list string :=
  fold_left (fun ks m => extend_new ks (map fst m)) (rev maps) [].

(** [dict(ChainMap( *maps ))] *)
Definition dict_of_ChainMap (maps : list dict) : dict :=
  flat_map (fun k => match ChainMap_get k maps with
                     | Some v => [(k, v)]
                     | None => []
                     end) (ChainMap_keys maps).

(** [if k in tweet and not tweet[k]: tweet.pop(k, None)] *)
Definition drop_if_empty (k : string) (tweet : dict) : dict :=
  match dict_get k tweet with
  | Some v => if truthy v then tweet else dict_del k tweet
  | None => tweet
  end.

Definition _format_tweet (self : DataFrameConverter) (tweet : dict) : result dict :=
  let tweet := deepcopy tweet in
  let tweet := snd (dict_pop "pinned_tweet" tweet) in
  let tweet := snd (dict_pop "in_reply_to_user" tweet) in
  let* tweet :=
    match dict_get "referenced_tweets" tweet with
    | Some referenced =>
        let* refs := py_iter referenced in
        let* rts := of_type "retweeted" refs in
        let retweeted_tweet := last rts in
        let tweet := copy_author_id "retweeted_user_id" retweeted_tweet tweet in
        let* qts := of_type "quoted" refs in
        let quoted_tweet := last qts in
        let tweet := copy_author_id "quoted_user_id" quoted_tweet tweet in
        let '(tweet, refs) :=
          match retweeted_tweet with
          | Some rt =>
              if truthy (VDict rt) && merge_retweets self
              then let '(tweet, rt') := inherit_retweet tweet rt in
                   (tweet, replace_last (has_type "retweeted") (VDict rt') refs)
              else (tweet, refs)
          | None => (tweet, refs)
          end in
        let* referenced_tweets := mapM ref_entry refs in
        Ok (dict_set "referenced_tweets"
                     (VDict (dict_of_ChainMap referenced_tweets)) tweet)
    | None => Ok (dict_set "referenced_tweets" (VDict []) tweet)
    end in
  let tweet := snd (dict_pop "type" tweet) in
  let tweet := drop_if_empty "attachments" tweet in
  let tweet := drop_if_empty "entities" tweet in
  let tweet := drop_if_empty "public_metrics" tweet in
  Ok tweet.

(** ** Counters *)

Definition with_counts (self : DataFrameConverter) (c : Counts.t) : DataFrameConverter :=
  {| json_encode_all := json_encode_all self;
     json_encode_text := json_encode_text self;
     json_encode_lists := json_encode_lists self;
     inline_referenced_tweets := inline_referenced_tweets self;
     merge_retweets := merge_retweets self;
     allow_duplicates := allow_duplicates self;
     columns := columns self;
     output_columns := output_columns self;
     dataset_ids := dataset_ids self;
     counts := c |}.

Definition with_dataset_ids (self : DataFrameConverter) (ids : gset key) : DataFrameConverter :=
  {| json_encode_all := json_encode_all self;
     json_encode_text := json_encode_text self;
     json_encode_lists := json_encode_lists self;
     inline_referenced_tweets := inline_referenced_tweets self;
     merge_retweets := merge_retweets self;
     allow_duplicates := allow_duplicates self;
     columns := columns self;
     output_columns := output_columns self;
     dataset_ids := ids;
     counts := counts self |}.

Inductive counter : Type :=
| c_tweets | c_referenced_tweets | c_unavailable | c_non_tweets
| c_parse_errors | c_duplicates.

(** [self.counts[name] += n] *)
Definition add_count (name : counter) (n : Z) (self : DataFrameConverter) : DataFrameConverter :=
  let c := counts self in
  let bump (this : counter) (old : Z) : Z :=
    match name, this with
    | c_tweets, c_tweets | c_referenced_tweets, c_referenced_tweets
    | c_unavailable, c_unavailable | c_non_tweets, c_non_tweets
    | c_parse_errors, c_parse_errors | c_duplicates, c_duplicates => old + n
    | _, _ => old
    end in
  with_counts self
    {| Counts.lines := Counts.lines c;
       Counts.tweets := bump c_tweets (Counts.tweets c);
       Counts.referenced_tweets := bump c_referenced_tweets (Counts.referenced_tweets c);
       Counts.retweets := Counts.retweets c;
       Counts.quotes := Counts.quotes c;
       Counts.replies := Counts.replies c;
       Counts.unavailable := bump c_unavailable (Counts.unavailable c);
       Counts.non_tweets := bump c_non_tweets (Counts.non_tweets c);
       Counts.parse_errors := bump c_parse_errors (Counts.parse_errors c);
       Counts.duplicates := bump c_duplicates (Counts.duplicates c);
       Counts.rows := Counts.rows c;
       Counts.input_columns := Counts.input_columns c;
       Counts.output_columns := Counts.output_columns c |}.

(** ** [_inline_referenced_tweets] *)

(** [tweet["__twarc"] if "__twarc" in tweet else None] *)
Definition parent_twarc (tweet : dict) : value :=
  match dict_get "__twarc" tweet with
  | Some v => v
  | None => VNone
  end.

(** The body of the loop over [tweet["referenced_tweets"]]: the rows
    yielded, the items of the list as the loop leaves them (each one now
    carries [__twarc]) and the converter with its counters. *)
Fixpoint inline_loop (self : DataFrameConverter) (tweet : dict) (refs : list value)
  : result (list dict * list value * DataFrameConverter) :=
  match refs with
  | [] => Ok ([], [], self)
  | referenced_tweet :: rest =>
      let self := add_count c_referenced_tweets 1 self in
      match referenced_tweet with
      | VDict d =>
          let d := dict_set "__twarc" (parent_twarc tweet) d in
          let* (yielded, self) :=
            if (3 <? Z.of_nat (length d))
            then let* row := _format_tweet self d in Ok ([row], self)
            else Ok ([], add_count c_unavailable 1 self) in
          let* (rows, rest', self) := inline_loop self tweet rest in
          Ok (yielded ++ rows, VDict d :: rest', self)
      | _ => Raise TypeError
      end
  end.

(** The rows yielded, in order, the caller's [tweet] as the call leaves it,
    and the converter. *)
Definition _inline_referenced_tweets (self : DataFrameConverter) (tweet : dict)
  : result (list dict * dict * DataFrameConverter) :=
  if dict_in "referenced_tweets" tweet && inline_referenced_tweets self then
    let* referenced := dict_item "referenced_tweets" tweet in
    let* refs := py_iter referenced in
    let* (rows, refs', self) := inline_loop self tweet refs in
    let tweet :=
      match referenced with
      | VList _ => dict_set "referenced_tweets" (VList refs') tweet
      | _ => tweet
      end in
    let* row := _format_tweet self tweet in
    Ok (rows ++ [row], tweet, self)
  else
    let* row := _format_tweet self tweet in
    Ok ([row], tweet, self).

(** ** [_process_tweets] *)

Fixpoint _process_tweets (self : DataFrameConverter) (tweets : list dict)
  : result (list dict * DataFrameConverter) :=
  match tweets with
  | [] => Ok ([], self)
  | tweet :: rest =>
      if dict_in "id" tweet then
        let* tweet_id := dict_item "id" tweet in
        let self := add_count c_tweets 1 self in
        let* k := hash_key tweet_id in
        let self := if bool_decide (k ∈ dataset_ids self)
                    then add_count c_duplicates 1 self else self in
        let yielded :=
          if allow_duplicates self then [tweet]
          else if negb (bool_decide (k ∈ dataset_ids self)) then [tweet]
          else [] in
        let self := with_dataset_ids self ({[k]} ∪ dataset_ids self) in
        let* (out, self) := _process_tweets self rest in
        Ok (yielded ++ out, self)
      else
        let self := add_count c_non_tweets 1 self in
        _process_tweets self rest
  end.

(** ** Tables *)

(** A cell holds a Python object or the missing-value marker, [NaN]. *)
Inductive cell : Type := NaN | Cell (v : value).

(** A table: its column labels and its rows, each row with one cell per
    column, in the order of the labels. *)
Record DataFrame : Type := mkDataFrame {
  df_columns : list string;
  df_rows : list (list cell)
}.

(** *** [pandas.json_normalize]

    pandas is a library the program calls. With the arguments that
    [process] gives it, [json_normalize] of pandas 2 is the table of the
    records that [_simple_json_normalize] makes, by the three functions
    below: a nested dictionary is replaced by its items, their keys
    prefixed with the path to it and a dot, so that an empty dictionary
    leaves nothing; any other value, a list included, is a cell. The
    columns are the key paths of all records, each once, in the order met;
    [process] reindexes the table, so that this order shows nowhere but in
    the diagnostic. *)

(** [isinstance(v, dict)] *)
Definition is_dict (v : value) : bool :=
  match v with
  | VDict _ => true
  | _ => false
  end.

(** [_normalise_json(data, key_string, normalized_dict, separator=".")]:
    the new key is [key_string + "." + key], without the leading dot when
    [key_string] is empty. *)
Fixpoint _normalise_json (data : value) (key_string : string) (normalized_dict : dict)
  {struct data} : dict :=
  match data with
  | VDict d =>
      (fix items (d : dict) (normalized_dict : dict) {struct d} : dict :=
         match d with
         | [] => normalized_dict
         | (key, v) :: r =>
             let new_key :=
               if String.eqb key_string "" then key
               else key_string +:+ "." +:+ key in
             items r (_normalise_json v new_key normalized_dict)
         end) d normalized_dict
  | _ => dict_set key_string data normalized_dict
  end.

(** [{**a, **b}]: the items of [a], then those of [b] set one by one. *)
Definition dict_merge (a b : dict) : dict :=
  fold_left (fun acc kv => dict_set (fst kv) (snd kv) acc) b a.

(** [_normalise_json_ordered(data, separator=".")]: the items of the top
    level that are no dictionaries come first, and a nested key path goes
    over a key of the top level that reads the same. *)
Definition _normalise_json_ordered (data : dict) : dict :=
  let top_dict_ := List.filter (fun kv => negb (is_dict (snd kv))) data in
  let nested_dict_ :=
    _normalise_json (VDict (List.filter (fun kv => is_dict (snd kv)) data)) "" [] in
  dict_merge top_dict_ nested_dict_.

(** [_simple_json_normalize(ds)] on a list of records *)
Definition _simple_json_normalize (ds : list dict) : list dict :=
  map _normalise_json_ordered ds.

Definition row_of (cols : list string) (record : dict) : list cell :=
  map (fun c => match dict_get c record with
                | Some v => Cell v
                | None => NaN
                end) cols.

(** [DataFrame(_simple_json_normalize(data))]: a row per record, with the
    missing-value marker where the record has no value for the column. *)
Definition json_normalize (data : list dict) : DataFrame :=
  let records := _simple_json_normalize data in
  let cols := fold_left (fun cols r => extend_new cols (map fst r)) records [] in
  {| df_columns := cols; df_rows := map (row_of cols) records |}.

(** [len(df)] *)
Definition df_len (df : DataFrame) : nat := length (df_rows df).

(** [df.reindex(columns=cols)]: the cells of the columns asked for, in
    that order; a column the table does not have is all missing. *)
Fixpoint cell_at (labels : list string) (row : list cell) (c : string) : cell :=
  match labels, row with
  | l :: ls, x :: xs => if String.eqb l c then x else cell_at ls xs c
  | _, _ => NaN
  end.

Definition reindex (cols : list string) (df : DataFrame) : DataFrame :=
  {| df_columns := cols;
     df_rows := map (fun row => map (cell_at (df_columns df) row) cols) (df_rows df) |}.

(** [pd.DataFrame(columns=cols)] *)
Definition empty_frame (cols : list string) : DataFrame :=
  {| df_columns := cols; df_rows := [] |}.

(** [df.applymap(f, na_action="ignore")]: [f] on every cell that is not
    missing; [None] counts as missing. *)
Definition applymap (f : value -> value) (df : DataFrame) : DataFrame :=
  {| df_columns := df_columns df;
     df_rows := map (map (fun c => match c with
                                   | NaN | Cell VNone => c
                                   | Cell v => Cell (f v)
                                   end)) (df_rows df) |}.

(** ** Cell escaping *)

(** [s.replace(old, new)] for a one-character [old] *)
Fixpoint replace (old : ascii) (new : string) (s : string) : string :=
  match s with
  | EmptyString => EmptyString
  | String c r =>
      if Ascii.eqb c old then new +:+ replace old new r
      else String c (replace old new r)
  end.

(** [r"\n"]: a backslash and the letter n *)
Definition backslash_n : string := String (ascii_of_nat 92) "n".

(** [lambda x: x.replace("\r", "").replace("\n", r"\n") if type(x) is str else x] *)
Definition escape_newlines (x : value) : value :=
  match x with
  | VStr s => VStr (replace LF backslash_n (replace CR "" s))
  | _ => x
  end.

(** [pd.api.types.is_list_like] on the values a cell can hold *)
Definition is_list_like (x : value) : bool :=
  match x with
  | VList _ | VDict _ => true
  | _ => false
  end.

(** A diagnostic of [process]: what the two messages, on the terminal and in
    the log, are made of. The unexpected keys come out of a Python [set], in
    no order the program controls; they are listed here in column order. *)
Record diagnostic : Type := mkDiagnostic {
  unexpected : list string;
  expected_columns : nat;
  got_columns : nat;
  skipped : nat
}.

Section Converter.

(** [json.dumps] and twarc's [ensure_flattened] are functions the program
    imports. *)
Variable json_dumps : value -> string.
Variable ensure_flattened : value -> result (list dict).

Definition _process_dataframe (self : DataFrameConverter) (_df : DataFrame) : DataFrame :=
  if json_encode_all self then
    applymap (fun x => VStr (json_dumps x)) _df
  else
    let _df :=
      if json_encode_text self then
        applymap (fun x => match x with
                           | VStr _ => VStr (json_dumps x)
                           | _ => x
                           end) _df
      else applymap escape_newlines _df in
    if json_encode_lists self then
      applymap (fun x => if is_list_like x then VStr (json_dumps x) else x) _df
    else _df.

Fixpoint _generate_tweets (objects : list value) : result (list dict) :=
  match objects with
  | [] => Ok []
  | item :: rest =>
      let* tweets := ensure_flattened item in
      let* more := _generate_tweets rest in
      Ok (tweets ++ more)
  end.

(** [itertools.chain.from_iterable(...)] over the flattened tweets, run
    to the end: for each tweet, the rows of [_inline_referenced_tweets] go
    through [_process_tweets]. *)
Fixpoint tweet_batch (self : DataFrameConverter) (tweets : list dict)
  : result (list dict * DataFrameConverter) :=
  match tweets with
  | [] => Ok ([], self)
  | tweet :: rest =>
      let* (inlined, _, self) := _inline_referenced_tweets self tweet in
      let* (rows, self) := _process_tweets self inlined in
      let* (more, self) := tweet_batch self rest in
      Ok (rows ++ more, self)
  end.

(** [set(_df.columns) - set(self.columns)] *)
Definition column_diff (self : DataFrameConverter) (_df : DataFrame) : list string :=
  List.filter (fun c => negb (py_in c (columns self))) (df_columns _df).

(** The second half of [process], from the list of rows on. *)
Definition reconcile (self : DataFrameConverter) (batch : list dict)
  : DataFrame * DataFrameConverter * list diagnostic :=
  let _df := json_normalize batch in
  let diff := column_diff self _df in
  if (0 <? Z.of_nat (length diff)) then
    let message :=
      {| unexpected := diff;
         expected_columns := length (columns self);
         got_columns := length (df_columns _df);
         skipped := df_len _df |} in
    let self := add_count c_parse_errors (Z.of_nat (df_len _df)) self in
    (empty_frame (columns self), self, [message])
  else
    (_process_dataframe self (reindex (columns self) _df), self, []).

Definition process (self : DataFrameConverter) (objects : list value)
  : result (DataFrame * DataFrameConverter * list diagnostic) :=
  let* tweets := _generate_tweets objects in
  let* (batch, self) := tweet_batch self tweets in
  Ok (reconcile self batch).

End Converter.

(** ** [CSVConverter]

    The input file is the list of its lines, as [readline] gives them; the
    output file is the list of the writes made to it, one per call of
    [to_csv]. The progress bar is left out: it reads the position in the
    file and is read by no other part of the program. *)

(** White space, as [str.strip] sees it, on the bytes of UTF-8. *)
Definition ascii_space (c : ascii) : bool :=
  let n := nat_of_ascii c in
  (Nat.leb 9 n && Nat.leb n 13) || (Nat.leb 28 n && Nat.leb n 32).

Definition is_byte (n : nat) (c : ascii) : bool := Nat.eqb (nat_of_ascii c) n.

(** [line.strip() == ""]: the line is white space only. Beside the white
    space of ASCII these are U+0085, U+00A0, U+1680, U+2000 to U+200A,
    U+2028, U+2029, U+202F, U+205F and U+3000. *)
Fixpoint is_blank (s : string) : bool :=
  match s with
  | EmptyString => true
  | String c r =>
      if ascii_space c then is_blank r
      else
        match r with
        | String d r1 =>
            if is_byte 194 c then (is_byte 133 d || is_byte 160 d) && is_blank r1
            else
              match r1 with
              | String e r2 =>
                  let n := nat_of_ascii e in
                  (   (is_byte 225 c && is_byte 154 d && is_byte 128 e)
                   || (is_byte 226 c && is_byte 128 d &&
                         ((Nat.leb 128 n && Nat.leb n 138) || is_byte 168 e
                          || is_byte 169 e || is_byte 175 e))
                   || (is_byte 226 c && is_byte 129 d && is_byte 159 e)
                   || (is_byte 227 c && is_byte 128 d && is_byte 128 e))
                  && is_blank r2
              | EmptyString => false
              end
        | EmptyString => false
        end
  end.

(** [self.converter.counts["lines"] += n] and
    [self.converter.counts["rows"] += n] *)
Definition add_lines (n : Z) (self : DataFrameConverter) : DataFrameConverter :=
  let c := counts self in
  with_counts self
    {| Counts.lines := Counts.lines c + n;
       Counts.tweets := Counts.tweets c;
       Counts.referenced_tweets := Counts.referenced_tweets c;
       Counts.retweets := Counts.retweets c;
       Counts.quotes := Counts.quotes c;
       Counts.replies := Counts.replies c;
       Counts.unavailable := Counts.unavailable c;
       Counts.non_tweets := Counts.non_tweets c;
       Counts.parse_errors := Counts.parse_errors c;
       Counts.duplicates := Counts.duplicates c;
       Counts.rows := Counts.rows c;
       Counts.input_columns := Counts.input_columns c;
       Counts.output_columns := Counts.output_columns c |}.

Definition add_rows (n : Z) (self : DataFrameConverter) : DataFrameConverter :=
  let c := counts self in
  with_counts self
    {| Counts.lines := Counts.lines c;
       Counts.tweets := Counts.tweets c;
       Counts.referenced_tweets := Counts.referenced_tweets c;
       Counts.retweets := Counts.retweets c;
       Counts.quotes := Counts.quotes c;
       Counts.replies := Counts.replies c;
       Counts.unavailable := Counts.unavailable c;
       Counts.non_tweets := Counts.non_tweets c;
       Counts.parse_errors := Counts.parse_errors c;
       Counts.duplicates := Counts.duplicates c;
       Counts.rows := Counts.rows c + n;
       Counts.input_columns := Counts.input_columns c;
       Counts.output_columns := Counts.output_columns c |}.

(** One call of [to_csv] on the output file. *)
Record write : Type := mkWrite {
  w_mode : string;
  w_header : bool;
  w_columns : list string;
  w_rows : list (list cell)
}.

(** [_df.to_csv(outfile, mode=mode, columns=cols, index=False,
    header=header)]: pandas selects the columns asked for, in that order,
    and raises [KeyError] when the table lacks one of them. *)
Definition to_csv (_df : DataFrame) (mode : string) (cols : list string) (header : bool)
  : result write :=
  if forallb (fun c => py_in c (df_columns _df)) cols then
    Ok {| w_mode := mode;
          w_header := header;
          w_columns := cols;
          w_rows := map (fun row => map (cell_at (df_columns _df) row) cols)
                        (df_rows _df) |}
  else Raise KeyError.

(** [more_itertools.ichunked(iterable, n)] for [n = S m]: the items in
    groups of [n], the last group with what is left; [room] is the number
    of items the group being filled, [cur], can still take after the next
    one. *)
Fixpoint ichunked_from {A : Type} (m room : nat) (cur : list A) (l : list A)
  : list (list A) :=
  match l with
  | [] => match cur with
          | [] => []
          | _ :: _ => [rev cur]
          end
  | x :: r =>
      match room with
      | O => rev (x :: cur) :: ichunked_from m m [] r
      | S room' => ichunked_from m room' (x :: cur) r
      end
  end.

(** A chunk size that is not positive is outside the embedding. *)
Definition ichunked {A : Type} (l : list A) (n : nat) : result (list (list A)) :=
  match n with
  | O => Unmodelled
  | S m => Ok (ichunked_from m m [] l)
  end.

(** A [CSVConverter]: the lines of the input file, the writes made to the
    output file so far, the diagnostics of [process] so far, the converter
    and the batch size. *)
Record CSVConverter : Type := mkCSVConverter {
  infile : list string;
  outfile : list write;
  stderr : list diagnostic;
  converter : DataFrameConverter;
  batch_size : nat
}.

Definition with_converter (self : CSVConverter) (conv : DataFrameConverter) : CSVConverter :=
  {| infile := infile self;
     outfile := outfile self;
     stderr := stderr self;
     converter := conv;
     batch_size := batch_size self |}.

Section Pipeline.

(** [json.loads], [None] when it raises; [json.dumps]; twarc's
    [ensure_flattened]. *)
Variable json_loads : string -> option value.
Variable json_dumps : value -> string.
Variable ensure_flattened : value -> result (list dict).

(** The objects that [_read_lines] yields, and the converter with its
    counters; the loop ends at the first empty string, which [readline]
    gives at the end of the file. The message that goes to the log for a
    line that [json.loads] refuses is not kept, and the progress bar is
    left out. *)
Fixpoint _read_lines (conv : DataFrameConverter) (lines : list string)
  : list value * DataFrameConverter :=
  match lines with
  | [] => ([], conv)
  | line :: rest =>
      if String.eqb line "" then ([], conv)
      else
        let conv := add_lines 1 conv in
        let '(yielded, conv) :=
          if negb (is_blank line) then
            match json_loads line with
            | Some o => ([o], conv)
            | None => ([], add_count c_parse_errors 1 conv)
            end
          else ([], conv) in
        let '(more, conv) := _read_lines conv rest in
        (yielded ++ more, conv)
  end.

Definition _write_output (self : CSVConverter) (_df : DataFrame) (first_batch : bool)
  : result CSVConverter :=
  let mode := if first_batch then "w" else "a+" in
  let header := first_batch in
  let conv := add_rows (Z.of_nat (df_len _df)) (converter self) in
  let* w := to_csv _df mode (output_columns conv) header in
  Ok {| infile := infile self;
        outfile := outfile self ++ [w];
        stderr := stderr self;
        converter := conv;
        batch_size := batch_size self |}.

(** The loop of [CSVConverter.process] over the batches. *)
Fixpoint write_batches (self : CSVConverter) (first_batch : bool)
    (batches : list (list value)) : result CSVConverter :=
  match batches with
  | [] => Ok self
  | batch :: rest =>
      let* (_df, conv, messages) :=
        process json_dumps ensure_flattened (converter self) batch in
      let self :=
        {| infile := infile self;
           outfile := outfile self;
           stderr := stderr self ++ messages;
           converter := conv;
           batch_size := batch_size self |} in
      let* self := _write_output self _df first_batch in
      write_batches self false rest
  end.

(** [CSVConverter.process]. The program reads the lines of a batch when
    the batch is asked for; the lines are read here before the first batch
    is converted, which gives the same counters since reading and
    converting only add to them. *)
Definition CSVConverter_process (self : CSVConverter) : result CSVConverter :=
  let '(objects, conv) := _read_lines (converter self) (infile self) in
  let* batches := ichunked objects (batch_size self) in
  write_batches (with_converter self conv) true batches.

End Pipeline.

(** ** The command [csv]

    The files are given by their names, the size that [os.stat] reports
    for the input and the lines of the input. What the command prints is
    kept as data: which message, and the numbers that go into it. *)

Record summary : Type := mkSummary {
  sum_tweets : Z;
  sum_lines : Z;
  sum_non_tweets : Z;
  (** referenced, referenced multiple times, not available: only with
      [inline_referenced_tweets] *)
  sum_referenced : option (Z * Z * Z);
  (** failed to parse: only when there are some *)
  sum_errors : option Z;
  sum_rows : Z;
  sum_output_columns : Z;
  sum_input_columns : Z
}.

Inductive echo : Type :=
| CannotConvertInPlace
| InputFileIsEmpty
| Statistics (s : summary).

Record csv_args : Type := mkCsvArgs {
  infile_name : string;
  outfile_name : string;
  infile_size : Z;
  infile_lines : list string;
  input_data_type : string;
  opt_json_encode_all : bool;
  opt_json_encode_text : bool;
  opt_json_encode_lists : bool;
  opt_inline_referenced_tweets : bool;
  opt_merge_retweets : bool;
  opt_allow_duplicates : bool;
  extra_input_columns : string;
  opt_output_columns : string;
  opt_batch_size : nat;
  hide_stats : bool;
  hide_progress : bool
}.

Section Command.

Variable json_loads : string -> option value.
Variable json_dumps : value -> string.
Variable ensure_flattened : value -> result (list dict).

(** What is printed, what is written to the output file and the
    diagnostics of the batches that [process] has skipped. *)
Definition csv (a : csv_args) : result (list echo * list write * list diagnostic) :=
  if String.eqb (infile_name a) (outfile_name a) then
    Ok ([CannotConvertInPlace], [], [])
  else if negb (String.eqb (infile_name a) "<stdin>"
                || String.eqb (outfile_name a) "<stdout>")
          && (infile_size a =? 0) then
    Ok ([InputFileIsEmpty], [], [])
  else
    let conv :=
      __init__ (mkArgs (input_data_type a) (opt_json_encode_all a)
                  (opt_json_encode_text a) (opt_json_encode_lists a)
                  (opt_inline_referenced_tweets a) (opt_merge_retweets a)
                  (opt_allow_duplicates a) (extra_input_columns a)
                  (opt_output_columns a) None None) in
    let writer :=
      {| infile := infile_lines a; outfile := []; stderr := [];
         converter := conv; batch_size := opt_batch_size a |} in
    let* writer := CSVConverter_process json_loads json_dumps ensure_flattened writer in
    let c := counts (converter writer) in
    let printed :=
      if negb (hide_stats a) && negb (String.eqb (outfile_name a) "<stdout>") then
        [Statistics
           {| sum_tweets := Counts.tweets c;
              sum_lines := Counts.lines c;
              sum_non_tweets := Counts.non_tweets c;
              sum_referenced :=
                if opt_inline_referenced_tweets a
                then Some (Counts.referenced_tweets c, Counts.duplicates c,
                           Counts.unavailable c)
                else None;
              sum_errors :=
                if 0 <? Counts.parse_errors c
                then Some (Counts.parse_errors c) else None;
              sum_rows := Counts.rows c;
              sum_output_columns := Counts.output_columns c;
              sum_input_columns := Counts.input_columns c |}]
      else [] in
    Ok (printed, outfile writer, stderr writer).

End Command.



(** * Vocabulary of the properties

    What the statements below are written with: the words of the
    properties, and the records and converters of the examples. *)

(** What [replace] does, character by character. *)
Fixpoint concat_map (f : ascii -> string) (s : string) : string :=
  match s with
  | EmptyString => EmptyString
  | String c r => f c +:+ concat_map f r
  end.

Fixpoint occurs (c : ascii) (s : string) : bool :=
  match s with
  | EmptyString => false
  | String x r => Ascii.eqb x c || occurs c r
  end.

(** The escape of one character: a carriage return goes, a line feed
    becomes a backslash and an n, any other character stays. *)
Definition escape_char (c : ascii) : string :=
  if Ascii.eqb c CR then ""
  else if Ascii.eqb c LF then backslash_n
  else String c "".

(** A stand-in for twarc's [ensure_flattened] on input that is flat
    already: a record is its own flattening. *)
Definition flat_already (item : value) : result (list dict) :=
  match item with
  | VDict d => Ok [d]
  | _ => Raise ValueError
  end.

(** A stand-in for [json.dumps], for the examples in which no cell is
    serialised. *)
Definition no_dumps (x : value) : string := "".

Definition plain_tweet (i : nat) : value :=
  VDict [("id", VInt (Z.of_nat i)); ("text", VStr "hello")].

Definition odd_tweet (i : nat) : value :=
  VDict [("id", VInt (Z.of_nat i)); ("text", VStr "hello"); ("surprise", VInt 1)].

(** Fifty records with fifty identifiers; the one at position 17 has a key
    the schema does not know. *)
Definition fifty : list value :=
  map (fun i => if Nat.eqb i 17 then odd_tweet i else plain_tweet i) (seq 0 50).

Definition a_converter : DataFrameConverter := __init__ default_args.

(** [updated self self']: [self'] is [self] with other counters and
    identifiers; the settings, the columns and the count of parse errors are
    those of [self]. *)
Definition updated (self self' : DataFrameConverter) : Prop :=
  exists ids c,
    self' = with_dataset_ids (with_counts self c) ids /\
    Counts.parse_errors c = Counts.parse_errors (counts self).

(** What a call of [process] shows from outside: the rows of the table, the
    count of parse errors and the diagnostics. *)
Definition observable (r : result (DataFrame * DataFrameConverter * list diagnostic))
  : option (list (list cell) * Z * list diagnostic) :=
  match r with
  | Ok (table, self, messages) =>
      Some (df_rows table, Counts.parse_errors (counts self), messages)
  | _ => None
  end.

(** The member of the identifier set that a record stands for. *)
Definition id_key (t : dict) : option key :=
  match dict_get "id" t with
  | Some v => match hash_key v with
              | Ok k => Some k
              | _ => None
              end
  | None => None
  end.

(** The identifier of the record, if it has one, can be a member of a set. *)
Definition hashable_id (t : dict) : Prop :=
  forall v, dict_get "id" t = Some v -> exists k, hash_key v = Ok k.

(** The converter after a record with identifier [k] went through. *)
Definition seen (self : DataFrameConverter) (k : key) : DataFrameConverter :=
  with_dataset_ids
    (if bool_decide (k ∈ dataset_ids self)
     then add_count c_duplicates 1 (add_count c_tweets 1 self)
     else add_count c_tweets 1 self)
    ({[k]} ∪ dataset_ids self).

Definition tweet_with_id (i : Z) (text : string) : dict :=
  [("id", VInt i); ("text", VStr text)].

(** An entry of a reference list as the API gives it: a dictionary with a
    relation kind, which is a string, and an identifier. *)
Definition wf_ref (v : value) : Prop :=
  exists d kind id,
    v = VDict d /\ dict_get "type" d = Some (VStr kind) /\ dict_get "id" d = Some id.

(** The entries of one kind, in list order. *)
Definition dicts_of_type (kind : string) (refs : list value) : list dict :=
  omap (fun v => match v with
                 | VDict d => if has_type kind v then Some d else None
                 | _ => None
                 end) refs.

(** The one-entry mapping that an entry of the list leaves behind. *)
Definition entry_of (v : value) : dict :=
  match v with
  | VDict d =>
      match dict_get "type" d, dict_get "id" d with
      | Some (VStr kind), Some id => [(kind, VDict [("id", id)])]
      | _, _ => []
      end
  | _ => []
  end.

(** [d.get(f)], what [d.pop(f, None)] gives. *)
Definition taken (f : string) (d : dict) : value := fst (dict_pop f d).

Definition body_fields : list string :=
  ["text"; "entities"; "attachments"; "context_annotations"; "public_metrics"].

(** The record without the two embedded objects. *)
Definition stripped (tweet : dict) : dict :=
  dict_del "in_reply_to_user" (dict_del "pinned_tweet" tweet).

(** The end of [_format_tweet]: the marker [type] and the empty objects go. *)
Definition finish (tweet : dict) : dict :=
  drop_if_empty "public_metrics"
    (drop_if_empty "entities"
       (drop_if_empty "attachments" (dict_del "type" tweet))).

Definition merged (self : DataFrameConverter) (rt : option dict) (tweet : dict) : dict :=
  match rt with
  | Some r => if merge_retweets self then fst (inherit_retweet tweet r) else tweet
  | None => tweet
  end.

(** [last_ref kind tweet d]: the reference list of [tweet] is a list of
    well-formed entries and [d] is the last one of the kind in it. *)
Inductive last_ref (kind : string) (tweet d : dict) : Prop :=
| LastRef (refs pre post : list value) :
    dict_get "referenced_tweets" tweet = Some (VList refs) ->
    Forall wf_ref refs ->
    refs = pre ++ VDict d :: post ->
    has_type kind (VDict d) = true ->
    Forall (fun v => has_type kind v = false) post ->
    last_ref kind tweet d.

(** The record of the examples: a retweet by [me] of a post by [x], with
    two quoted entries after the retweeted one. *)
Definition original : dict :=
  [("type", VStr "retweeted"); ("id", VStr "1"); ("author_id", VStr "x");
   ("text", VStr "original");
   ("public_metrics", VDict [("like_count", VInt 5)])].

Definition quote_a : dict :=
  [("type", VStr "quoted"); ("id", VStr "2"); ("author_id", VStr "a")].

Definition quote_b : dict :=
  [("type", VStr "quoted"); ("id", VStr "3"); ("author_id", VStr "b")].

Definition a_retweet : dict :=
  [("id", VStr "10"); ("author_id", VStr "me"); ("text", VStr "RT @x: orig");
   ("referenced_tweets", VList [VDict original; VDict quote_a; VDict quote_b])].

(** A retweet of a post whose metrics are an empty object; the retweet has
    metrics of its own. *)
Definition bare_original : dict :=
  [("type", VStr "retweeted"); ("id", VStr "1"); ("text", VStr "original");
   ("public_metrics", VDict [])].

Definition a_bare_retweet : dict :=
  [("id", VStr "10"); ("author_id", VStr "me"); ("text", VStr "RT @x: orig");
   ("public_metrics", VDict [("like_count", VInt 0)]);
   ("referenced_tweets", VList [VDict bare_original])].

(** [referenced_tweet["__twarc"] = twarc] on an item of the list *)
Definition with_twarc (twarc : value) (v : value) : value :=
  match v with
  | VDict d => VDict (dict_set "__twarc" twarc d)
  | _ => v
  end.

(** A record that [_format_tweet] takes: no reference list, or a list of
    well-formed entries. *)
Definition formattable (t : dict) : Prop :=
  match dict_get "referenced_tweets" t with
  | None => True
  | Some v => exists refs, v = VList refs /\ Forall wf_ref refs
  end.

(** An entry of a reference list that can be made a row of its own. *)
Definition expandable (v : value) : Prop :=
  exists d, v = VDict d /\ wf_ref v /\ formattable d.

(** The reference list of a record, empty if it has none. *)
Definition references (tweet : dict) : list value :=
  match dict_get "referenced_tweets" tweet with
  | Some (VList refs) => refs
  | _ => []
  end.

(** The entries that [_inline_referenced_tweets] goes through. *)
Definition expanded (self : DataFrameConverter) (tweet : dict) : list value :=
  if inline_referenced_tweets self then references tweet else [].

Definition ref_dicts (refs : list value) : list dict :=
  omap (fun v => match v with VDict d => Some d | _ => None end) refs.

(** More than the three fields [id], [type] and [__twarc]. *)
Definition available (d : dict) : bool := 3 <? Z.of_nat (length d).

Definition an_expander : DataFrameConverter :=
  __init__ (mkArgs "tweets" false false true true true false "" "" None None).

(** A record with its retrieval metadata and one retweeted entry. *)
Definition retrieved : value := VDict [("version", VStr "2.0")].

Definition one_retweet : dict :=
  [("id", VStr "10"); ("author_id", VStr "me"); ("text", VStr "RT @x: orig");
   ("referenced_tweets", VList [VDict original]); ("__twarc", retrieved)].

(** The same with an entry that has its kind and identifier only. *)
Definition gone : dict := [("type", VStr "replied_to"); ("id", VStr "7")].

Definition one_reply : dict :=
  [("id", VStr "11"); ("author_id", VStr "me"); ("text", VStr "no");
   ("referenced_tweets", VList [VDict gone]); ("__twarc", retrieved)].

(** What a call of [_inline_referenced_tweets] shows: the rows and the two
    counters. *)
Definition expansion_view (r : result (list dict * dict * DataFrameConverter))
  : option (list dict * Z * Z) :=
  match r with
  | Ok (rows, _, self) =>
      Some (rows, Counts.referenced_tweets (counts self),
            Counts.unavailable (counts self))
  | _ => None
  end.

(** What the caller's record is after the call. *)
Definition caller_view (r : result (list dict * dict * DataFrameConverter))
  : option dict :=
  match r with
  | Ok (_, tweet, _) => Some tweet
  | _ => None
  end.

(** The keys that [_format_tweet] may write besides [referenced_tweets],
    and the keys it takes away. *)
Definition written_keys : list string :=
  ["retweeted_user_id"; "quoted_user_id"; "text"; "entities"; "attachments";
   "context_annotations"; "public_metrics"].

Definition touched_keys : list string :=
  ["pinned_tweet"; "in_reply_to_user"; "type"; "referenced_tweets"] ++ written_keys.

Definition droppable_keys : list string :=
  ["attachments"; "entities"; "public_metrics"].

(** An entry of a reference list that has a relation kind. *)
Definition typed (v : value) : Prop :=
  exists d ty, v = VDict d /\ dict_get "type" d = Some ty.

(** The settings and the schema of two converters are the same. *)
Definition same_settings (a b : DataFrameConverter) : Prop :=
  json_encode_all b = json_encode_all a /\
  json_encode_text b = json_encode_text a /\
  json_encode_lists b = json_encode_lists a /\
  inline_referenced_tweets b = inline_referenced_tweets a /\
  merge_retweets b = merge_retweets a /\
  allow_duplicates b = allow_duplicates a /\
  columns b = columns a /\
  output_columns b = output_columns a.

(** From [c] to [c'] the counters of the conversion have not gone down and
    the others are as they were. *)
Definition counts_advance (c c' : Counts.t) : Prop :=
  Counts.lines c' = Counts.lines c /\
  Counts.rows c' = Counts.rows c /\
  Counts.retweets c' = Counts.retweets c /\
  Counts.quotes c' = Counts.quotes c /\
  Counts.replies c' = Counts.replies c /\
  Counts.input_columns c' = Counts.input_columns c /\
  Counts.output_columns c' = Counts.output_columns c /\
  Counts.tweets c <= Counts.tweets c' /\
  Counts.referenced_tweets c <= Counts.referenced_tweets c' /\
  Counts.unavailable c <= Counts.unavailable c' /\
  Counts.non_tweets c <= Counts.non_tweets c' /\
  Counts.parse_errors c <= Counts.parse_errors c' /\
  Counts.duplicates c <= Counts.duplicates c'.

Definition advances (self self' : DataFrameConverter) : Prop :=
  same_settings self self' /\
  dataset_ids self ⊆ dataset_ids self' /\
  counts_advance (counts self) (counts self').

(** An object that is no tweet: no [id] and no reference list. *)
Definition non_tweet (t : dict) : Prop :=
  dict_get "id" t = None /\ dict_get "referenced_tweets" t = None.

(** The number of data rows in a list of writes. *)
Definition rows_written (ws : list write) : Z :=
  Z.of_nat (sum_list_with (fun w => length (w_rows w)) ws).

(** [json.loads] raises on the line. *)
Definition unparsable (json_loads : string -> option value) (line : string) : bool :=
  match json_loads line with
  | Some _ => false
  | None => true
  end.

(** The mode and the header flag of a write: those of the first write when
    [first], those of a later one otherwise. *)
Definition write_kind (first : bool) (w : write) : Prop :=
  w_mode w = (if first then "w" else "a+") /\ w_header w = first.

(** The writes of one run, as far as mode and header go. *)
Definition writes_in_order (first : bool) (ws : list write) : Prop :=
  match ws with
  | [] => True
  | w :: later => write_kind first w /\ Forall (write_kind false) later
  end.

(** A write on the columns [cols], with a cell for each in every row. *)
Definition on_columns (cols : list string) (w : write) : Prop :=
  w_columns w = cols /\ Forall (fun row => length row = length cols) (w_rows w).

(** Batches of [n]: none is empty, none has more than [n] items and every
    one but the last has [n]. *)
Definition batches_of (n : nat) (batches : list (list value)) : Prop :=
  Forall (fun b => b <> [] /\ (length b <= n)%nat) batches /\
  forall i b, batches !! i = Some b -> (S i < length batches)%nat -> length b = n.

(** The lines of a file, as [readline] gives them: none is the empty
    string, which marks the end of the file. *)
Definition file_lines (lines : list string) : Prop :=
  Forall (fun line => line <> "") lines.

(** The lines of the file that are not blank, the objects [json.loads]
    makes of them and the lines it refuses. *)
Definition nonblank (lines : list string) : list string :=
  List.filter (fun line => negb (is_blank line)) lines.

Definition parsed (json_loads : string -> option value) (lines : list string)
  : list value :=
  omap json_loads (nonblank lines).

Definition refused (json_loads : string -> option value) (lines : list string)
  : list string :=
  List.filter (unparsable json_loads) (nonblank lines).

(** The converter once the lines have been read. *)
Definition after_reading (json_loads : string -> option value) (lines : list string)
    (conv : DataFrameConverter) : DataFrameConverter :=
  add_count c_parse_errors (Z.of_nat (length (refused json_loads lines)))
    (add_lines (Z.of_nat (length lines)) conv).

(** A stand-in for [json.loads] on the example lines: a line that begins
    with a brace is the record whose identifier is the length of the line,
    any other line is refused. *)
Definition line_record (line : string) : option value :=
  match line with
  | String "{" _ => Some (plain_tweet (String.length line))
  | _ => None
  end.

Definition nl : string := String LF "".

(** Six lines: three records, a blank line, a line that is no JSON and a
    line of spaces. *)
Definition some_lines : list string :=
  ["{1}" +:+ nl; nl; "oops" +:+ nl; "{22}" +:+ nl; "  " +:+ nl; "{333}" +:+ nl].

Definition a_writer : CSVConverter :=
  {| infile := some_lines; outfile := []; stderr := [];
     converter := a_converter; batch_size := 2 |}.

(** A writer that is asked for a column the schema does not have. *)
Definition a_writer_astray : CSVConverter :=
  {| infile := some_lines; outfile := []; stderr := [];
     converter := __init__ (mkArgs "tweets" false false true false true false
                              "" "id,nope" None None);
     batch_size := 2 |}.

Definition some_args (infile_name outfile_name : string) (size : Z)
    (lines : list string) : csv_args :=
  {| infile_name := infile_name; outfile_name := outfile_name;
     infile_size := size; infile_lines := lines;
     input_data_type := "tweets";
     opt_json_encode_all := false; opt_json_encode_text := false;
     opt_json_encode_lists := true; opt_inline_referenced_tweets := false;
     opt_merge_retweets := true; opt_allow_duplicates := false;
     extra_input_columns := ""; opt_output_columns := "";
     opt_batch_size := 2; hide_stats := false; hide_progress := false |}.

(** The command has refused to convert. *)
Definition refusal (printed : list echo) : Prop :=
  CannotConvertInPlace ∈ printed \/ InputFileIsEmpty ∈ printed.



(** * Properties *)

(** ** Strings and column lists *)

Lemma py_in_spec (x : string) (l : list string) : py_in x l = true <-> x ∈ l.
Proof.
  unfold py_in. rewrite existsb_exists. split.
  - intros (y & Hy & E). apply String.eqb_eq in E. subst.
    by apply list_elem_of_In.
  - intros H. exists x. split; [by apply list_elem_of_In | apply String.eqb_refl].
Qed.

Lemma py_in_false (x : string) (l : list string) : py_in x l = false <-> x ∉ l.
Proof.
  rewrite <- py_in_spec. destruct (py_in x l); split; congruence.
Qed.

(** [extend_new] only appends, keeps what is there and adds every new item. *)
Lemma extend_new_app (cols xs : list string) :
  exists added, extend_new cols xs = cols ++ added /\
    (forall x, x ∈ added -> x ∈ xs /\ x ∉ cols) /\
    (forall x, x ∈ xs -> x ∈ cols ++ added).
Proof.
  revert cols. induction xs as [|x r IH]; intros cols; simpl.
  - exists []. rewrite app_nil_r. set_solver.
  - destruct (py_in x cols) eqn:E.
    + apply py_in_spec in E. destruct (IH cols) as (added & -> & H1 & H2).
      exists added. split; [done|]. split.
      * intros y Hy. destruct (H1 y Hy). set_solver.
      * intros y Hy. apply elem_of_cons in Hy as [->|Hy]; [set_solver | by apply H2].
    + apply py_in_false in E.
      destruct (IH (cols ++ [x])) as (added & -> & H1 & H2).
      exists (x :: added). split; [by rewrite <- app_assoc|]. split.
      * intros y Hy. apply elem_of_cons in Hy as [->|Hy]; [set_solver|].
        destruct (H1 y Hy). set_solver.
      * intros y Hy. specialize (H2 y). set_solver.
Qed.

Lemma extend_new_elem (cols xs : list string) (x : string) :
  x ∈ extend_new cols xs <-> x ∈ cols \/ x ∈ xs.
Proof.
  destruct (extend_new_app cols xs) as (added & -> & H1 & H2). split.
  - intros H. apply elem_of_app in H as [H|H]; [by left | right; by apply H1].
  - intros [H|H]; [set_solver | by apply H2].
Qed.

Lemma extend_new_nil (xs : list string) :
  NoDup xs -> extend_new [] xs = xs.
Proof.
  enough (forall cols, NoDup (cols ++ xs) -> extend_new cols xs = cols ++ xs) as H
    by (intros; by apply (H [])).
  induction xs as [|x r IH]; intros cols Hnd; simpl.
  - by rewrite app_nil_r.
  - assert (py_in x cols = false) as ->.
    { apply py_in_false. apply NoDup_app in Hnd as (_ & Hd & _).
      intros Hx. apply (Hd x Hx). set_solver. }
    rewrite IH; rewrite <- app_assoc; done.
Qed.

Lemma append_nil_l (s : string) : "" +:+ s = s.
Proof. reflexivity. Qed.

Lemma append_cons (c : ascii) (r s : string) :
  String c r +:+ s = String c (r +:+ s).
Proof. reflexivity. Qed.

Lemma append_assoc (s1 s2 s3 : string) :
  (s1 +:+ s2) +:+ s3 = s1 +:+ (s2 +:+ s3).
Proof. induction s1 as [|c r IH]; [done|]. by rewrite !append_cons, IH. Qed.

Lemma replace_concat_map (old : ascii) (new s : string) :
  replace old new s =
  concat_map (fun c => if Ascii.eqb c old then new else String c "") s.
Proof.
  induction s as [|c r IH]; simpl; [done|].
  rewrite IH. by destruct (Ascii.eqb c old).
Qed.

Lemma concat_map_app (f : ascii -> string) (s1 s2 : string) :
  concat_map f (s1 +:+ s2) = concat_map f s1 +:+ concat_map f s2.
Proof.
  induction s1 as [|c r IH]; [done|].
  rewrite append_cons. simpl. by rewrite IH, append_assoc.
Qed.

Lemma concat_map_compose (f g : ascii -> string) (s : string) :
  concat_map g (concat_map f s) = concat_map (fun c => concat_map g (f c)) s.
Proof.
  induction s as [|c r IH]; simpl; [done|].
  by rewrite concat_map_app, IH.
Qed.

Lemma concat_map_ext (f g : ascii -> string) (s : string) :
  (forall c, f c = g c) -> concat_map f s = concat_map g s.
Proof.
  intros E. induction s as [|c r IH]; simpl; [done|]. by rewrite E, IH.
Qed.

Lemma occurs_app (c : ascii) (s1 s2 : string) :
  occurs c (s1 +:+ s2) = occurs c s1 || occurs c s2.
Proof.
  induction s1 as [|x r IH]; [done|].
  rewrite append_cons. simpl. by rewrite IH, orb_assoc.
Qed.

Lemma occurs_concat_map (c : ascii) (f : ascii -> string) (s : string) :
  (forall x, occurs c (f x) = false) -> occurs c (concat_map f s) = false.
Proof.
  intros H. induction s as [|x r IH]; simpl; [done|].
  by rewrite occurs_app, H, IH.
Qed.

Lemma escape_newlines_chars (s : string) :
  escape_newlines (VStr s) = VStr (concat_map escape_char s).
Proof.
  simpl. f_equal. rewrite !replace_concat_map, concat_map_compose.
  apply concat_map_ext. intros c. unfold escape_char.
  destruct (Ascii.eqb c CR) eqn:E1; [done|]. simpl.
  by destruct (Ascii.eqb c LF) eqn:E2.
Qed.

Lemma escape_char_clean (c x : ascii) :
  c = CR \/ c = LF -> occurs c (escape_char x) = false.
Proof.
  intros Hc. unfold escape_char.
  destruct (Ascii.eqb x CR) eqn:E1; [done|].
  destruct (Ascii.eqb x LF) eqn:E2; [by destruct Hc as [-> | ->]|].
  simpl. rewrite orb_false_r. by destruct Hc as [-> | ->].
Qed.

(** *** Tables *)

Lemma applymap_columns (f : value -> value) (df : DataFrame) :
  df_columns (applymap f df) = df_columns df.
Proof. reflexivity. Qed.

Lemma applymap_cell (f : value -> value) (df : DataFrame) (i j : nat) :
  df_rows (applymap f df) !! i ≫= (.!! j) =
  (fun c => match c with
            | NaN | Cell VNone => c
            | Cell v => Cell (f v)
            end) <$> (df_rows df !! i ≫= (.!! j)).
Proof.
  unfold applymap. simpl. rewrite list_lookup_fmap.
  destruct (df_rows df !! i) as [row|]; simpl; [|done].
  by rewrite list_lookup_fmap.
Qed.

Section Frames.
Variable json_dumps : value -> string.

Lemma process_dataframe_columns (self : DataFrameConverter) (df : DataFrame) :
  df_columns (_process_dataframe json_dumps self df) = df_columns df.
Proof.
  unfold _process_dataframe.
  by destruct (json_encode_all self), (json_encode_text self),
    (json_encode_lists self).
Qed.

Lemma process_dataframe_shape (self : DataFrameConverter) (df : DataFrame) :
  map length (df_rows (_process_dataframe json_dumps self df)) =
  map length (df_rows df).
Proof.
  unfold _process_dataframe, applymap.
  destruct (json_encode_all self), (json_encode_text self),
    (json_encode_lists self); simpl;
    rewrite <- ?list_fmap_compose; apply list_fmap_ext; intros ? row ?;
    simpl; by rewrite ?length_fmap.
Qed.


(** The cell of a string in the default mode. *)
Lemma process_dataframe_str (self : DataFrameConverter) (df : DataFrame) (i j : nat) (s : string) :
  json_encode_all self = false -> json_encode_text self = false ->
  df_rows df !! i ≫= (.!! j) = Some (Cell (VStr s)) ->
  df_rows (_process_dataframe json_dumps self df) !! i ≫= (.!! j) =
  Some (Cell (VStr (concat_map escape_char s))).
Proof.
  intros E1 E2 H. unfold _process_dataframe. rewrite E1, E2.
  destruct (json_encode_lists self);
    rewrite ?applymap_cell, ?applymap_cell, H; simpl;
    by rewrite !replace_concat_map, concat_map_compose;
    do 3 f_equal; apply concat_map_ext; intros c; unfold escape_char;
    destruct (Ascii.eqb c CR) eqn:?; [done|]; simpl;
    destruct (Ascii.eqb c LF) eqn:?.
Qed.
End Frames.

(** *** Dictionaries *)

Lemma dict_get_None (k : string) (d : dict) :
  dict_get k d = None <-> k ∉ map fst d.
Proof.
  induction d as [|[k' v] r IH]; simpl.
  - split; [set_solver | done].
  - destruct (String.eqb k' k) eqn:E.
    + apply String.eqb_eq in E. subst. split; [done | set_solver].
    + apply String.eqb_neq in E. rewrite IH. set_solver.
Qed.

Lemma dict_in_get (k : string) (d : dict) :
  dict_in k d = match dict_get k d with Some _ => true | None => false end.
Proof.
  unfold dict_in. induction d as [|[k' v] r IH]; simpl; [done|].
  by destruct (String.eqb k' k).
Qed.

Lemma dict_get_set (k k' : string) (v : value) (d : dict) :
  dict_get k (dict_set k' v d) =
  if String.eqb k' k then Some v else dict_get k d.
Proof.
  induction d as [|[k0 v0] r IH]; simpl.
  - by destruct (String.eqb k' k).
  - destruct (String.eqb k0 k') eqn:E0; simpl.
    + apply String.eqb_eq in E0. subst. by destruct (String.eqb k' k).
    + destruct (String.eqb k0 k) eqn:E1; [|done].
      apply String.eqb_eq in E1. subst.
      rewrite String.eqb_sym in E0. by rewrite E0.
Qed.

Lemma dict_get_del (k k' : string) (d : dict) :
  dict_get k (dict_del k' d) =
  if String.eqb k' k then None else dict_get k d.
Proof.
  unfold dict_del. induction d as [|[k0 v0] r IH]; simpl.
  - by destruct (String.eqb k' k).
  - destruct (String.eqb k0 k') eqn:E0; simpl.
    + apply String.eqb_eq in E0. subst.
      rewrite IH. by destruct (String.eqb k' k).
    + rewrite IH. destruct (String.eqb k0 k) eqn:E1; [|done].
      apply String.eqb_eq in E1. subst.
      rewrite String.eqb_sym in E0. by rewrite E0.
Qed.

Lemma dict_get_drop_if_empty (k k' : string) (d : dict) :
  dict_get k (drop_if_empty k' d) =
  if String.eqb k' k
  then match dict_get k d with
       | Some v => if truthy v then Some v else None
       | None => None
       end
  else dict_get k d.
Proof.
  unfold drop_if_empty. destruct (String.eqb k' k) eqn:E.
  - apply String.eqb_eq in E. subst.
    destruct (dict_get k d) as [v|] eqn:G; [|by rewrite G].
    destruct (truthy v); [by rewrite G|].
    by rewrite dict_get_del, String.eqb_refl.
  - destruct (dict_get k' d) as [v|]; [|done].
    destruct (truthy v); [done|]. by rewrite dict_get_del, E.
Qed.

(** *** Reconciling a batch with the schema *)

Lemma json_normalize_columns (batch : list dict) (c : string) :
  c ∈ df_columns (json_normalize batch) <->
  exists t, t ∈ batch /\ c ∈ map fst (_normalise_json_ordered t).
Proof.
  unfold json_normalize, _simple_json_normalize. simpl.
  enough (forall records acc,
    c ∈ fold_left (fun cols r => extend_new cols (map fst r)) records acc <->
    c ∈ acc \/ exists r : dict, r ∈ records /\ c ∈ map fst r) as H.
  { rewrite H. split.
    - intros [H0|(r & Hr & Hc)]; [set_solver|].
      apply list_elem_of_fmap in Hr as (t & -> & Ht). eauto.
    - intros (t & Ht & Hc). right. exists (_normalise_json_ordered t).
      split; [|done]. apply list_elem_of_fmap. eauto. }
  induction records as [|r rs IH]; intros acc; simpl.
  - split; [by left|]. intros [H|(r & Hr & _)]; [done | set_solver].
  - rewrite IH, extend_new_elem. split.
    + intros [[H|H]|(r' & Hr & Hc)]; [by left | right; exists r; set_solver|].
      right. exists r'. set_solver.
    + intros [H|(r' & Hr & Hc)]; [by left; left|].
      apply elem_of_cons in Hr as [->|Hr]; [by left; right|].
      right. eauto.
Qed.

Lemma cell_at_map (labels : list string) (f : string -> cell) (c : string) :
  cell_at labels (map f labels) c = if py_in c labels then f c else NaN.
Proof.
  unfold py_in. induction labels as [|l ls IH]; simpl; [done|].
  rewrite (String.eqb_sym c l). destruct (String.eqb l c) eqn:E; simpl; [|done].
  apply String.eqb_eq in E. by subst.
Qed.

Lemma reindex_json_normalize (cols : list string) (batch : list dict) :
  reindex cols (json_normalize batch) =
  {| df_columns := cols;
     df_rows := map (fun t => row_of cols (_normalise_json_ordered t)) batch |}.
Proof.
  unfold reindex. f_equal.
  set (labels := df_columns (json_normalize batch)).
  assert (forall t c, t ∈ batch -> c ∈ map fst (_normalise_json_ordered t) -> c ∈ labels)
    as Hsub.
  { intros t c Ht Hc. apply json_normalize_columns. eauto. }
  unfold json_normalize, _simple_json_normalize. simpl. fold labels.
  rewrite <- !list_fmap_compose. apply list_fmap_ext. intros i t Hi. simpl.
  apply list_elem_of_lookup_2 in Hi.
  unfold row_of at 2. apply list_fmap_ext. intros j c _.
  unfold row_of. rewrite cell_at_map.
  change (fold_left _ _ _) with labels.
  destruct (py_in c labels) eqn:E; [done|].
  apply py_in_false in E.
  assert (dict_get c (_normalise_json_ordered t) = None) as ->; [|done].
  apply dict_get_None. intros Hc. apply E. by apply (Hsub t).
Qed.

Lemma column_diff_spec (self : DataFrameConverter) (df : DataFrame) (c : string) :
  c ∈ column_diff self df <-> c ∈ df_columns df /\ c ∉ columns self.
Proof.
  unfold column_diff. rewrite list_elem_of_In, filter_In, <- list_elem_of_In.
  rewrite <- py_in_false. destruct (py_in c (columns self)); simpl; naive_solver.
Qed.

Lemma positive_length {A : Type} (l : list A) :
  (0 <? Z.of_nat (length l)) = match l with [] => false | _ :: _ => true end.
Proof. destruct l; simpl; [done|]. apply Z.ltb_lt. lia. Qed.

Section Reconcile.
Variable json_dumps : value -> string.


(** A batch within the schema: every record, row by row, on the columns
    of the schema. *)
Lemma reconcile_accepted (self : DataFrameConverter) (batch : list dict) :
  (forall c, c ∈ df_columns (json_normalize batch) -> c ∈ columns self) ->
  reconcile json_dumps self batch =
  (_process_dataframe json_dumps self
     {| df_columns := columns self;
        df_rows := map (fun t => row_of (columns self) (_normalise_json_ordered t)) batch |},
   self, []).
Proof.
  intros H. unfold reconcile. rewrite positive_length.
  destruct (column_diff self (json_normalize batch)) as [|c l] eqn:E.
  - by rewrite reindex_json_normalize.
  - assert (c ∈ column_diff self (json_normalize batch)) as Hc
      by (rewrite E; set_solver).
    apply column_diff_spec in Hc as [Hc1 Hc2]. by apply H in Hc1.
Qed.
End Reconcile.

(** ** What the stages leave alone *)

Lemma updated_refl (self : DataFrameConverter) : updated self self.
Proof. exists (dataset_ids self), (counts self). by destruct self; split. Qed.

Lemma updated_trans (a b c : DataFrameConverter) :
  updated a b -> updated b c -> updated a c.
Proof.
  intros (i1 & c1 & -> & E1) (i2 & c2 & -> & E2).
  exists i2, c2. split; [done|]. by rewrite E2.
Qed.

Lemma updated_add_count (name : counter) (n : Z) (self : DataFrameConverter) :
  name <> c_parse_errors -> updated self (add_count name n self).
Proof.
  intros Hn. exists (dataset_ids self), (counts (add_count name n self)).
  split; [by destruct self|]. by destruct name.
Qed.

Lemma updated_with_dataset_ids (self : DataFrameConverter) (ids : gset key) :
  updated self (with_dataset_ids self ids).
Proof. exists ids, (counts self). by destruct self; split. Qed.



Lemma updated_merge_retweets (self self' : DataFrameConverter) :
  updated self self' -> merge_retweets self' = merge_retweets self.
Proof. by intros (? & ? & -> & _). Qed.

Lemma updated_allow_duplicates (self self' : DataFrameConverter) :
  updated self self' -> allow_duplicates self' = allow_duplicates self.
Proof. by intros (? & ? & -> & _). Qed.

Lemma updated_inline (self self' : DataFrameConverter) :
  updated self self' -> inline_referenced_tweets self' = inline_referenced_tweets self.
Proof. by intros (? & ? & -> & _). Qed.

Create HintDb upd.
#[local] Hint Resolve updated_refl updated_add_count updated_with_dataset_ids : upd.

(** Case analysis on a [let*] that is known to give [Ok]. *)
Ltac bind_ok H :=
  match type of H with
  | bind ?m _ = Ok _ =>
      let E := fresh "E" in
      destruct m as [?| |] eqn:E; simpl in H; [|discriminate H..]
  end.

Lemma format_tweet_settings (self self' : DataFrameConverter) (tweet : dict) :
  merge_retweets self' = merge_retweets self ->
  _format_tweet self' tweet = _format_tweet self tweet.
Proof. intros E. unfold _format_tweet. by rewrite E. Qed.

Lemma process_tweets_updated (tweets : list dict) :
  forall self out self',
    _process_tweets self tweets = Ok (out, self') -> updated self self'.
Proof.
  induction tweets as [|t r IH]; intros self out self' H; simpl in H.
  - injection H as <- <-. apply updated_refl.
  - destruct (dict_in "id" t).
    + bind_ok H. bind_ok H. bind_ok H. destruct a1 as [out' s']. simpl in H.
      injection H as <- <-. apply IH in E1.
      eapply updated_trans; [|exact E1].
      eapply updated_trans; [|apply updated_with_dataset_ids].
      eapply updated_trans; [apply (updated_add_count c_tweets); done|].
      destruct (bool_decide _); auto with upd.
    + apply IH in H. eapply updated_trans; [|exact H]. auto with upd.
Qed.

Lemma inline_loop_updated (tweet : dict) (refs : list value) :
  forall self rows refs' self',
    inline_loop self tweet refs = Ok (rows, refs', self') -> updated self self'.
Proof.
  induction refs as [|x r IH]; intros self rows refs' self' H; simpl in H.
  - injection H as <- <- <-. apply updated_refl.
  - destruct x; try discriminate H.
    bind_ok H. destruct a as [y s1]. simpl in H.
    bind_ok H. destruct a as [[rows1 rest1] s2]. simpl in H.
    injection H as <- <- <-. apply IH in E0.
    eapply updated_trans; [|exact E0].
    eapply updated_trans; [apply (updated_add_count c_referenced_tweets); done|].
    destruct (3 <? _).
    + bind_ok E. injection E as <- <-. apply updated_refl.
    + injection E as <- <-. auto with upd.
Qed.



(** ** The column schema *)

Lemma default_tweet_columns_split :
  exists named, DEFAULT_TWEET_COLUMNS = (named ++ [""]) /\ ("" ∉ named) /\
    length named = 73%nat.
Proof.
  exists (removelast DEFAULT_TWEET_COLUMNS).
  split; [by vm_compute|]. split; [|by vm_compute].
  apply py_in_false. by vm_compute.
Qed.

Lemma default_user_columns_split :
  exists named, DEFAULT_USER_COLUMNS = (named ++ [""]) /\ ("" ∉ named) /\
    length named = 27%nat.
Proof.
  exists (removelast DEFAULT_USER_COLUMNS).
  split; [by vm_compute|]. split; [|by vm_compute].
  apply py_in_false. by vm_compute.
Qed.

Lemma default_compliance_columns_split :
  exists named, DEFAULT_COMPLIANCE_COLUMNS = (named ++ [""]) /\ ("" ∉ named) /\
    length named = 5%nat.
Proof.
  exists (removelast DEFAULT_COMPLIANCE_COLUMNS).
  split; [by vm_compute|]. split; [|by vm_compute].
  apply py_in_false. by vm_compute.
Qed.

(** The three kinds whose constant is split into lines: the schema starts
    with the list declared for the kind, in its order. *)
Lemma init_columns_declared (kind extra : string) (declared : list string) :
  (kind, declared) ∈ [("tweets", DEFAULT_TWEET_COLUMNS);
                      ("users", DEFAULT_USER_COLUMNS);
                      ("compliance", DEFAULT_COMPLIANCE_COLUMNS)] ->
  init_columns kind extra =
  if negb (String.eqb extra "")
  then extend_new declared (split_on "," extra)
  else declared.
Proof.
  intros H. unfold init_columns.
  repeat (apply elem_of_cons in H as [H|H];
          [injection H as -> ->; by vm_compute (str_contains _ _);
             vm_compute (extend_new [] _)|]).
  by apply elem_of_nil in H.
Qed.

(** C9, on the input kind for which it fails: for [counts] the schema is
    made of the characters of the constant, each once, and not of the three
    names [start], [end], [count]; the constant is the one default that the
    source does not split into lines. *)
Theorem C9_counts_columns_are_characters :
  columns (__init__ (mkArgs "counts" false false true false true false "" "" None None))
  = ["s"; "t"; "a"; "r"; String LF ""; "e"; "n"; "d"; "c"; "o"; "u"] /\
  columns (__init__ (mkArgs "counts" false false true false true false "" "" None None))
  <> ["start"; "end"; "count"].
Proof. split; [by vm_compute | by vm_compute]. Qed.

(** C8: in the default mode (neither encode-all nor encode-text), the cell
    of a string is that string with every carriage return removed and every
    line feed replaced by a backslash and an n, so that no carriage return
    and no line feed is left in it; the cell of "line1", line feed, "line2",
    carriage return is line1\nline2. *)
Theorem C8_minimal_escape (json_dumps : value -> string) :
  (forall (self : DataFrameConverter) (df : DataFrame) (i j : nat) (s : string),
     json_encode_all self = false -> json_encode_text self = false ->
     df_rows df !! i ≫= (.!! j) = Some (Cell (VStr s)) ->
     df_rows (_process_dataframe json_dumps self df) !! i ≫= (.!! j)
       = Some (Cell (VStr (concat_map escape_char s))) /\
     occurs CR (concat_map escape_char s) = false /\
     occurs LF (concat_map escape_char s) = false) /\
  df_rows (_process_dataframe json_dumps a_converter
             {| df_columns := ["text"];
                df_rows := [[Cell (VStr ("line1" +:+ String LF "line2" +:+ String CR ""))]] |})
  = [[Cell (VStr ("line1" +:+ String (ascii_of_nat 92) "nline2"))]].
Proof.
  split; [|reflexivity].
  intros self df i j s E1 E2 H. split; [by apply process_dataframe_str|].
  split; apply occurs_concat_map; intros x; apply escape_char_clean; auto.
Qed.

Lemma C8_witness :
  df_rows (_process_dataframe no_dumps a_converter
             {| df_columns := ["text"];
                df_rows := [[Cell (VStr (String CR (String LF "x")))]] |})
    !! 0%nat ≫= (.!! 0%nat)
  = Some (Cell (VStr (String (ascii_of_nat 92) "nx"))).
Proof.
  exact (proj1 (proj1 (C8_minimal_escape no_dumps) a_converter
    {| df_columns := ["text"];
       df_rows := [[Cell (VStr (String CR (String LF "x")))]] |}
    0%nat 0%nat (String CR (String LF "x")) eq_refl eq_refl eq_refl)).
Defined.

(** ** Schema reconciliation *)



Section Cells.
Variable json_dumps : value -> string.


End Cells.


(** The fifty records of the example, one of them with an unexpected key:
    no row comes out and fifty parse errors are counted, from none. *)
Example fifty_records_one_unexpected_key :
  Counts.parse_errors (counts a_converter) = 0 /\
  observable (process no_dumps flat_already a_converter fifty) =
  Some ([], 50, [ {| unexpected := ["surprise"]; expected_columns := 74;
                     got_columns := 3; skipped := 50 |} ]).
Proof. split; by vm_compute. Qed.

(** A nested key path that reads as a key of the schema: under the empty
    key the path of [id] is [id], the batch is within the schema and its
    row comes out. *)
Example nested_path_within_schema :
  df_columns (json_normalize [[("id", VStr "1"); ("", VDict [("id", VStr "2")])]])
    = ["id"] /\
  option_map (fun o => (length (fst (fst o)), snd o))
    (observable (process no_dumps flat_already a_converter
                   [VDict [("id", VStr "1"); ("", VDict [("id", VStr "2")])]]))
    = Some (1%nat, []).
Proof. split; by vm_compute. Qed.


Lemma declared_columns_split (kind : string) (declared : list string) :
  (kind, declared) ∈ [("tweets", DEFAULT_TWEET_COLUMNS);
                      ("users", DEFAULT_USER_COLUMNS);
                      ("compliance", DEFAULT_COMPLIANCE_COLUMNS)] ->
  exists named, declared = (named ++ [""]) /\ ("" ∉ named).
Proof.
  intros H.
  apply elem_of_cons in H as [H|H];
    [injection H as -> ->;
     destruct default_tweet_columns_split as (n & ? & ? & _); eauto|].
  apply elem_of_cons in H as [H|H];
    [injection H as -> ->;
     destruct default_user_columns_split as (n & ? & ? & _); eauto|].
  apply elem_of_cons in H as [H|H];
    [injection H as -> ->;
     destruct default_compliance_columns_split as (n & ? & ? & _); eauto|].
  by apply elem_of_nil in H.
Qed.

(** C10: for the kinds [tweets], [users] and [compliance] the list declared
    for the kind ends with an empty name, which comes from the line feed
    that ends the constant; the schema is that list (followed by the extra
    columns, if any), so the empty name is a column of the schema, it is
    counted in [input_columns], and the table of every accepted batch has a
    column of that name, with a cell in each row. *)
Theorem C10_trailing_empty_column
    (a : init_args) (declared : list string) :
  (arg_input_data_type a, declared) ∈
    [("tweets", DEFAULT_TWEET_COLUMNS);
     ("users", DEFAULT_USER_COLUMNS);
     ("compliance", DEFAULT_COMPLIANCE_COLUMNS)] ->
  let self := __init__ a in
  exists named extra,
    declared = (named ++ [""]) /\ ("" ∉ named) /\
    columns self = (named ++ [""] ++ extra) /\
    (arg_extra_input_columns a = "" -> extra = []) /\
    (arg_counts a = None ->
       Counts.input_columns (counts self)
       = Z.of_nat (length named) + 1 + Z.of_nat (length extra)) /\
    (forall (json_dumps : value -> string) (batch : list dict),
       (forall c, c ∈ df_columns (json_normalize batch) -> c ∈ columns self) ->
       forall table self' messages,
         reconcile json_dumps self batch = (table, self', messages) ->
         df_columns table = (named ++ [""] ++ extra) /\
         length (df_rows table) = length batch /\
         Forall (fun row => length row = length (named ++ [""] ++ extra))
                (df_rows table)).
Proof.
  intros Hk self.
  destruct (declared_columns_split _ _ Hk) as (named & Hd & Hn).
  assert (exists extra, columns self = (named ++ [""] ++ extra) /\
            (arg_extra_input_columns a = "" -> extra = [])) as (extra & Hc & He).
  { unfold self, __init__. simpl.
    rewrite (init_columns_declared _ _ declared Hk).
    destruct (String.eqb (arg_extra_input_columns a) "") eqn:E; simpl.
    - exists []. by rewrite Hd.
    - apply String.eqb_neq in E.
      destruct (extend_new_app declared (split_on "," (arg_extra_input_columns a)))
        as (added & -> & _).
      exists added. by rewrite Hd, <- app_assoc. }
  exists named, extra. split; [done|]. split; [done|]. split; [done|].
  split; [done|]. split.
  - intros Hnone. unfold self, __init__ in *. simpl in *. rewrite Hnone. simpl.
    rewrite Hc, !length_app. simpl. lia.
  - clearbody self. intros json_dumps batch Hacc table self' messages R.
    rewrite reconcile_accepted in R by done. injection R as <- <- <-.
    rewrite process_dataframe_columns. cbn [df_columns]. split; [exact Hc|].
    pose proof (process_dataframe_shape json_dumps self
      {| df_columns := columns self;
         df_rows := map (fun t => row_of (columns self) (_normalise_json_ordered t)) batch |})
      as Hshape.
    split.
    + rewrite <- (List.length_map length), Hshape. simpl.
      by rewrite !List.length_map.
    + match goal with |- Forall _ ?rows =>
        enough (Forall (fun m => m = length (named ++ [""] ++ extra))
                       (map length rows)) as HF by (by apply Forall_fmap in HF)
      end.
      rewrite Hshape. simpl. apply Forall_forall. intros m Hm.
      apply list_elem_of_fmap in Hm as (row & -> & Hm).
      apply list_elem_of_fmap in Hm as (t & -> & _).
      unfold row_of. by rewrite length_fmap, Hc.
Qed.

Lemma C10_witness :
  exists named extra,
    DEFAULT_TWEET_COLUMNS = (named ++ [""]) /\ ("" ∉ named) /\
    columns (__init__ default_args) = (named ++ [""] ++ extra) /\
    extra = [] /\
    Counts.input_columns (counts (__init__ default_args))
    = Z.of_nat (length named) + 1 + Z.of_nat (length extra).
Proof.
  destruct (C10_trailing_empty_column default_args DEFAULT_TWEET_COLUMNS)
    as (named & extra & H1 & H2 & H3 & H4 & H5 & _).
  - apply list_elem_of_here.
  - exists named, extra. split; [exact H1|]. split; [exact H2|].
    split; [exact H3|]. split; [exact (H4 eq_refl) | exact (H5 eq_refl)].
Defined.

(** ** Deduplication *)

Lemma process_tweets_id (self : DataFrameConverter) (t : dict) (rest : list dict) (k : key) :
  id_key t = Some k ->
  _process_tweets self (t :: rest) =
  let* (out, self') := _process_tweets (seen self k) rest in
  Ok ((if allow_duplicates self then [t]
       else if bool_decide (k ∈ dataset_ids self) then [] else [t]) ++ out, self').
Proof.
  unfold id_key. intros H. simpl. rewrite dict_in_get.
  destruct (dict_get "id" t) as [v|] eqn:G; [|done].
  unfold dict_item. rewrite G. simpl.
  destruct (hash_key v) as [k'| |]; try done. injection H as ->. simpl.
  unfold seen.
  destruct (bool_decide (k ∈ dataset_ids self)) eqn:B; simpl; rewrite B;
    by destruct (allow_duplicates self).
Qed.

Lemma process_tweets_no_id (self : DataFrameConverter) (t : dict) (rest : list dict) :
  dict_get "id" t = None ->
  _process_tweets self (t :: rest) =
  _process_tweets (add_count c_non_tweets 1 self) rest.
Proof. intros H. simpl. by rewrite dict_in_get, H. Qed.

Lemma id_key_cases (t : dict) :
  hashable_id t ->
  (exists k, id_key t = Some k) \/ (dict_get "id" t = None /\ id_key t = None).
Proof.
  unfold hashable_id, id_key. intros H.
  destruct (dict_get "id" t) as [v|]; [|by right].
  destruct (H v eq_refl) as (k & ->). eauto.
Qed.

Lemma omap_id_key_cons (t : dict) (rest : list dict) :
  omap id_key (t :: rest) =
  match id_key t with
  | Some k => k :: omap id_key rest
  | None => omap id_key rest
  end.
Proof. reflexivity. Qed.

Lemma seen_dataset_ids (self : DataFrameConverter) (k : key) :
  dataset_ids (seen self k) = {[k]} ∪ dataset_ids self.
Proof. reflexivity. Qed.

Lemma seen_duplicates (self : DataFrameConverter) (k : key) :
  Counts.duplicates (counts (seen self k)) =
  Counts.duplicates (counts self) + (if bool_decide (k ∈ dataset_ids self) then 1 else 0).
Proof.
  unfold seen. destruct (bool_decide (k ∈ dataset_ids self)); simpl; lia.
Qed.

Lemma seen_allow_duplicates (self : DataFrameConverter) (k : key) :
  allow_duplicates (seen self k) = allow_duplicates self.
Proof. unfold seen. by destruct (bool_decide _). Qed.

(** With identifiers that can be hashed the stage returns. *)
Lemma process_tweets_total (tweets : list dict) :
  Forall hashable_id tweets ->
  forall self, exists out self', _process_tweets self tweets = Ok (out, self').
Proof.
  induction 1 as [|t rest Ht _ IH]; intros self; [by eexists _, _|].
  destruct (id_key_cases t Ht) as [(k & Hk)|(Hn & _)].
  - rewrite (process_tweets_id _ _ _ _ Hk).
    destruct (IH (seen self k)) as (out & self' & ->). by eexists _, _.
  - rewrite (process_tweets_no_id _ _ _ Hn). apply IH.
Qed.

(** The identifier set and the counter of duplicates after the stage; the
    setting [allow_duplicates] plays no part in either. *)
Lemma process_tweets_state (tweets : list dict) :
  Forall hashable_id tweets ->
  forall self out self',
    _process_tweets self tweets = Ok (out, self') ->
    dataset_ids self' = dataset_ids self ∪ list_to_set (omap id_key tweets) /\
    Counts.duplicates (counts self')
      + Z.of_nat (size (dataset_ids self' ∖ dataset_ids self))
    = Counts.duplicates (counts self) + Z.of_nat (length (omap id_key tweets)).
Proof.
  induction 1 as [|t rest Ht _ IH]; intros self out self' H.
  - injection H as <- <-. simpl. split; [set_solver|].
    replace (dataset_ids self ∖ dataset_ids self) with (∅ : gset key) by set_solver.
    rewrite size_empty. lia.
  - destruct (id_key_cases t Ht) as [(k & Hk)|(Hn & Hk)].
    + rewrite (process_tweets_id _ _ _ _ Hk) in H.
      bind_ok H. destruct a as [out1 s1]. simpl in H. injection H as <- <-.
      apply IH in E as [Hids Hdup]. rewrite omap_id_key_cons, Hk.
      cbn [length list_to_set foldr].
      rewrite seen_dataset_ids in *. rewrite seen_duplicates in Hdup.
      split; [set_solver|].
      destruct (bool_decide (k ∈ dataset_ids self)) eqn:B.
      * apply bool_decide_eq_true in B.
        replace ({[k]} ∪ dataset_ids self) with (dataset_ids self) in Hdup
          by set_solver.
        lia.
      * apply bool_decide_eq_false in B.
        replace (dataset_ids s1 ∖ dataset_ids self)
          with ({[k]} ∪ dataset_ids s1 ∖ ({[k]} ∪ dataset_ids self)); cycle 1.
        { apply set_eq. intros x. rewrite Hids.
          destruct (decide (x = k)); set_solver. }
        rewrite size_union by set_solver. rewrite size_singleton. lia.
    + rewrite (process_tweets_no_id _ _ _ Hn) in H.
      apply IH in H as [Hids Hdup]. rewrite omap_id_key_cons, Hk.
      split; [done|]. simpl in Hdup. lia.
Qed.

(** With duplicates allowed every record with an identifier goes on. *)
Lemma process_tweets_all (tweets : list dict) :
  Forall hashable_id tweets ->
  forall self out self',
    allow_duplicates self = true ->
    _process_tweets self tweets = Ok (out, self') ->
    out = List.filter (dict_in "id") tweets.
Proof.
  induction 1 as [|t rest Ht _ IH]; intros self out self' Ha H.
  - by injection H as <- <-.
  - destruct (id_key_cases t Ht) as [(k & Hk)|(Hn & Hk)].
    + rewrite (process_tweets_id _ _ _ _ Hk) in H.
      bind_ok H. destruct a as [out1 s1]. simpl in H. injection H as <- <-.
      apply IH in E; [|by rewrite seen_allow_duplicates].
      rewrite Ha. simpl. rewrite dict_in_get.
      unfold id_key in Hk. destruct (dict_get "id" t); [by rewrite E | done].
    + rewrite (process_tweets_no_id _ _ _ Hn) in H.
      apply IH in H; [|done]. simpl. by rewrite dict_in_get, Hn.
Qed.

(** Without, a record goes on exactly when its identifier is not in the set
    at the start and no record before it has the same identifier. *)
Lemma process_tweets_first (tweets : list dict) :
  Forall hashable_id tweets ->
  forall self out self',
    allow_duplicates self = false ->
    _process_tweets self tweets = Ok (out, self') ->
    forall t, t ∈ out <->
      exists pre post k, tweets = pre ++ t :: post /\ id_key t = Some k /\
        (k ∉ dataset_ids self) /\ (k ∉ omap id_key pre).
Proof.
  induction 1 as [|t rest Ht _ IH]; intros self out self' Ha H t'.
  - injection H as <- <-. split; [by intros ?%elem_of_nil|].
    intros (pre & post & k & E & _). by destruct pre.
  - destruct (id_key_cases t Ht) as [(k & Hk)|(Hn & Hk)].
    + rewrite (process_tweets_id _ _ _ _ Hk) in H.
      bind_ok H. destruct a as [out1 s1]. simpl in H. injection H as <- <-.
      pose proof (IH _ _ _ (eq_trans (seen_allow_duplicates self k) Ha) E t') as IH'.
      rewrite Ha, elem_of_app, IH'. clear IH'. rewrite seen_dataset_ids. split.
      * intros [Hy|(pre & post & k' & -> & Hk' & Hs & Hp)].
        -- destruct (bool_decide (k ∈ dataset_ids self)) eqn:B;
             [by apply elem_of_nil in Hy|].
           apply bool_decide_eq_false in B.
           apply list_elem_of_singleton in Hy as ->.
           exists [], rest, k. split; [done|]. split; [done|]. split; [done|].
           simpl. apply not_elem_of_nil.
        -- exists (t :: pre), post, k'. split; [done|]. split; [done|].
           split; [set_solver|]. simpl. rewrite Hk. set_solver.
      * intros (pre & post & k' & E' & Hk' & Hs & Hp).
        destruct pre as [|t0 pre]; simpl in E'; injection E' as -> ->.
        -- left. rewrite Hk in Hk'. injection Hk' as ->.
           rewrite bool_decide_eq_false_2 by done. set_solver.
        -- right. exists pre, post, k'. simpl in Hp. rewrite Hk in Hp.
           split; [done|]. split; [done|]. set_solver.
    + rewrite (process_tweets_no_id _ _ _ Hn) in H.
      rewrite (IH (add_count c_non_tweets 1 self) _ _ Ha H t'). simpl. split.
      * intros (pre & post & k' & -> & Hk' & Hs & Hp).
        exists (t :: pre), post, k'. simpl. by rewrite Hk.
      * intros (pre & post & k' & E' & Hk' & Hs & Hp).
        destruct pre as [|t0 pre]; simpl in E'; injection E' as -> ->.
        -- by rewrite Hk in Hk'.
        -- exists pre, post, k'. simpl in Hp. by rewrite Hk in Hp.
Qed.

(** Without, no identifier goes on twice. *)
Lemma process_tweets_nodup (tweets : list dict) :
  Forall hashable_id tweets ->
  forall self out self',
    allow_duplicates self = false ->
    _process_tweets self tweets = Ok (out, self') ->
    NoDup (omap id_key out) /\ length (omap id_key out) = length out /\
    sublist out tweets.
Proof.
  induction 1 as [|t rest Ht Hrest IH]; intros self out self' Ha H.
  - injection H as <- <-. simpl. split; [constructor|done].
  - destruct (id_key_cases t Ht) as [(k & Hk)|(Hn & Hk)].
    + rewrite (process_tweets_id _ _ _ _ Hk) in H.
      bind_ok H. destruct a as [out1 s1]. simpl in H. injection H as <- <-.
      pose proof (eq_trans (seen_allow_duplicates self k) Ha) as Ha1.
      destruct (IH _ _ _ Ha1 E) as (Hnd & Hlen & Hsub).
      rewrite Ha. destruct (bool_decide (k ∈ dataset_ids self));
        rewrite ?app_nil_l; change ([t] ++ out1) with (t :: out1);
        rewrite ?omap_id_key_cons, ?Hk.
      * split; [done|]. split; [done|]. by apply sublist_cons.
      * split; [|split; [simpl; by rewrite Hlen | by apply sublist_skip]].
        apply NoDup_cons. split; [|done].
        intros Hin. apply list_elem_of_omap in Hin as (t' & Hin & Hk').
        apply (process_tweets_first _ Hrest _ _ _ Ha1 E) in Hin
          as (_ & _ & k' & _ & Hk2 & Hs & _).
        rewrite Hk' in Hk2. injection Hk2 as <-.
        rewrite seen_dataset_ids in Hs. set_solver.
    + rewrite (process_tweets_no_id _ _ _ Hn) in H.
      destruct (IH (add_count c_non_tweets 1 self) _ _ Ha H) as (Hnd & Hlen & Hsub).
      split; [done|]. split; [done|]. by apply sublist_cons.
Qed.

(** C2: the deduplication stage returns on every sequence of records whose
    identifiers can be hashed. The identifier set after it is the set
    before it with the identifiers of all records added, so it only grows.
    Every record whose identifier was in the set when it came adds one to
    [duplicates], whatever [allow_duplicates] says: the counter grows by the
    number of records with an identifier less the number of identifiers that
    are new. With [allow_duplicates] every record with an identifier goes
    on; without it no identifier goes on twice, and a record goes on exactly
    when its identifier is new to the set and no earlier record of the input
    has it. *)
Theorem C2_deduplication (self : DataFrameConverter) (tweets : list dict) :
  Forall hashable_id tweets ->
  exists out self',
    _process_tweets self tweets = Ok (out, self') /\
    dataset_ids self' = dataset_ids self ∪ list_to_set (omap id_key tweets) /\
    dataset_ids self ⊆ dataset_ids self' /\
    Counts.duplicates (counts self')
      + Z.of_nat (size (dataset_ids self' ∖ dataset_ids self))
    = Counts.duplicates (counts self) + Z.of_nat (length (omap id_key tweets)) /\
    (allow_duplicates self = true -> out = List.filter (dict_in "id") tweets) /\
    (allow_duplicates self = false ->
       NoDup (omap id_key out) /\
       length (omap id_key out) = length out /\
       sublist out tweets /\
       forall t, t ∈ out <->
         exists pre post k, tweets = pre ++ t :: post /\ id_key t = Some k /\
           (k ∉ dataset_ids self) /\ (k ∉ omap id_key pre)).
Proof.
  intros Hh. destruct (process_tweets_total _ Hh self) as (out & self' & H).
  exists out, self'. split; [done|].
  destruct (process_tweets_state _ Hh _ _ _ H) as [Hids Hdup].
  split; [done|]. split; [set_solver|]. split; [done|]. split.
  - intros Ha. by apply (process_tweets_all _ Hh _ _ _ Ha H).
  - intros Ha. destruct (process_tweets_nodup _ Hh _ _ _ Ha H) as (? & ? & ?).
    repeat (split; [done|]). by apply (process_tweets_first _ Hh _ _ _ Ha H).
Qed.

(** A record that repeats an identifier of the set is counted, and goes on
    only if duplicates are allowed. *)
Lemma repeated_identifier (self : DataFrameConverter) (t : dict) (k : key) :
  id_key t = Some k -> k ∈ dataset_ids self ->
  _process_tweets self [t] =
  Ok (if allow_duplicates self then [t] else [], seen self k) /\
  Counts.duplicates (counts (seen self k)) = Counts.duplicates (counts self) + 1.
Proof.
  intros Hk Hin. rewrite (process_tweets_id _ _ _ _ Hk).
  rewrite seen_duplicates, bool_decide_eq_true_2 by done.
  cbn [_process_tweets bind]. rewrite app_nil_r.
  by destruct (allow_duplicates self).
Qed.

Lemma C2_witness :
  exists out self',
    _process_tweets a_converter
      [tweet_with_id 1 "a"; tweet_with_id 2 "b"; tweet_with_id 1 "c"]
    = Ok (out, self') /\
    dataset_ids a_converter ⊆ dataset_ids self' /\
    NoDup (omap id_key out).
Proof.
  destruct (C2_deduplication a_converter
              [tweet_with_id 1 "a"; tweet_with_id 2 "b"; tweet_with_id 1 "c"])
    as (out & self' & H & _ & Hsub & _ & _ & Hno).
  - repeat constructor; intros v Hv; injection Hv as <-; by eexists.
  - exists out, self'. split; [exact H|]. split; [exact Hsub|].
    exact (proj1 (Hno eq_refl)).
Defined.

(** The same three records, run: the first two go on, the third is a
    duplicate; with duplicates allowed all three go on and the count is the
    same. *)
Example dedup_run :
  (let* (out, self') :=
     _process_tweets a_converter
       [tweet_with_id 1 "a"; tweet_with_id 2 "b"; tweet_with_id 1 "c"] in
   Ok (out, Counts.duplicates (counts self')))
  = Ok ([tweet_with_id 1 "a"; tweet_with_id 2 "b"], 1) /\
  (let* (out, self') :=
     _process_tweets (__init__ (mkArgs "tweets" false false true false true true "" "" None None))
       [tweet_with_id 1 "a"; tweet_with_id 2 "b"; tweet_with_id 1 "c"] in
   Ok (out, Counts.duplicates (counts self')))
  = Ok ([tweet_with_id 1 "a"; tweet_with_id 2 "b"; tweet_with_id 1 "c"], 1).
Proof. split; by vm_compute. Qed.

(** ** Normalising a record *)

Lemma of_type_wf (kind : string) (refs : list value) :
  Forall wf_ref refs -> of_type kind refs = Ok (dicts_of_type kind refs).
Proof.
  induction 1 as [|v r (d & k & id & -> & Ht & Hid) _ IH]; [done|].
  cbn [of_type subscript]. unfold dict_item. rewrite Ht. cbn [bind].
  rewrite IH. cbn [bind]. unfold dicts_of_type. cbn [omap list_omap has_type].
  rewrite Ht. by destruct (eq_str (VStr k) kind).
Qed.

Lemma ref_entry_wf (v : value) : wf_ref v -> ref_entry v = Ok (entry_of v).
Proof.
  intros (d & k & id & -> & Ht & Hid).
  unfold ref_entry, entry_of, subscript, dict_item. by rewrite Ht, Hid.
Qed.

Lemma mapM_ref_entry_wf (refs : list value) :
  Forall wf_ref refs -> mapM ref_entry refs = Ok (map entry_of refs).
Proof.
  induction 1 as [|v r Hv _ IH]; [done|].
  cbn [mapM]. rewrite (ref_entry_wf _ Hv). cbn [bind]. by rewrite IH.
Qed.

Lemma has_type_dict (kind : string) (v : value) :
  has_type kind v = true -> exists d, v = VDict d /\ d <> [].
Proof.
  destruct v as [| | | | |d]; try done. intros H. exists d. split; [done|].
  by intros ->.
Qed.

Lemma dicts_of_type_none (kind : string) (l : list value) :
  Forall (fun v => has_type kind v = false) l -> dicts_of_type kind l = [].
Proof.
  induction 1 as [|v r Hv _ IH]; [done|].
  unfold dicts_of_type in *. cbn [omap list_omap]. rewrite IH.
  destruct v; try done. by rewrite Hv.
Qed.

(** The last entry of a kind, by its place in the list. *)
Lemma last_of_type (kind : string) (pre post : list value) (d : dict) :
  has_type kind (VDict d) = true ->
  Forall (fun v => has_type kind v = false) post ->
  last (dicts_of_type kind (pre ++ VDict d :: post)) = Some d.
Proof.
  intros Hd Hpost. unfold dicts_of_type. rewrite omap_app.
  cbn [omap list_omap]. rewrite Hd.
  fold (dicts_of_type kind post). rewrite dicts_of_type_none by done.
  by rewrite last_snoc.
Qed.

Lemma dicts_of_type_nonempty (kind : string) (refs : list value) (d : dict) :
  last (dicts_of_type kind refs) = Some d -> truthy (VDict d) = true.
Proof.
  intros H. apply last_Some_elem_of in H.
  apply list_elem_of_omap in H as (v & _ & Hv).
  destruct v as [| | | | |d']; try done.
  destruct (has_type kind (VDict d')) eqn:E; [|done]. injection Hv as ->.
  apply has_type_dict in E as (d0 & [= <-] & Hne). by destruct d.
Qed.

Lemma existsb_false_Forall {A : Type} (p : A -> bool) (l : list A) :
  existsb p l = false -> Forall (fun x => p x = false) l.
Proof.
  induction l as [|x r IH]; simpl; [constructor|].
  intros [? ?]%orb_false_iff. constructor; auto.
Qed.

(** Putting [new] in place of the last entry that satisfies [p] changes
    nothing for a function that cannot tell [new] from that entry. *)
Lemma mapM_replace_last {B : Type} (f : value -> result B) (p : value -> bool)
    (new : value) (refs : list value) :
  (forall pre x post, refs = pre ++ x :: post -> p x = true ->
     existsb p post = false -> f new = f x) ->
  mapM f (replace_last p new refs) = mapM f refs.
Proof.
  induction refs as [|x r IH]; intros H; [done|]. cbn [replace_last].
  destruct (p x && negb (existsb p r)) eqn:E.
  - apply andb_true_iff in E as [E1 E2]. apply negb_true_iff in E2.
    cbn [mapM]. by rewrite (H [] x r eq_refl E1 E2).
  - cbn [mapM]. rewrite IH; [done|].
    intros pre y post -> Hy Hpost. by apply (H (x :: pre) y post).
Qed.

Lemma taken_get (f : string) (d : dict) :
  taken f d = match dict_get f d with Some v => v | None => VNone end.
Proof. reflexivity. Qed.

(** The record after the five assignments. *)
Lemma inherit_retweet_get (k : string) (tweet rt : dict) :
  dict_get k (fst (inherit_retweet tweet rt)) =
  if py_in k body_fields then Some (taken k rt) else dict_get k tweet.
Proof.
  unfold inherit_retweet, dict_pop. cbn [fst snd]. rewrite !dict_get_set.
  unfold py_in, body_fields. cbn [existsb]. unfold taken, dict_pop. cbn [fst].
  rewrite !(String.eqb_sym k).
  destruct (String.eqb "public_metrics" k) eqn:E5;
    [apply String.eqb_eq in E5; subst k; by rewrite !dict_get_del|].
  destruct (String.eqb "context_annotations" k) eqn:E4;
    [apply String.eqb_eq in E4; subst k; by rewrite !dict_get_del|].
  destruct (String.eqb "attachments" k) eqn:E3;
    [apply String.eqb_eq in E3; subst k; by rewrite !dict_get_del|].
  destruct (String.eqb "entities" k) eqn:E2;
    [apply String.eqb_eq in E2; subst k; by rewrite !dict_get_del|].
  destruct (String.eqb "text" k) eqn:E1; [|done].
  apply String.eqb_eq in E1. by subst k.
Qed.

(** What is left of the retweeted entry still has its kind and identifier. *)
Lemma inherit_retweet_rest (k : string) (tweet rt : dict) :
  py_in k body_fields = false ->
  dict_get k (snd (inherit_retweet tweet rt)) = dict_get k rt.
Proof.
  unfold inherit_retweet, dict_pop, py_in, body_fields. cbn [fst snd existsb].
  rewrite !(String.eqb_sym k). intros H. rewrite !dict_get_del.
  repeat (apply orb_false_iff in H as [? H]).
  repeat match goal with E : String.eqb _ k = false |- _ => rewrite E; clear E end.
  done.
Qed.

Lemma stripped_get (k : string) (tweet : dict) :
  dict_get k (stripped tweet) =
  if String.eqb "in_reply_to_user" k || String.eqb "pinned_tweet" k
  then None else dict_get k tweet.
Proof.
  unfold stripped. rewrite !dict_get_del.
  by destruct (String.eqb "in_reply_to_user" k), (String.eqb "pinned_tweet" k).
Qed.

(** The normal form of [_format_tweet] on a record with no reference
    list. *)
Lemma format_tweet_no_refs (self : DataFrameConverter) (tweet : dict) :
  dict_get "referenced_tweets" tweet = None ->
  _format_tweet self tweet =
  Ok (finish (dict_set "referenced_tweets" (VDict []) (stripped tweet))).
Proof.
  intros H. unfold _format_tweet, deepcopy, dict_pop. cbn [snd].
  fold (stripped tweet). by rewrite stripped_get, H.
Qed.

(** The normal form of [_format_tweet] on a record with a list of
    well-formed references. *)
Lemma format_tweet_refs (self : DataFrameConverter) (tweet : dict) (refs : list value) :
  dict_get "referenced_tweets" tweet = Some (VList refs) ->
  Forall wf_ref refs ->
  let rt := last (dicts_of_type "retweeted" refs) in
  let qt := last (dicts_of_type "quoted" refs) in
  _format_tweet self tweet =
  Ok (finish
        (dict_set "referenced_tweets"
           (VDict (dict_of_ChainMap (map entry_of refs)))
           (merged self rt
              (copy_author_id "quoted_user_id" qt
                 (copy_author_id "retweeted_user_id" rt (stripped tweet)))))).
Proof.
  intros H Hwf rt qt. unfold _format_tweet, deepcopy, dict_pop. cbn [snd].
  fold (stripped tweet). rewrite stripped_get, H. cbn [orb String.eqb Ascii.eqb Bool.eqb py_iter bind].
  rewrite !of_type_wf by done. cbn [bind]. fold rt qt.
  set (tw := copy_author_id "quoted_user_id" qt _).
  destruct rt as [r|] eqn:Ert; cbn [merged].
  - rewrite (dicts_of_type_nonempty _ _ _ Ert). cbn [andb].
    destruct (merge_retweets self).
    + destruct (inherit_retweet tw r) as [tw' r'] eqn:Ei. cbn [fst].
      rewrite mapM_replace_last.
      { by rewrite mapM_ref_entry_wf. }
      intros pre x post -> Hx Hpost.
      destruct (has_type_dict _ _ Hx) as (d & -> & _).
      apply existsb_false_Forall in Hpost.
      unfold rt in Ert. rewrite (last_of_type _ _ _ _ Hx Hpost) in Ert.
      injection Ert as ->.
      unfold ref_entry, subscript, dict_item.
      replace r' with (snd (inherit_retweet tw r)) by by rewrite Ei.
      by rewrite !inherit_retweet_rest.
    + by rewrite mapM_ref_entry_wf.
  - by rewrite mapM_ref_entry_wf.
Qed.

Lemma copy_author_id_other (k f : string) (src : option dict) (tweet : dict) :
  String.eqb f k = false ->
  dict_get k (copy_author_id f src tweet) = dict_get k tweet.
Proof.
  intros E. unfold copy_author_id. destruct src as [d|]; [|done].
  destruct (truthy (VDict d) && dict_in "author_id" d); [|done].
  destruct (dict_get "author_id" d); [|done]. by rewrite dict_get_set, E.
Qed.

Lemma copy_author_id_same (f : string) (d tweet : dict) :
  truthy (VDict d) = true ->
  dict_get f (copy_author_id f (Some d) tweet) =
  match dict_get "author_id" d with
  | Some a => Some a
  | None => dict_get f tweet
  end.
Proof.
  intros Ht. unfold copy_author_id. rewrite Ht, dict_in_get. cbn [andb].
  destruct (dict_get "author_id" d); [|done].
  by rewrite dict_get_set, String.eqb_refl.
Qed.

(** Looking a key up through the steps of [_format_tweet]. *)
Ltac lookup :=
  unfold finish;
  rewrite ?dict_get_drop_if_empty, ?dict_get_del, ?dict_get_set;
  cbn [String.eqb Ascii.eqb Bool.eqb].

Lemma format_repost (self : DataFrameConverter) (tweet rt : dict) :
  last_ref "retweeted" tweet rt ->
  exists refs_map tw,
    _format_tweet self tweet =
    Ok (finish (dict_set "referenced_tweets" refs_map
                  (if merge_retweets self then fst (inherit_retweet tw rt) else tw))) /\
    forall k, py_in k ["retweeted_user_id"; "quoted_user_id"] = false ->
      dict_get k tw = dict_get k (stripped tweet).
Proof.
  intros [refs pre post Hl Hwf Hp Hk Hlast].
  eexists _, _. split.
  - rewrite (format_tweet_refs self tweet refs Hl Hwf). cbn zeta.
    rewrite Hp at 2. rewrite (last_of_type _ _ _ _ Hk Hlast). cbn [merged].
    reflexivity.
  - intros k Hk'. unfold py_in in Hk'. cbn [existsb] in Hk'.
    rewrite !(String.eqb_sym k) in Hk'.
    apply orb_false_iff in Hk' as [E1 Hk']. apply orb_false_iff in Hk' as [E2 _].
    by rewrite !copy_author_id_other.
Qed.

(** C3, amended: on a record whose last retweeted entry is [rt], with
    [merge_retweets] the output has [text] and [context_annotations] equal
    to what was taken from [rt], and each of [entities], [attachments],
    [public_metrics] equal to what was taken from [rt] unless that is
    empty, in which case the output has no such field; without
    [merge_retweets] the five fields are the record's own, again without
    those of the three that are empty. The author identifier is the
    record's own in both cases. *)
Theorem C3_repost_merge (self : DataFrameConverter) (tweet rt : dict) :
  last_ref "retweeted" tweet rt ->
  exists out,
    _format_tweet self tweet = Ok out /\
    dict_get "author_id" out = dict_get "author_id" tweet /\
    (merge_retweets self = true ->
       dict_get "text" out = Some (taken "text" rt) /\
       dict_get "context_annotations" out = Some (taken "context_annotations" rt) /\
       forall f, f ∈ ["entities"; "attachments"; "public_metrics"] ->
         dict_get f out =
         if truthy (taken f rt) then Some (taken f rt) else None) /\
    (merge_retweets self = false ->
       dict_get "text" out = dict_get "text" tweet /\
       dict_get "context_annotations" out = dict_get "context_annotations" tweet /\
       forall f, f ∈ ["entities"; "attachments"; "public_metrics"] ->
         dict_get f out =
         match dict_get f tweet with
         | Some v => if truthy v then Some v else None
         | None => None
         end).
Proof.
  intros Hr. destruct (format_repost self tweet rt Hr) as (m & tw & -> & Htw).
  eexists. split; [done|].
  assert (forall k, py_in k ["retweeted_user_id"; "quoted_user_id";
                             "in_reply_to_user"; "pinned_tweet"] = false ->
                    dict_get k tw = dict_get k tweet) as Hget.
  { intros k Hk. unfold py_in in Hk. cbn [existsb] in Hk.
    rewrite !(String.eqb_sym k) in Hk.
    repeat (apply orb_false_iff in Hk as [? Hk]).
    rewrite Htw, stripped_get by (unfold py_in; cbn [existsb];
      rewrite !(String.eqb_sym k); repeat (apply orb_false_iff; split); done).
    by repeat match goal with E : String.eqb _ k = false |- _ => rewrite E; clear E end. }
  split.
  { lookup. destruct (merge_retweets self); [rewrite inherit_retweet_get|];
      cbn [py_in body_fields existsb String.eqb Ascii.eqb Bool.eqb orb];
      by apply Hget. }
  split; intros ->.
  - split; [by lookup; rewrite inherit_retweet_get|].
    split; [by lookup; rewrite inherit_retweet_get|].
    intros f Hf. repeat (apply elem_of_cons in Hf as [->|Hf]);
      [| | |by apply elem_of_nil in Hf];
      lookup; by rewrite inherit_retweet_get.
  - split; [lookup; by apply Hget|]. split; [lookup; by apply Hget|].
    intros f Hf. repeat (apply elem_of_cons in Hf as [->|Hf]);
      [| | |by apply elem_of_nil in Hf];
      lookup; by rewrite Hget.
Qed.

Lemma a_retweet_refs_wf :
  Forall wf_ref [VDict original; VDict quote_a; VDict quote_b].
Proof. repeat constructor; by eexists _, _, _. Qed.

Lemma a_retweet_reposts : last_ref "retweeted" a_retweet original.
Proof.
  apply LastRef with (refs := [VDict original; VDict quote_a; VDict quote_b])
                     (pre := []) (post := [VDict quote_a; VDict quote_b]);
    [done | apply a_retweet_refs_wf | done | done | by repeat constructor].
Qed.

Lemma a_retweet_quotes : last_ref "quoted" a_retweet quote_b.
Proof.
  apply LastRef with (refs := [VDict original; VDict quote_a; VDict quote_b])
                     (pre := [VDict original; VDict quote_a]) (post := []);
    [done | apply a_retweet_refs_wf | done | done | constructor].
Qed.

(** The example of the specification: the text and the metrics of the
    original, the author of the retweet. *)
Example repost_merge_run :
  (let* out := _format_tweet a_converter a_retweet in
   Ok (dict_get "text" out, dict_get "public_metrics" out, dict_get "author_id" out))
  = Ok (Some (VStr "original"), Some (VDict [("like_count", VInt 5)]),
        Some (VStr "me")).
Proof. reflexivity. Qed.

Lemma C3_witness :
  exists out,
    _format_tweet a_converter a_retweet = Ok out /\
    dict_get "author_id" out = Some (VStr "me") /\
    dict_get "text" out = Some (VStr "original").
Proof.
  destruct (C3_repost_merge a_converter a_retweet original a_retweet_reposts)
    as (out & H & Ha & Hm & _).
  exists out. split; [exact H|]. split; [exact Ha|].
  exact (proj1 (Hm eq_refl)).
Defined.

Lemma C3_counterexample :
  ~ (forall (self : DataFrameConverter) (tweet rt out : dict) (f : string),
       last_ref "retweeted" tweet rt ->
       merge_retweets self = true ->
       f ∈ body_fields ->
       _format_tweet self tweet = Ok out ->
       taken f out = taken f rt).
Proof.
  intros H.
  specialize (H a_converter a_bare_retweet bare_original
                [("id", VStr "10"); ("author_id", VStr "me");
                 ("text", VStr "original");
                 ("referenced_tweets", VDict [("retweeted", VDict [("id", VStr "1")])]);
                 ("context_annotations", VNone)]
                "public_metrics").
  assert (last_ref "retweeted" a_bare_retweet bare_original) as Hr.
  { apply LastRef with (refs := [VDict bare_original]) (pre := []) (post := []);
      [done| |done|done|constructor].
    repeat constructor. by eexists _, _, _. }
  specialize (H Hr eq_refl).
  assert ("public_metrics" ∈ body_fields) as Hf by (unfold body_fields; set_solver).
  specialize (H Hf eq_refl). discriminate H.
Qed.

(** C4: on a record whose last retweeted (quoted) entry is [q], the output
    has [retweeted_user_id] ([quoted_user_id]) equal to the author
    identifier of [q] when [q] has one; when it has none the field is as it
    was on the record. *)
Theorem C4_last_reference_wins
    (self : DataFrameConverter) (tweet q : dict) (kind field : string) :
  (kind, field) ∈ [("retweeted", "retweeted_user_id"); ("quoted", "quoted_user_id")] ->
  last_ref kind tweet q ->
  exists out,
    _format_tweet self tweet = Ok out /\
    dict_get field out =
    match dict_get "author_id" q with
    | Some a => Some a
    | None => dict_get field tweet
    end.
Proof.
  intros Hk [refs pre post Hl Hwf Hp Hq Hlast].
  rewrite (format_tweet_refs self tweet refs Hl Hwf). cbn zeta.
  eexists. split; [done|].
  assert (last (dicts_of_type kind refs) = Some q) as Hq'
    by (rewrite Hp; by apply last_of_type).
  pose proof (dicts_of_type_nonempty _ _ _ Hq') as Ht.
  apply elem_of_cons in Hk as [[= -> ->]|Hk];
    [|apply elem_of_cons in Hk as [[= -> ->]|Hk]; [|by apply elem_of_nil in Hk]].
  - lookup. rewrite Hq'. cbn [merged].
    assert (dict_get "retweeted_user_id"
              (copy_author_id "quoted_user_id" (last (dicts_of_type "quoted" refs))
                 (copy_author_id "retweeted_user_id" (Some q) (stripped tweet)))
            = match dict_get "author_id" q with
              | Some a => Some a
              | None => dict_get "retweeted_user_id" tweet
              end) as Hc.
    { rewrite copy_author_id_other by done.
      rewrite copy_author_id_same by done. by rewrite stripped_get. }
    destruct (merge_retweets self); [rewrite inherit_retweet_get|]; exact Hc.
  - lookup. rewrite Hq'.
    assert (forall rt,
              dict_get "quoted_user_id"
                (copy_author_id "quoted_user_id" (Some q)
                   (copy_author_id "retweeted_user_id" rt (stripped tweet)))
              = match dict_get "author_id" q with
                | Some a => Some a
                | None => dict_get "quoted_user_id" tweet
                end) as Hc.
    { intros rt. rewrite copy_author_id_same by done.
      rewrite copy_author_id_other by done. by rewrite stripped_get. }
    unfold merged. destruct (last (dicts_of_type "retweeted" refs)); [|apply Hc].
    destruct (merge_retweets self); [rewrite inherit_retweet_get|]; apply Hc.
Qed.

Lemma C4_witness :
  exists out,
    _format_tweet a_converter a_retweet = Ok out /\
    dict_get "quoted_user_id" out = Some (VStr "b").
Proof.
  destruct (C4_last_reference_wins a_converter a_retweet quote_b
              "quoted" "quoted_user_id") as (out & H1 & H2).
  - apply list_elem_of_further, list_elem_of_here.
  - exact a_retweet_quotes.
  - exists out. split; [exact H1 | exact H2].
Defined.

(** ** The compact mapping of references *)

Lemma ChainMap_get_entries (kind : string) (refs : list value) :
  Forall wf_ref refs ->
  ChainMap_get kind (map entry_of refs) =
  match dicts_of_type kind refs with
  | d :: _ => match dict_get "id" d with
              | Some id => Some (VDict [("id", id)])
              | None => None
              end
  | [] => None
  end.
Proof.
  induction 1 as [|v r (d & k & id & -> & Ht & Hid) _ IH]; [done|].
  cbn [map ChainMap_get entry_of]. rewrite Ht, Hid. cbn [dict_get].
  unfold dicts_of_type. cbn [omap list_omap has_type]. rewrite Ht.
  cbn [eq_str]. destruct (String.eqb k kind); [by rewrite Hid|].
  exact IH.
Qed.

Lemma dict_get_of_ChainMap (k : string) (maps : list dict) :
  dict_get k (dict_of_ChainMap maps) =
  if py_in k (ChainMap_keys maps) then ChainMap_get k maps else None.
Proof.
  unfold dict_of_ChainMap. unfold py_in.
  induction (ChainMap_keys maps) as [|k' ks IH]; [done|].
  cbn [flat_map existsb]. rewrite (String.eqb_sym k k').
  destruct (ChainMap_get k' maps) as [v|] eqn:G; cbn [app dict_get].
  - destruct (String.eqb k' k) eqn:E; [|exact IH].
    apply String.eqb_eq in E. subst. by rewrite G.
  - rewrite IH. destruct (String.eqb k' k) eqn:E; [|done].
    apply String.eqb_eq in E. subst. rewrite G. by destruct (existsb _ ks).
Qed.

Lemma ChainMap_keys_elem (k : string) (maps : list dict) :
  k ∈ ChainMap_keys maps <-> exists m, m ∈ maps /\ k ∈ map fst m.
Proof.
  unfold ChainMap_keys.
  enough (forall ms acc,
    k ∈ fold_left (fun ks m => extend_new ks (map fst m)) ms acc <->
    k ∈ acc \/ exists m : dict, m ∈ ms /\ k ∈ map fst m) as H.
  { rewrite H. split.
    - intros [H0|(m & Hm & Hk)]; [by apply elem_of_nil in H0|].
      exists m. split; [|done].
      by apply list_elem_of_In, in_rev, list_elem_of_In.
    - intros (m & Hm & Hk). right. exists m. split; [|done].
      by apply list_elem_of_In, in_rev, list_elem_of_In in Hm. }
  induction ms as [|m ms IH]; intros acc; cbn [fold_left].
  - set_solver.
  - rewrite IH, extend_new_elem. set_solver.
Qed.

Lemma ChainMap_get_Some (k : string) (maps : list dict) :
  is_Some (ChainMap_get k maps) -> exists m, m ∈ maps /\ k ∈ map fst m.
Proof.
  induction maps as [|m ms IH]; cbn [ChainMap_get]; [by intros [? ?]|].
  destruct (dict_get k m) eqn:G.
  - intros _. exists m. split; [set_solver|].
    destruct (decide (k ∈ map fst m)) as [|Hn]; [done|].
    apply dict_get_None in Hn. congruence.
  - intros H. destruct (IH H) as (m' & ? & ?). exists m'. set_solver.
Qed.

(** The mapping left behind holds, for each kind, the identifier of the
    first entry of that kind, and nothing else of the entry. *)
Lemma references_first_wins (self : DataFrameConverter) (tweet : dict)
    (refs : list value) (kind : string) :
  dict_get "referenced_tweets" tweet = Some (VList refs) ->
  Forall wf_ref refs ->
  exists out m,
    _format_tweet self tweet = Ok out /\
    dict_get "referenced_tweets" out = Some (VDict m) /\
    dict_get kind m =
    match dicts_of_type kind refs with
    | d :: _ => match dict_get "id" d with
                | Some id => Some (VDict [("id", id)])
                | None => None
                end
    | [] => None
    end.
Proof.
  intros Hl Hwf. rewrite (format_tweet_refs self tweet refs Hl Hwf). cbn zeta.
  eexists _, _. split; [done|]. split; [by lookup|].
  rewrite dict_get_of_ChainMap, <- ChainMap_get_entries by done.
  destruct (py_in kind (ChainMap_keys (map entry_of refs))) eqn:E; [done|].
  apply py_in_false in E.
  destruct (ChainMap_get kind (map entry_of refs)) eqn:G; [|done].
  exfalso. apply E, ChainMap_keys_elem, ChainMap_get_Some. by rewrite G.
Qed.

(** C5, on the input on which it fails: with two quoted entries, of
    identifiers 2 and 3 in list order, the mapping holds the identifier of
    the first, 2, while [quoted_user_id] is the author of the last; a
    [ChainMap] looks a key up in its first map that has it. A record with
    no reference list does get the empty mapping. *)
Theorem C5_references_first_wins :
  (let* out := _format_tweet a_converter a_retweet in
   Ok (dict_get "referenced_tweets" out, dict_get "quoted_user_id" out))
  = Ok (Some (VDict [("quoted", VDict [("id", VStr "2")]);
                     ("retweeted", VDict [("id", VStr "1")])]),
        Some (VStr "b")) /\
  forall (self : DataFrameConverter) (tweet : dict),
    dict_get "referenced_tweets" tweet = None ->
    exists out, _format_tweet self tweet = Ok out /\
      dict_get "referenced_tweets" out = Some (VDict []).
Proof.
  split; [reflexivity|]. intros self tweet H.
  rewrite (format_tweet_no_refs self tweet H). eexists. split; [done|].
  by lookup.
Qed.

Lemma C5_witness :
  exists out, _format_tweet a_converter (tweet_with_id 1 "a") = Ok out /\
    dict_get "referenced_tweets" out = Some (VDict []).
Proof.
  exact (proj2 C5_references_first_wins a_converter (tweet_with_id 1 "a") eq_refl).
Defined.

(** ** Reference expansion *)

(** Updates of different keys commute, as long as the order of the keys is
    not at stake. *)
Lemma dict_del_set_comm (k k' : string) (v : value) (d : dict) :
  String.eqb k k' = false ->
  dict_del k (dict_set k' v d) = dict_set k' v (dict_del k d).
Proof.
  intros E. unfold dict_del. induction d as [|[k0 v0] r IH]; cbn [dict_set List.filter fst].
  - rewrite (String.eqb_sym k' k), E. done.
  - destruct (String.eqb k0 k') eqn:E0; cbn [List.filter fst].
    + apply String.eqb_eq in E0. subst k0.
      rewrite (String.eqb_sym k' k), E. cbn [negb dict_set].
      by rewrite String.eqb_refl.
    + destruct (String.eqb k0 k); cbn [negb dict_set]; [exact IH|].
      by rewrite E0, IH.
Qed.

Lemma dict_set_set_comm (k k' : string) (x v : value) (d : dict) :
  String.eqb k k' = false -> dict_in k' d = true ->
  dict_set k x (dict_set k' v d) = dict_set k' v (dict_set k x d).
Proof.
  intros E. unfold dict_in.
  induction d as [|[k0 v0] r IH]; cbn [existsb dict_set fst]; [done|].
  intros Hin. destruct (String.eqb k0 k') eqn:E0.
  - apply String.eqb_eq in E0. subst k0. cbn [dict_set].
    rewrite (String.eqb_sym k' k), E. cbn [dict_set]. by rewrite String.eqb_refl.
  - cbn [orb] in Hin. cbn [dict_set].
    destruct (String.eqb k0 k) eqn:E1; cbn [dict_set].
    + apply String.eqb_eq in E1. subst k0. by rewrite E0.
    + by rewrite E0, IH.
Qed.

Lemma dict_set_set_same (k : string) (x v : value) (d : dict) :
  dict_set k x (dict_set k v d) = dict_set k x d.
Proof.
  induction d as [|[k0 v0] r IH]; cbn [dict_set].
  - by rewrite String.eqb_refl.
  - destruct (String.eqb k0 k) eqn:E; cbn [dict_set].
    + by rewrite String.eqb_refl.
    + by rewrite E, IH.
Qed.

Lemma dict_in_set (k k' : string) (v : value) (d : dict) :
  dict_in k (dict_set k' v d) = String.eqb k' k || dict_in k d.
Proof.
  rewrite !dict_in_get, dict_get_set. by destruct (String.eqb k' k).
Qed.

Lemma taken_set_other (f k : string) (v : value) (d : dict) :
  String.eqb k f = false -> taken f (dict_set k v d) = taken f d.
Proof. intros E. by rewrite !taken_get, dict_get_set, E. Qed.

Lemma taken_del_other (f k : string) (d : dict) :
  String.eqb k f = false -> taken f (dict_del k d) = taken f d.
Proof. intros E. by rewrite !taken_get, dict_get_del, E. Qed.

(** The five assignments, spelled out. *)
Lemma inherit_retweet_fst (tweet rt : dict) :
  fst (inherit_retweet tweet rt) =
  dict_set "public_metrics" (taken "public_metrics" rt)
    (dict_set "context_annotations" (taken "context_annotations" rt)
       (dict_set "attachments" (taken "attachments" rt)
          (dict_set "entities" (taken "entities" rt)
             (dict_set "text" (taken "text" rt) tweet)))).
Proof.
  unfold inherit_retweet, dict_pop. cbn [fst snd].
  change (match dict_get ?f ?d with Some v => v | None => VNone end)
    with (taken f d).
  repeat (rewrite !taken_del_other by reflexivity). reflexivity.
Qed.

Lemma with_twarc_wf (twarc : value) (v : value) :
  wf_ref v -> wf_ref (with_twarc twarc v).
Proof.
  intros (d & k & id & -> & Ht & Hid). exists (dict_set "__twarc" twarc d), k, id.
  split; [done|]. by rewrite !dict_get_set.
Qed.

Lemma with_twarc_entry (twarc : value) (v : value) :
  entry_of (with_twarc twarc v) = entry_of v.
Proof. destruct v; try done. cbn [with_twarc entry_of]. by rewrite !dict_get_set. Qed.

Lemma with_twarc_of_type (twarc : value) (kind : string) (refs : list value) :
  dicts_of_type kind (map (with_twarc twarc) refs) =
  map (dict_set "__twarc" twarc) (dicts_of_type kind refs).
Proof.
  unfold dicts_of_type. induction refs as [|v r IH]; [done|].
  cbn [map omap list_omap]. rewrite IH.
  destruct v; try done. cbn [with_twarc has_type]. rewrite dict_get_set.
  cbn [String.eqb Ascii.eqb Bool.eqb].
  by destruct (match dict_get "type" d with Some ty => eq_str ty kind | None => false end).
Qed.

Lemma copy_author_id_twarc (f : string) (twarc : value) (src : option dict) (tweet : dict) :
  (forall d, src = Some d -> truthy (VDict d) = true) ->
  copy_author_id f (dict_set "__twarc" twarc <$> src) tweet =
  copy_author_id f src tweet.
Proof.
  intros Ht. destruct src as [d|]; [|done]. cbn [fmap option_fmap option_map].
  unfold copy_author_id. rewrite (Ht d eq_refl).
  assert (truthy (VDict (dict_set "__twarc" twarc d)) = true) as ->
    by (destruct d as [|[? ?] ?]; [done|]; cbn [dict_set];
        by destruct (String.eqb _ _)).
  by rewrite dict_in_set, dict_get_set.
Qed.

Lemma copy_author_id_comm (f k : string) (v : value) (src : option dict) (tweet : dict) :
  String.eqb f k = false -> dict_in k tweet = true ->
  copy_author_id f src (dict_set k v tweet) =
  dict_set k v (copy_author_id f src tweet).
Proof.
  intros E Hin. unfold copy_author_id. destruct src as [d|]; [|done].
  destruct (truthy (VDict d) && dict_in "author_id" d); [|done].
  destruct (dict_get "author_id" d); [|done]. by apply dict_set_set_comm.
Qed.

Lemma copy_author_id_in (f k : string) (src : option dict) (tweet : dict) :
  dict_in k tweet = true -> dict_in k (copy_author_id f src tweet) = true.
Proof.
  intros Hin. unfold copy_author_id. destruct src as [d|]; [|done].
  destruct (truthy (VDict d) && dict_in "author_id" d); [|done].
  destruct (dict_get "author_id" d); [|done].
  rewrite dict_in_set, Hin. apply orb_true_r.
Qed.

Lemma merged_twarc (self : DataFrameConverter) (twarc : value) (rt : option dict) (tweet : dict) :
  merged self (dict_set "__twarc" twarc <$> rt) tweet = merged self rt tweet.
Proof.
  destruct rt as [r|]; [|done]. cbn [fmap option_fmap option_map merged].
  destruct (merge_retweets self); [|done].
  rewrite !inherit_retweet_fst. by rewrite !taken_set_other.
Qed.

Lemma merged_comm (self : DataFrameConverter) (v : value) (rt : option dict) (tweet : dict) :
  dict_in "referenced_tweets" tweet = true ->
  merged self rt (dict_set "referenced_tweets" v tweet) =
  dict_set "referenced_tweets" v (merged self rt tweet).
Proof.
  intros Hin. destruct rt as [r|]; [|done]. cbn [merged].
  destruct (merge_retweets self); [|done].
  rewrite !inherit_retweet_fst.
  repeat (rewrite (dict_set_set_comm _ "referenced_tweets");
          [|reflexivity|rewrite ?dict_in_set, Hin; by rewrite ?orb_true_r]).
  reflexivity.
Qed.

(** The parent row does not see that the items of its reference list now
    carry [__twarc]. *)
Lemma format_tweet_twarc (self : DataFrameConverter) (tweet : dict)
    (refs : list value) (twarc : value) :
  dict_get "referenced_tweets" tweet = Some (VList refs) ->
  Forall wf_ref refs ->
  _format_tweet self
    (dict_set "referenced_tweets" (VList (map (with_twarc twarc) refs)) tweet)
  = _format_tweet self tweet.
Proof.
  intros Hl Hwf.
  rewrite (format_tweet_refs self tweet refs Hl Hwf).
  rewrite (format_tweet_refs self _ (map (with_twarc twarc) refs)); cycle 1.
  { by rewrite dict_get_set. }
  { apply Forall_fmap. eapply Forall_impl; [exact Hwf|].
    intros v Hv. by apply with_twarc_wf. }
  cbn zeta. rewrite !with_twarc_of_type.
  change (map (dict_set "__twarc" twarc) ?l) with (dict_set "__twarc" twarc <$> l).
  rewrite !fmap_last, merged_twarc.
  rewrite !copy_author_id_twarc by (intros d; apply dicts_of_type_nonempty).
  replace (map entry_of (map (with_twarc twarc) refs)) with (map entry_of refs);
    cycle 1.
  { rewrite map_map. apply map_ext. intros v. by rewrite with_twarc_entry. }
  assert (dict_in "referenced_tweets" (stripped tweet) = true) as Hin
    by by rewrite dict_in_get, stripped_get, Hl.
  unfold stripped at 1. rewrite !dict_del_set_comm by reflexivity.
  fold (stripped tweet).
  rewrite !copy_author_id_comm, merged_comm, dict_set_set_same;
    auto using copy_author_id_in.
Qed.

Lemma formattable_ok (self : DataFrameConverter) (t : dict) :
  formattable t -> exists out, _format_tweet self t = Ok out.
Proof.
  unfold formattable. destruct (dict_get "referenced_tweets" t) as [v|] eqn:E.
  - intros (refs & -> & Hwf). rewrite (format_tweet_refs self t refs E Hwf).
    by eexists.
  - intros _. rewrite (format_tweet_no_refs self t E). by eexists.
Qed.

Lemma formattable_twarc (twarc : value) (d : dict) :
  formattable d -> formattable (dict_set "__twarc" twarc d).
Proof. unfold formattable. by rewrite dict_get_set. Qed.

Lemma mapM_ext {A B : Type} (f g : A -> result B) (l : list A) :
  (forall x, f x = g x) -> mapM f l = mapM g l.
Proof. intros E. induction l as [|x r IH]; [done|]. cbn [mapM]. by rewrite E, IH. Qed.

Lemma inline_loop_spec (tweet : dict) (refs : list value) :
  Forall expandable refs ->
  forall self,
    let candidates :=
      map (dict_set "__twarc" (parent_twarc tweet)) (ref_dicts refs) in
    exists rows self',
      inline_loop self tweet refs =
        Ok (rows, map (with_twarc (parent_twarc tweet)) refs, self') /\
      mapM (_format_tweet self) (List.filter available candidates) = Ok rows /\
      Counts.referenced_tweets (counts self') =
        Counts.referenced_tweets (counts self) + Z.of_nat (length refs) /\
      Counts.unavailable (counts self') =
        Counts.unavailable (counts self)
        + Z.of_nat (length (List.filter (fun c => negb (available c)) candidates)).
Proof.
  induction 1 as [|v r (d & -> & Hwf & Hf) _ IH]; intros self.
  - exists [], self. cbn. repeat split; lia.
  - cbn zeta in *. cbn [inline_loop ref_dicts omap list_omap map List.filter].
    fold (ref_dicts r).
    set (c := dict_set "__twarc" (parent_twarc tweet) d).
    fold (available c).
    destruct (formattable_ok self c (formattable_twarc _ _ Hf)) as (row & Hrow).
    destruct (available c) eqn:Ea; cbn [negb].
    + rewrite (format_tweet_settings self (add_count c_referenced_tweets 1 self))
        by reflexivity.
      rewrite Hrow. cbn [bind].
      destruct (IH (add_count c_referenced_tweets 1 self))
        as (rows & self' & -> & Hrows & Hc1 & Hc2).
      exists (row :: rows), self'. cbn [bind mapM]. rewrite Hrow. cbn [bind].
      rewrite (mapM_ext _ (_format_tweet (add_count c_referenced_tweets 1 self)))
        by (intros; by apply format_tweet_settings).
      rewrite Hrows. cbn [bind with_twarc]. split; [done|]. split; [done|].
      cbn in Hc1, Hc2. cbn [length]. split; lia.
    + cbn [bind].
      destruct (IH (add_count c_unavailable 1 (add_count c_referenced_tweets 1 self)))
        as (rows & self' & -> & Hrows & Hc1 & Hc2).
      exists rows, self'. cbn [bind with_twarc]. split; [done|]. split.
      * rewrite <- Hrows. apply mapM_ext. intros. by apply format_tweet_settings.
      * cbn in Hc1, Hc2. cbn [length]. split; lia.
Qed.

Lemma references_expandable_wf (refs : list value) :
  Forall expandable refs -> Forall wf_ref refs.
Proof.
  intros H. eapply Forall_impl; [exact H|]. by intros v (d & _ & Hwf & _).
Qed.

(** The whole of [_inline_referenced_tweets] on a record that can be
    expanded. *)
Lemma inline_referenced_tweets_spec (self : DataFrameConverter) (tweet : dict) :
  formattable tweet ->
  Forall expandable (references tweet) ->
  let twarc := parent_twarc tweet in
  let candidates := map (dict_set "__twarc" twarc) (ref_dicts (expanded self tweet)) in
  exists parent rows self',
    _format_tweet self tweet = Ok parent /\
    _inline_referenced_tweets self tweet =
      Ok (rows ++ [parent],
          match dict_get "referenced_tweets" tweet with
          | Some (VList refs) =>
              if inline_referenced_tweets self
              then dict_set "referenced_tweets" (VList (map (with_twarc twarc) refs)) tweet
              else tweet
          | _ => tweet
          end,
          self') /\
    mapM (_format_tweet self) (List.filter available candidates) = Ok rows /\
    updated self self' /\
    Counts.referenced_tweets (counts self') =
      Counts.referenced_tweets (counts self) + Z.of_nat (length (expanded self tweet)) /\
    Counts.unavailable (counts self') =
      Counts.unavailable (counts self)
      + Z.of_nat (length (List.filter (fun c => negb (available c)) candidates)).
Proof.
  intros Hf Hexp twarc candidates.
  destruct (formattable_ok self tweet Hf) as (parent & Hp).
  exists parent. unfold _inline_referenced_tweets. rewrite dict_in_get.
  unfold formattable in Hf. unfold candidates, expanded, references in *.
  destruct (dict_get "referenced_tweets" tweet) as [v|] eqn:E; cbn [andb].
  - destruct Hf as (refs & -> & Hwf).
    destruct (inline_referenced_tweets self) eqn:Ei.
    + unfold dict_item. rewrite E. cbn [bind py_iter].
      destruct (inline_loop_spec tweet refs Hexp self)
        as (rows & self' & Hloop & Hrows & Hc1 & Hc2).
      exists rows, self'. rewrite Hloop. cbn [bind].
      pose proof (inline_loop_updated _ _ _ _ _ _ Hloop) as Hu.
      rewrite (format_tweet_settings self self') by by apply updated_merge_retweets.
      rewrite format_tweet_twarc, Hp by done. cbn [bind]. done.
    + exists [], self. rewrite Hp. cbn. repeat split; try lia. apply updated_refl.
  - exists [], self. rewrite Hp.
    destruct (inline_referenced_tweets self); cbn; repeat split; try lia;
      apply updated_refl.
Qed.

Lemma ref_dicts_expandable (refs : list value) :
  Forall expandable refs -> map VDict (ref_dicts refs) = refs.
Proof.
  induction 1 as [|v r (d & -> & _) _ IH]; [done|].
  unfold ref_dicts in *. cbn [omap list_omap map]. by rewrite IH.
Qed.

Lemma expanded_expandable (self : DataFrameConverter) (tweet : dict) :
  Forall expandable (references tweet) -> Forall expandable (expanded self tweet).
Proof. unfold expanded. by destruct (inline_referenced_tweets self). Qed.

Lemma dict_set_keys (k : string) (v : value) (d : dict) :
  dict_in k d = true -> map fst (dict_set k v d) = map fst d.
Proof.
  unfold dict_in. induction d as [|[k0 v0] r IH]; cbn [existsb dict_set fst]; [done|].
  destruct (String.eqb k0 k) eqn:E; cbn [map fst].
  - apply String.eqb_eq in E. by subst.
  - cbn [orb]. intros H. by rewrite IH.
Qed.

(** The value that the loop gives to every entry is what the record has
    under [__twarc], [None] if it has no such field. *)
Lemma parent_twarc_spec (tweet : dict) :
  parent_twarc tweet = default VNone (dict_get "__twarc" tweet).
Proof. unfold parent_twarc. by destruct (dict_get "__twarc" tweet). Qed.

(** C6: on a record that can be expanded, [_inline_referenced_tweets]
    returns; the parent row is the normalised record and comes last,
    whether expansion is on or off. With expansion on, every entry of the
    reference list adds one to [referenced_tweets] and gives a candidate:
    the entry with every field its own but [__twarc], under which it has
    what the parent has under [__twarc], [None] if the parent has no such
    field; the candidates with more than three fields are normalised and
    are the rows before the parent, in list order; each of the others adds
    one to [unavailable]. With expansion off no entry is gone through. *)
Theorem C6_reference_expansion (self : DataFrameConverter) (tweet : dict) :
  formattable tweet ->
  Forall expandable (references tweet) ->
  let twarc := default VNone (dict_get "__twarc" tweet) in
  let candidates := map (dict_set "__twarc" twarc) (ref_dicts (expanded self tweet)) in
  exists parent rows tweet' self',
    _inline_referenced_tweets self tweet = Ok (rows ++ [parent], tweet', self') /\
    _format_tweet self tweet = Ok parent /\
    mapM (_format_tweet self) (List.filter available candidates) = Ok rows /\
    Forall2 (fun c d =>
               dict_get "__twarc" c = Some twarc /\
               forall k, k <> "__twarc" -> dict_get k c = dict_get k d)
            candidates (ref_dicts (expanded self tweet)) /\
    map VDict (ref_dicts (expanded self tweet)) = expanded self tweet /\
    (inline_referenced_tweets self = true -> expanded self tweet = references tweet) /\
    (inline_referenced_tweets self = false -> expanded self tweet = [] /\ rows = []) /\
    Counts.referenced_tweets (counts self') =
      Counts.referenced_tweets (counts self)
      + Z.of_nat (length (expanded self tweet)) /\
    Counts.unavailable (counts self') =
      Counts.unavailable (counts self)
      + Z.of_nat (length (List.filter (fun c => negb (available c)) candidates)).
Proof.
  intros Hf Hexp twarc candidates.
  destruct (inline_referenced_tweets_spec self tweet Hf Hexp)
    as (parent & rows & self' & Hp & Hi & Hrows & _ & Hc1 & Hc2).
  cbn zeta in Hi, Hrows, Hc2. rewrite parent_twarc_spec in Hi, Hrows, Hc2.
  fold twarc in Hi, Hrows, Hc2. fold candidates in Hrows, Hc2.
  eexists parent, rows, _, self'. split; [exact Hi|]. split; [done|].
  split; [done|].
  split.
  { apply Forall2_fmap_l, Forall_Forall2_diag, Forall_forall. intros d _.
    cbn [compose]. rewrite dict_get_set. split; [done|].
    intros k Hk. rewrite dict_get_set.
    destruct (String.eqb "__twarc" k) eqn:Ek; [|done].
    apply String.eqb_eq in Ek. by subst. }
  split; [by apply ref_dicts_expandable, expanded_expandable|].
  split; [by unfold expanded; intros ->|]. split; [|done].
  unfold candidates, expanded in *. intros E. rewrite E in *. split; [done|].
  cbn in Hrows. by injection Hrows as <-.
Qed.

Lemma one_retweet_expandable :
  formattable one_retweet /\ Forall expandable (references one_retweet).
Proof.
  split.
  - exists [VDict original]. split; [done|]. repeat constructor. by eexists _, _, _.
  - repeat constructor. exists original. split; [done|]. split; [|done].
    by eexists _, _, _.
Qed.

Lemma C6_witness :
  exists parent rows tweet' self',
    _inline_referenced_tweets an_expander one_retweet
      = Ok (rows ++ [parent], tweet', self') /\
    _format_tweet an_expander one_retweet = Ok parent /\
    Counts.referenced_tweets (counts self') =
      Counts.referenced_tweets (counts an_expander) + 1.
Proof.
  destruct (C6_reference_expansion an_expander one_retweet
              (proj1 one_retweet_expandable) (proj2 one_retweet_expandable))
    as (parent & rows & tweet' & self' & H1 & H2 & _ & _ & _ & _ & _ & H3 & _).
  exists parent, rows, tweet', self'.
  split; [exact H1|]. split; [exact H2 | exact H3].
Defined.

(** The example of the specification: the referenced row, then the parent
    row, and one referenced tweet counted. *)
Example expansion_order_run :
  expansion_view (_inline_referenced_tweets an_expander one_retweet) =
  Some ([ [("id", VStr "1"); ("author_id", VStr "x"); ("text", VStr "original");
           ("public_metrics", VDict [("like_count", VInt 5)]);
           ("__twarc", retrieved); ("referenced_tweets", VDict [])];
          [("id", VStr "10"); ("author_id", VStr "me"); ("text", VStr "original");
           ("referenced_tweets", VDict [("retweeted", VDict [("id", VStr "1")])]);
           ("__twarc", retrieved); ("retweeted_user_id", VStr "x");
           ("context_annotations", VNone);
           ("public_metrics", VDict [("like_count", VInt 5)])] ],
        1, 0).
Proof. by vm_compute. Qed.

(** An entry with nothing but its kind and identifier gives no row. *)
Example unavailable_run :
  expansion_view (_inline_referenced_tweets an_expander one_reply) =
  Some ([ [("id", VStr "11"); ("author_id", VStr "me"); ("text", VStr "no");
           ("referenced_tweets", VDict [("replied_to", VDict [("id", VStr "7")])]);
           ("__twarc", retrieved)] ],
        1, 1).
Proof. by vm_compute. Qed.

(** C7, amended: after [_inline_referenced_tweets] the caller's record has
    the keys it had, in their order, and the value it had under every key
    but [referenced_tweets]; its reference list is still there, and with
    expansion on each of its entries now carries the parent's [__twarc]:
    what the record has under [__twarc], [None] if it has no such field.
    The parent row is the row that the record gives without expansion. The
    rows before it are the normalised candidates with more than three
    fields, and a candidate is an entry of the list with [__twarc] set to
    the parent's and every other field its own. *)
Theorem C7_expansion_frame (self : DataFrameConverter) (tweet : dict) :
  formattable tweet ->
  Forall expandable (references tweet) ->
  let twarc := default VNone (dict_get "__twarc" tweet) in
  exists parent rows tweet' self' siblings,
    _inline_referenced_tweets self tweet = Ok (rows ++ [parent], tweet', self') /\
    map fst tweet' = map fst tweet /\
    (forall k, k <> "referenced_tweets" -> dict_get k tweet' = dict_get k tweet) /\
    references tweet' =
      (if inline_referenced_tweets self
       then map (with_twarc twarc) (references tweet)
       else references tweet) /\
    _format_tweet self tweet = Ok parent /\
    mapM (_format_tweet self) (List.filter available siblings) = Ok rows /\
    siblings = map (dict_set "__twarc" twarc) (ref_dicts (expanded self tweet)) /\
    Forall2 (fun c d =>
               dict_get "__twarc" c = Some twarc /\
               forall k, k <> "__twarc" -> dict_get k c = dict_get k d)
            siblings (ref_dicts (expanded self tweet)).
Proof.
  intros Hf Hexp twarc.
  destruct (inline_referenced_tweets_spec self tweet Hf Hexp)
    as (parent & rows & self' & Hp & Hi & Hrows & _ & _ & _).
  cbn zeta in Hi, Hrows. rewrite parent_twarc_spec in Hi, Hrows.
  fold twarc in Hi, Hrows.
  eexists parent, rows, _, self', _. split; [exact Hi|].
  assert (forall refs, dict_get "referenced_tweets" tweet = Some (VList refs) ->
                       dict_in "referenced_tweets" tweet = true) as Hin
    by (intros refs E; by rewrite dict_in_get, E).
  split; [|split; [|split]].
  - destruct (dict_get "referenced_tweets" tweet) as [[| | | |refs|]|] eqn:E; try done.
    destruct (inline_referenced_tweets self); [|done].
    apply dict_set_keys. by apply (Hin refs).
  - intros k Hk.
    destruct (dict_get "referenced_tweets" tweet) as [[| | | |refs|]|] eqn:E; try done.
    destruct (inline_referenced_tweets self); [|done].
    rewrite dict_get_set.
    destruct (String.eqb "referenced_tweets" k) eqn:Ek; [|done].
    apply String.eqb_eq in Ek. by subst.
  - unfold references.
    destruct (dict_get "referenced_tweets" tweet) as [[| | | |refs|]|] eqn:E;
      rewrite ?E; try by destruct (inline_referenced_tweets self).
    destruct (inline_referenced_tweets self); [|by rewrite E].
    by rewrite dict_get_set.
  - split; [done|]. split; [exact Hrows|]. split; [done|].
    apply Forall2_fmap_l, Forall_Forall2_diag, Forall_forall. intros d _.
    cbn [compose]. rewrite dict_get_set. split; [done|]. intros k Hk. rewrite dict_get_set.
    destruct (String.eqb "__twarc" k) eqn:Ek; [|done].
    apply String.eqb_eq in Ek. by subst.
Qed.

Lemma C7_witness :
  exists parent rows tweet' self' siblings,
    _inline_referenced_tweets an_expander one_retweet
      = Ok (rows ++ [parent], tweet', self') /\
    map fst tweet' = map fst one_retweet /\
    dict_get "text" tweet' = dict_get "text" one_retweet /\
    siblings = [dict_set "__twarc" retrieved original].
Proof.
  destruct (C7_expansion_frame an_expander one_retweet
              (proj1 one_retweet_expandable) (proj2 one_retweet_expandable))
    as (parent & rows & tweet' & self' & siblings & H1 & H2 & H3 & _ & _ & _ & H4 & _).
  exists parent, rows, tweet', self', siblings.
  split; [exact H1|]. split; [exact H2|]. split; [apply H3; discriminate|].
  exact H4.
Defined.

Example caller_view_run :
  caller_view (_inline_referenced_tweets an_expander one_retweet) =
  Some [("id", VStr "10"); ("author_id", VStr "me"); ("text", VStr "RT @x: orig");
        ("referenced_tweets",
           VList [VDict (original ++ [("__twarc", retrieved)])]);
        ("__twarc", retrieved)].
Proof. by vm_compute. Qed.

(** The claim as stated lets the caller's record change in one way only,
    the reference list being removed. On [one_retweet] the list is neither
    as it was nor removed: its entry has gained [__twarc]. *)
Lemma C7_counterexample :
  ~ (forall (self : DataFrameConverter) (tweet tweet' : dict) (k : string),
       formattable tweet ->
       Forall expandable (references tweet) ->
       caller_view (_inline_referenced_tweets self tweet) = Some tweet' ->
       dict_get k tweet' = dict_get k tweet \/
       (k = "referenced_tweets" /\ dict_get k tweet' = None)).
Proof.
  intros H.
  destruct (H an_expander one_retweet _ "referenced_tweets"
              (proj1 one_retweet_expandable) (proj2 one_retweet_expandable)
              caller_view_run) as [E|[_ E]]; discriminate E.
Qed.

(** * Further properties of the converter *)

(** ** The schema *)

Lemma extend_new_NoDup (cols xs : list string) :
  NoDup cols -> NoDup (extend_new cols xs).
Proof.
  revert cols. induction xs as [|x r IH]; intros cols H; [done|].
  cbn [extend_new]. apply IH. destruct (py_in x cols) eqn:E; [done|].
  apply py_in_false in E. apply NoDup_app. split; [done|].
  split; [|apply NoDup_singleton]. intros y Hy Hx.
  apply list_elem_of_singleton in Hx. by subst.
Qed.

(** X1: whatever the arguments, no column of the schema is there twice,
    and a name is a column exactly when it is declared for a kind that the
    data type mentions or is one of the extra columns. *)
Theorem schema_columns (a : init_args) (c : string) :
  let kind := arg_input_data_type a in
  let extra := arg_extra_input_columns a in
  NoDup (columns (__init__ a)) /\
  (c ∈ columns (__init__ a) <->
     (str_contains "tweets" kind = true /\ c ∈ DEFAULT_TWEET_COLUMNS) \/
     (str_contains "users" kind = true /\ c ∈ DEFAULT_USER_COLUMNS) \/
     (str_contains "compliance" kind = true /\ c ∈ DEFAULT_COMPLIANCE_COLUMNS) \/
     (str_contains "counts" kind = true /\ c ∈ chars DEFAULT_COUNTS_COLUMNS) \/
     (extra <> "" /\ c ∈ split_on "," extra)).
Proof.
  intros kind extra. change (columns (__init__ a)) with (init_columns kind extra).
  unfold init_columns.
  generalize DEFAULT_TWEET_COLUMNS, DEFAULT_USER_COLUMNS,
    DEFAULT_COMPLIANCE_COLUMNS, (chars DEFAULT_COUNTS_COLUMNS),
    (split_on "," extra).
  intros T U C K X. split.
  - destruct (str_contains "tweets" kind), (str_contains "users" kind),
      (str_contains "compliance" kind), (str_contains "counts" kind),
      (negb (String.eqb extra ""));
      repeat apply extend_new_NoDup; constructor.
  - assert (c ∈ [] <-> False) as Hnil by apply elem_of_nil.
    destruct (String.eqb extra "") eqn:Ee; cbn [negb];
      [apply String.eqb_eq in Ee | apply String.eqb_neq in Ee];
      destruct (str_contains "tweets" kind), (str_contains "users" kind),
        (str_contains "compliance" kind), (str_contains "counts" kind);
      rewrite ?extend_new_elem, ?Hnil; intuition congruence.
Qed.

(** ** What [_format_tweet] gives back *)

(** From [py_in k l = false] for a list of literals, the comparisons of
    [k] with each of them. *)
Ltac split_keys H :=
  unfold py_in, touched_keys, written_keys, body_fields in H;
  cbn [existsb app] in H;
  rewrite ?(String.eqb_sym _ "pinned_tweet"), ?(String.eqb_sym _ "in_reply_to_user"),
    ?(String.eqb_sym _ "type"), ?(String.eqb_sym _ "referenced_tweets"),
    ?(String.eqb_sym _ "retweeted_user_id"), ?(String.eqb_sym _ "quoted_user_id"),
    ?(String.eqb_sym _ "text"), ?(String.eqb_sym _ "entities"),
    ?(String.eqb_sym _ "attachments"), ?(String.eqb_sym _ "context_annotations"),
    ?(String.eqb_sym _ "public_metrics") in H;
  repeat (apply orb_false_iff in H as [? H]).

Ltac use_keys :=
  repeat match goal with
         | E : String.eqb _ _ = false |- _ => rewrite E
         end.

(** As [bind_ok], leaving everything but the [let*] folded. *)
Ltac bind_ok' H :=
  match type of H with
  | bind ?m _ = Ok _ =>
      let E := fresh "E" in
      destruct m as [?| |] eqn:E; cbn [bind] in H; [|discriminate H..]
  end.

Lemma inherit_retweet_other (k : string) (tweet rt : dict) :
  py_in k body_fields = false ->
  dict_get k (fst (inherit_retweet tweet rt)) = dict_get k tweet.
Proof. intros H. by rewrite inherit_retweet_get, H. Qed.

(** Whatever the record, a result of [_format_tweet] is the end of the
    function applied to a record [tw] that differs from the stripped input
    on the written keys at most, with a mapping under
    [referenced_tweets]. *)
Lemma format_tweet_shape (self : DataFrameConverter) (tweet out : dict) :
  _format_tweet self tweet = Ok out ->
  exists m tw,
    out = finish (dict_set "referenced_tweets" (VDict m) tw) /\
    forall k, py_in k written_keys = false ->
      dict_get k tw = dict_get k (stripped tweet).
Proof.
  intros H. unfold _format_tweet, deepcopy, dict_pop in H. cbn [snd] in H.
  fold (stripped tweet) in H. bind_ok' H. injection H as <-.
  assert (forall k src1 src2, py_in k written_keys = false ->
            dict_get k (copy_author_id "quoted_user_id" src2
                          (copy_author_id "retweeted_user_id" src1 (stripped tweet)))
            = dict_get k (stripped tweet)) as Hcopy.
  { intros k src1 src2 Hk. split_keys Hk. by rewrite !copy_author_id_other. }
  destruct (dict_get "referenced_tweets" (stripped tweet)) as [referenced|].
  - bind_ok' E. bind_ok' E. bind_ok' E.
    destruct (last a1) as [rt|];
      [destruct (truthy (VDict rt) && merge_retweets self);
       [destruct (inherit_retweet _ rt) as [tw' rt'] eqn:Ei|]|];
      bind_ok' E; injection E as <-; eexists _, _; (split; [reflexivity|]);
      intros k Hk;
      try first [by apply (Hcopy k None (last a2))
                | by apply (Hcopy k (Some rt) (last a2))].
    replace tw' with (fst (inherit_retweet
      (copy_author_id "quoted_user_id" (last a2)
         (copy_author_id "retweeted_user_id" (Some rt) (stripped tweet))) rt))
      by by rewrite Ei.
    rewrite inherit_retweet_other; [by apply Hcopy|].
    split_keys Hk. unfold py_in, body_fields. cbn [existsb].
    rewrite !(String.eqb_sym k). by use_keys.
  - injection E as <-. by eexists _, _.
Qed.

(** X2: whenever [_format_tweet] returns, its result has none of
    [pinned_tweet], [in_reply_to_user], [type]; it has a mapping under
    [referenced_tweets]; and [attachments], [entities], [public_metrics]
    are there only when they are not empty. *)
Theorem format_tweet_output (self : DataFrameConverter) (tweet out : dict) :
  _format_tweet self tweet = Ok out ->
  dict_get "pinned_tweet" out = None /\
  dict_get "in_reply_to_user" out = None /\
  dict_get "type" out = None /\
  (exists m, dict_get "referenced_tweets" out = Some (VDict m)) /\
  forall f v, f ∈ droppable_keys -> dict_get f out = Some v -> truthy v = true.
Proof.
  intros H. destruct (format_tweet_shape _ _ _ H) as (m & tw & -> & Htw).
  split; [lookup; by rewrite Htw, stripped_get|].
  split; [lookup; by rewrite Htw, stripped_get|].
  split; [by lookup|]. split; [eexists; by lookup|].
  intros f v Hf. unfold droppable_keys in Hf.
  repeat (apply elem_of_cons in Hf as [->|Hf]); [| | |by apply elem_of_nil in Hf];
    lookup;
    match goal with
    | |- context [match ?x with Some _ => _ | None => _ end] =>
        destruct x as [w|]; [|done]
    end;
    destruct (truthy w) eqn:Ew; congruence.
Qed.

Lemma format_tweet_output_witness :
  exists out, _format_tweet a_converter a_retweet = Ok out /\
    dict_get "type" out = None.
Proof.
  eexists. split; [reflexivity|].
  exact (proj1 (proj2 (proj2 (format_tweet_output a_converter a_retweet _ eq_refl)))).
Defined.

(** X3: whenever [_format_tweet] returns, every key that is not one of the
    eleven it deals with has the value it had. *)
Theorem format_tweet_frame (self : DataFrameConverter) (tweet out : dict) (k : string) :
  _format_tweet self tweet = Ok out ->
  k ∉ touched_keys ->
  dict_get k out = dict_get k tweet.
Proof.
  intros H Hk. destruct (format_tweet_shape _ _ _ H) as (m & tw & -> & Htw).
  apply py_in_false in Hk.
  assert (py_in k written_keys = false) as Hw.
  { unfold touched_keys in Hk. unfold py_in in *. rewrite existsb_app in Hk.
    by apply orb_false_iff in Hk as [_ ?]. }
  split_keys Hk. unfold finish.
  rewrite !dict_get_drop_if_empty, dict_get_del, dict_get_set. use_keys.
  rewrite Htw, stripped_get by done. by use_keys.
Qed.

Lemma format_tweet_frame_witness :
  exists out, _format_tweet a_converter a_retweet = Ok out /\
    dict_get "id" out = dict_get "id" a_retweet.
Proof.
  eexists. split; [reflexivity|].
  apply (format_tweet_frame a_converter a_retweet _ "id" eq_refl).
  apply py_in_false. reflexivity.
Defined.

Lemma of_type_nil (kind : string) (refs : list value) (rts : list dict) :
  Forall (fun v => has_type kind v = false) refs ->
  of_type kind refs = Ok rts -> rts = [].
Proof.
  intros H. revert rts. induction H as [|v r Hv _ IH]; intros rts E.
  - by injection E as <-.
  - cbn [of_type] in E. bind_ok E. bind_ok E. specialize (IH _ eq_refl). subst.
    destruct v as [| | | | |d]; try discriminate E. injection E as <-.
    cbn [has_type subscript] in *. unfold dict_item in E0.
    destruct (dict_get "type" d); [|discriminate E0]. injection E0 as ->.
    by rewrite Hv.
Qed.

Lemma py_iter_no_type (kind : string) (v : value) (refs : list value) :
  (forall l, v = VList l -> Forall (fun x => has_type kind x = false) l) ->
  py_iter v = Ok refs -> Forall (fun x => has_type kind x = false) refs.
Proof.
  intros H E. destruct v; try discriminate E; injection E as <-.
  - apply Forall_forall. intros x Hx. by apply list_elem_of_fmap in Hx as (? & -> & _).
  - by apply H.
  - apply Forall_forall. intros x Hx. by apply list_elem_of_fmap in Hx as (? & -> & _).
Qed.

(** X4: on a record whose reference list has no retweeted entry the
    setting [merge_retweets] plays no part: quotes and replies are never
    merged, whatever converter formats them. *)
Theorem format_tweet_without_retweet
    (self self' : DataFrameConverter) (tweet : dict) :
  (forall refs, dict_get "referenced_tweets" tweet = Some (VList refs) ->
     Forall (fun v => has_type "retweeted" v = false) refs) ->
  _format_tweet self tweet = _format_tweet self' tweet.
Proof.
  intros H. unfold _format_tweet, deepcopy, dict_pop. cbn [snd].
  fold (stripped tweet). rewrite stripped_get. cbn [String.eqb Ascii.eqb Bool.eqb orb].
  destruct (dict_get "referenced_tweets" tweet) as [referenced|]; [|done].
  destruct (py_iter referenced) as [refs| |] eqn:Ep; [|done..]. cbn [bind].
  assert (Forall (fun x => has_type "retweeted" x = false) refs) as Hno.
  { apply (py_iter_no_type _ referenced); [|done]. intros l ->. by apply H. }
  destruct (of_type "retweeted" refs) as [rts| |] eqn:Er; [|done..].
  by rewrite (of_type_nil _ _ _ Hno Er).
Qed.

Lemma format_tweet_without_retweet_witness :
  _format_tweet a_converter one_reply = _format_tweet an_expander one_reply.
Proof.
  apply format_tweet_without_retweet. intros refs [= <-].
  by repeat constructor.
Defined.

(** ** Formatting twice *)

Lemma dict_del_absent (k : string) (d : dict) :
  dict_get k d = None -> dict_del k d = d.
Proof.
  unfold dict_del. induction d as [|[k0 v0] r IH]; [done|]. cbn [dict_get List.filter fst].
  destruct (String.eqb k0 k); [done|]. intros H. cbn [negb]. by rewrite IH.
Qed.

Lemma dict_set_same (k : string) (v : value) (d : dict) :
  dict_get k d = Some v -> dict_set k v d = d.
Proof.
  induction d as [|[k0 v0] r IH]; [done|]. cbn [dict_get dict_set].
  destruct (String.eqb k0 k) eqn:E.
  - apply String.eqb_eq in E. by intros [= ->]; subst.
  - intros H. by rewrite IH.
Qed.

Lemma drop_if_empty_kept (k : string) (d : dict) :
  (forall v, dict_get k d = Some v -> truthy v = true) ->
  drop_if_empty k d = d.
Proof.
  intros H. unfold drop_if_empty. destruct (dict_get k d) as [v|]; [|done].
  by rewrite (H v eq_refl).
Qed.

(** What holds of [finish (dict_set "referenced_tweets" (VDict m) tw)]. *)
Lemma finished_record (m tw : dict) :
  dict_get "pinned_tweet" tw = None ->
  dict_get "in_reply_to_user" tw = None ->
  let out := finish (dict_set "referenced_tweets" (VDict m) tw) in
  dict_get "pinned_tweet" out = None /\
  dict_get "in_reply_to_user" out = None /\
  dict_get "type" out = None /\
  dict_get "referenced_tweets" out = Some (VDict m) /\
  forall f v, f ∈ droppable_keys -> dict_get f out = Some v -> truthy v = true.
Proof.
  intros H1 H2 out. unfold out.
  split; [by lookup|]. split; [by lookup|]. split; [by lookup|].
  split; [by lookup|].
  intros f v Hf. unfold droppable_keys in Hf.
  repeat (apply elem_of_cons in Hf as [->|Hf]); [| | |by apply elem_of_nil in Hf];
    lookup;
    match goal with
    | |- context [match ?x with Some _ => _ | None => _ end] =>
        destruct x as [w|]; [|done]
    end;
    destruct (truthy w) eqn:Ew; congruence.
Qed.

Lemma format_tweet_invariants (self : DataFrameConverter) (tweet out : dict) :
  _format_tweet self tweet = Ok out ->
  exists m,
    dict_get "pinned_tweet" out = None /\
    dict_get "in_reply_to_user" out = None /\
    dict_get "type" out = None /\
    dict_get "referenced_tweets" out = Some (VDict m) /\
    forall f v, f ∈ droppable_keys -> dict_get f out = Some v -> truthy v = true.
Proof.
  intros H. destruct (format_tweet_shape _ _ _ H) as (m & tw & -> & Htw).
  exists m. apply finished_record; by rewrite Htw, stripped_get.
Qed.

(** A formatted record with no reference is left as it is. *)
Lemma format_tweet_fixed (self : DataFrameConverter) (out : dict) :
  dict_get "pinned_tweet" out = None ->
  dict_get "in_reply_to_user" out = None ->
  dict_get "type" out = None ->
  dict_get "referenced_tweets" out = Some (VDict []) ->
  (forall f v, f ∈ droppable_keys -> dict_get f out = Some v -> truthy v = true) ->
  _format_tweet self out = Ok out.
Proof.
  intros H1 H2 H3 H4 H5. unfold _format_tweet, deepcopy, dict_pop. cbn [snd].
  rewrite (dict_del_absent "pinned_tweet"), (dict_del_absent "in_reply_to_user") by done.
  rewrite H4. cbn [py_iter map bind of_type last copy_author_id mapM].
  change (dict_of_ChainMap []) with (@nil (string * value)).
  rewrite dict_set_same by done. cbn [snd].
  rewrite (dict_del_absent "type") by done.
  rewrite (drop_if_empty_kept "attachments")
    by (intros v; apply H5; unfold droppable_keys; set_solver).
  rewrite (drop_if_empty_kept "entities")
    by (intros v; apply H5; unfold droppable_keys; set_solver).
  by rewrite (drop_if_empty_kept "public_metrics")
    by (intros v; apply H5; unfold droppable_keys; set_solver).
Qed.

(** A record whose [referenced_tweets] is a mapping that is not empty is
    not taken: its keys are strings, which have no [type]. *)
Lemma format_tweet_mapping (self : DataFrameConverter) (tweet : dict)
    (k : string) (v : value) (m : dict) :
  dict_get "referenced_tweets" tweet = Some (VDict ((k, v) :: m)) ->
  _format_tweet self tweet = Raise TypeError.
Proof.
  intros H. unfold _format_tweet, deepcopy, dict_pop. cbn [snd].
  fold (stripped tweet). by rewrite stripped_get, H.
Qed.

(** X5: [_format_tweet] is not made to be applied to its own result: the
    result has a mapping under [referenced_tweets]; if the mapping is empty
    a second application returns the result unchanged, and if not, which
    is the case whenever the record had a reference, it raises
    [TypeError]. *)
Theorem format_tweet_twice
    (self self' : DataFrameConverter) (tweet out : dict) :
  _format_tweet self tweet = Ok out ->
  exists m,
    dict_get "referenced_tweets" out = Some (VDict m) /\
    (m = [] -> _format_tweet self' out = Ok out) /\
    (m <> [] -> _format_tweet self' out = Raise TypeError) /\
    (forall refs,
       dict_get "referenced_tweets" tweet = Some (VList refs) ->
       Forall wf_ref refs -> refs <> [] -> m <> []).
Proof.
  intros H. destruct (format_tweet_invariants _ _ _ H) as (m & H1 & H2 & H3 & H4 & H5).
  exists m. split; [done|]. split; [|split].
  - intros ->. by apply format_tweet_fixed.
  - intros Hm. destruct m as [|[k v] m]; [done|]. by apply (format_tweet_mapping _ _ k v m).
  - intros refs Hl Hwf Hne ->. destruct refs as [|x refs]; [done|].
    pose proof (Forall_inv Hwf) as (d & kind & id & -> & Ht & Hid).
    destruct (references_first_wins self tweet (VDict d :: refs) kind Hl Hwf)
      as (out' & m' & Ho & Hm' & Hk).
    rewrite H in Ho. injection Ho as <-. rewrite H4 in Hm'. injection Hm' as <-.
    unfold dicts_of_type in Hk. cbn [omap list_omap has_type] in Hk.
    rewrite Ht in Hk. cbn [eq_str] in Hk. rewrite String.eqb_refl in Hk.
    cbn in Hk. by rewrite Hid in Hk.
Qed.

Lemma format_tweet_twice_witness :
  exists out m,
    _format_tweet a_converter a_retweet = Ok out /\
    dict_get "referenced_tweets" out = Some (VDict m) /\
    _format_tweet a_converter out = Raise TypeError.
Proof.
  destruct (format_tweet_twice a_converter a_converter a_retweet _ eq_refl)
    as (m & H1 & _ & H3 & H4).
  eexists _, m. split; [reflexivity|]. split; [exact H1|].
  apply H3. apply (H4 _ eq_refl a_retweet_refs_wf). discriminate.
Defined.

(** ** Records that [_format_tweet] does not take *)

Lemma of_type_typed (kind : string) (refs : list value) :
  Forall typed refs -> of_type kind refs = Ok (dicts_of_type kind refs).
Proof.
  induction 1 as [|v r (d & ty & -> & Ht) _ IH]; [done|].
  cbn [of_type subscript]. unfold dict_item. rewrite Ht. cbn [bind].
  rewrite IH. cbn [bind]. unfold dicts_of_type. cbn [omap list_omap has_type].
  rewrite Ht. by destruct (eq_str ty kind).
Qed.

Lemma of_type_raise (kind : string) (pre post : list value) (x : value) (e : pyerr) :
  Forall typed pre -> subscript x "type" = Raise e ->
  of_type kind (pre ++ x :: post) = Raise e.
Proof.
  intros Hpre Hx. induction Hpre as [|v r (d & ty & -> & Ht) _ IH].
  - cbn [app of_type]. by rewrite Hx.
  - cbn [app of_type subscript]. unfold dict_item. rewrite Ht. cbn [bind].
    by rewrite IH.
Qed.

Lemma mapM_raise {A B : Type} (f : A -> result B) (pre post : list A) (x : A)
    (ys : list B) (e : pyerr) :
  mapM f pre = Ok ys -> f x = Raise e -> mapM f (pre ++ x :: post) = Raise e.
Proof.
  revert ys. induction pre as [|a r IH]; intros ys Hpre Hx.
  - cbn [app mapM]. by rewrite Hx.
  - cbn [app mapM] in *. bind_ok Hpre. bind_ok Hpre. by rewrite (IH _ eq_refl).
Qed.

(** The normal form of [_format_tweet] on a list of entries that all have
    a kind: what is left to go wrong is in the rebuilding of the mapping. *)
Lemma format_tweet_typed (self : DataFrameConverter) (tweet : dict) (refs : list value) :
  dict_get "referenced_tweets" tweet = Some (VList refs) ->
  Forall typed refs ->
  let rt := last (dicts_of_type "retweeted" refs) in
  let qt := last (dicts_of_type "quoted" refs) in
  _format_tweet self tweet =
  let* entries := mapM ref_entry refs in
  Ok (finish
        (dict_set "referenced_tweets" (VDict (dict_of_ChainMap entries))
           (merged self rt
              (copy_author_id "quoted_user_id" qt
                 (copy_author_id "retweeted_user_id" rt (stripped tweet)))))).
Proof.
  intros H Hty rt qt. unfold _format_tweet, deepcopy, dict_pop. cbn [snd].
  fold (stripped tweet). rewrite stripped_get, H.
  cbn [orb String.eqb Ascii.eqb Bool.eqb py_iter bind].
  rewrite !of_type_typed by done. cbn [bind]. fold rt qt.
  set (tw := copy_author_id "quoted_user_id" qt _).
  destruct rt as [r|] eqn:Ert; cbn [merged].
  - rewrite (dicts_of_type_nonempty _ _ _ Ert). cbn [andb].
    destruct (merge_retweets self).
    + destruct (inherit_retweet tw r) as [tw' r'] eqn:Ei. cbn [fst].
      rewrite mapM_replace_last.
      { by destruct (mapM ref_entry refs). }
      intros pre x post -> Hx Hpost.
      destruct (has_type_dict _ _ Hx) as (d & -> & _).
      apply existsb_false_Forall in Hpost.
      unfold rt in Ert. rewrite (last_of_type _ _ _ _ Hx Hpost) in Ert.
      injection Ert as ->.
      unfold ref_entry, subscript, dict_item.
      replace r' with (snd (inherit_retweet tw r)) by by rewrite Ei.
      by rewrite !inherit_retweet_rest.
    + by destruct (mapM ref_entry refs).
  - by destruct (mapM ref_entry refs).
Qed.

(** X6: the records that make [_format_tweet] raise, with the exception
    raised. A [referenced_tweets] that is [None], a boolean or a number
    cannot be iterated: [TypeError]. In a list, after entries that have a
    kind, an entry that is not a dictionary gives [TypeError] and a
    dictionary without [type] gives [KeyError]. In a list of entries that
    all have a kind, after well-formed ones, an entry without [id] gives
    [KeyError]. *)
Theorem format_tweet_errors (self : DataFrameConverter) (tweet : dict) :
  (forall v, dict_get "referenced_tweets" tweet = Some v ->
     py_iter v = Raise TypeError ->
     _format_tweet self tweet = Raise TypeError) /\
  (forall pre x post,
     dict_get "referenced_tweets" tweet = Some (VList (pre ++ x :: post)) ->
     Forall typed pre ->
     (forall d, x <> VDict d) ->
     _format_tweet self tweet = Raise TypeError) /\
  (forall pre d post,
     dict_get "referenced_tweets" tweet = Some (VList (pre ++ VDict d :: post)) ->
     Forall typed pre ->
     dict_get "type" d = None ->
     _format_tweet self tweet = Raise KeyError) /\
  (forall pre d post,
     dict_get "referenced_tweets" tweet = Some (VList (pre ++ VDict d :: post)) ->
     Forall wf_ref pre -> typed (VDict d) -> Forall typed post ->
     dict_get "id" d = None ->
     _format_tweet self tweet = Raise KeyError).
Proof.
  assert (forall refs e,
            dict_get "referenced_tweets" tweet = Some (VList refs) ->
            of_type "retweeted" refs = Raise e ->
            _format_tweet self tweet = Raise e) as Hraise.
  { intros refs e H E. unfold _format_tweet, deepcopy, dict_pop. cbn [snd].
    fold (stripped tweet). rewrite stripped_get, H.
    cbn [orb String.eqb Ascii.eqb Bool.eqb py_iter bind]. by rewrite E. }
  split; [|split; [|split]].
  - intros v H E. unfold _format_tweet, deepcopy, dict_pop. cbn [snd].
    fold (stripped tweet). rewrite stripped_get, H.
    cbn [orb String.eqb Ascii.eqb Bool.eqb]. by rewrite E.
  - intros pre x post H Hpre Hx. apply (Hraise _ _ H).
    apply of_type_raise; [done|]. destruct x; try done. by destruct (Hx d).
  - intros pre d post H Hpre Hd. apply (Hraise _ _ H).
    apply of_type_raise; [done|]. cbn [subscript]. unfold dict_item. by rewrite Hd.
  - intros pre d post H Hpre Hd Hpost Hid.
    rewrite (format_tweet_typed self tweet _ H); cycle 1.
    { apply Forall_app. split; [|by constructor].
      eapply Forall_impl; [exact Hpre|]. intros v (d' & k & id & -> & ? & ?).
      by exists d', (VStr k). }
    cbn zeta.
    rewrite (mapM_raise _ pre post (VDict d) (map entry_of pre) KeyError);
      [done | by apply mapM_ref_entry_wf |].
    destruct Hd as (d' & ty & [= <-] & Ht).
    unfold ref_entry, subscript, dict_item. by rewrite Ht, Hid.
Qed.

Lemma format_tweet_errors_witness :
  _format_tweet a_converter
    [("id", VStr "1"); ("referenced_tweets", VList [VDict quote_a; VStr "2"])]
  = Raise TypeError /\
  _format_tweet a_converter
    [("id", VStr "1"); ("referenced_tweets", VNone)]
  = Raise TypeError /\
  _format_tweet a_converter
    [("id", VStr "1");
     ("referenced_tweets", VList [VDict quote_a; VDict [("id", VStr "3")]])]
  = Raise KeyError /\
  _format_tweet a_converter
    [("id", VStr "1");
     ("referenced_tweets", VList [VDict quote_a; VDict [("type", VStr "quoted")]])]
  = Raise KeyError.
Proof.
  assert (Forall typed [VDict quote_a]) as Hq
    by (repeat constructor; by eexists _, _).
  assert (Forall wf_ref [VDict quote_a]) as Hw
    by (repeat constructor; by eexists _, _, _).
  split; [|split; [|split]];
    lazymatch goal with
    | |- _format_tweet _ ?t = _ =>
        pose proof (format_tweet_errors a_converter t) as (E1 & E2 & E3 & E4)
    end.
  - apply (E2 [VDict quote_a] (VStr "2") [] eq_refl Hq). discriminate.
  - exact (E1 VNone eq_refl eq_refl).
  - exact (E3 [VDict quote_a] [("id", VStr "3")] [] eq_refl Hq eq_refl).
  - apply (E4 [VDict quote_a] [("type", VStr "quoted")] [] eq_refl Hw);
      [by eexists _, _ | constructor | reflexivity].
Defined.

(** ** More on deduplication *)

(** X7: whenever [_process_tweets] returns, [tweets] has grown by the
    number of records with an [id], [non_tweets] by the number of those
    without, and only records with an [id] have gone on. *)
Theorem process_tweets_counts (tweets : list dict) :
  forall self out self',
    _process_tweets self tweets = Ok (out, self') ->
    Counts.tweets (counts self') =
      Counts.tweets (counts self)
      + Z.of_nat (length (List.filter (dict_in "id") tweets)) /\
    Counts.non_tweets (counts self') =
      Counts.non_tweets (counts self)
      + Z.of_nat (length (List.filter (fun t => negb (dict_in "id" t)) tweets)) /\
    Forall (fun t => dict_in "id" t = true) out.
Proof.
  induction tweets as [|t r IH]; intros self out self' H.
  - injection H as <- <-. cbn. repeat split; [lia | lia | constructor].
  - cbn [_process_tweets] in H. cbn [List.filter].
    destruct (dict_in "id" t) eqn:Ei; cbn [negb].
    + bind_ok' H. bind_ok' H. bind_ok' H. destruct a1 as [out1 s1].
      injection H as <- <-. apply IH in E1 as (H1 & H2 & H3).
      split; [|split].
      * rewrite H1. cbn [length].
        destruct (bool_decide (a0 ∈ dataset_ids (add_count c_tweets 1 self)));
          cbn; lia.
      * rewrite H2.
        destruct (bool_decide (a0 ∈ dataset_ids (add_count c_tweets 1 self)));
          cbn; lia.
      * apply Forall_app. split; [|done].
        destruct (allow_duplicates _); [by repeat constructor|].
        destruct (negb _); by repeat constructor.
    + apply IH in H as (H1 & H2 & H3). split; [|split; [|done]].
      * rewrite H1. cbn. lia.
      * rewrite H2. cbn [length]. cbn. lia.
Qed.

Lemma process_tweets_counts_witness :
  exists out self',
    _process_tweets a_converter
      [tweet_with_id 1 "a"; [("errors", VList [])]; tweet_with_id 1 "c"]
    = Ok (out, self') /\
    Counts.tweets (counts self') = 2 /\ Counts.non_tweets (counts self') = 1.
Proof.
  eexists _, _. split; [vm_compute; reflexivity|].
  match goal with
  | |- Counts.tweets (counts ?s) = _ /\ _ =>
      destruct (process_tweets_counts
                  [tweet_with_id 1 "a"; [("errors", VList [])]; tweet_with_id 1 "c"]
                  a_converter [tweet_with_id 1 "a"] s) as (H1 & H2 & _);
        [vm_compute; reflexivity|]
  end.
  split; [exact H1 | exact H2].
Defined.

(** X8: a sequence of records in two parts goes through
    [_process_tweets] as the first part, then the second with the converter
    that the first left: the identifiers seen in one batch count in the
    next. *)
Theorem process_tweets_app (first second : list dict) :
  forall self,
    _process_tweets self (first ++ second) =
    let* (out1, self1) := _process_tweets self first in
    let* (out2, self2) := _process_tweets self1 second in
    Ok (out1 ++ out2, self2).
Proof.
  induction first as [|t r IH]; intros self.
  - cbn [app _process_tweets bind].
    by destruct (_process_tweets self second) as [[out2 self2]| |].
  - cbn [app _process_tweets]. destruct (dict_in "id" t); [|apply IH].
    destruct (dict_item "id" t) as [tweet_id| |]; [|done..]. cbn [bind].
    destruct (hash_key tweet_id) as [k| |]; [|done..]. cbn [bind].
    rewrite IH.
    destruct (_process_tweets _ r) as [[out1 self1]| |]; [|done..]. cbn [bind].
    destruct (_process_tweets self1 second) as [[out2 self2]| |]; [|done..].
    cbn [bind]. by rewrite app_assoc.
Qed.

(** X9: without [allow_duplicates], records that have gone through once
    give nothing when they go through again with the converter they left:
    every one of them with an [id] is a duplicate, and the identifier set
    stays as it was. *)
Theorem process_tweets_again (self : DataFrameConverter) (tweets out : list dict)
    (self1 : DataFrameConverter) :
  Forall hashable_id tweets ->
  allow_duplicates self = false ->
  _process_tweets self tweets = Ok (out, self1) ->
  exists self2,
    _process_tweets self1 tweets = Ok ([], self2) /\
    dataset_ids self2 = dataset_ids self1 /\
    Counts.duplicates (counts self2) =
      Counts.duplicates (counts self1) + Z.of_nat (length (omap id_key tweets)).
Proof.
  intros Hh Ha H.
  destruct (process_tweets_state _ Hh _ _ _ H) as [Hids _].
  destruct (process_tweets_total _ Hh self1) as (out2 & self2 & H2).
  destruct (process_tweets_state _ Hh _ _ _ H2) as [Hids2 Hdup2].
  assert (allow_duplicates self1 = false) as Ha1.
  { rewrite <- Ha. apply updated_allow_duplicates.
    by apply process_tweets_updated in H. }
  assert (dataset_ids self2 = dataset_ids self1) as Hsame
    by (rewrite Hids2, Hids; set_solver).
  assert (out2 = []) as ->.
  { destruct out2 as [|t out2]; [done|]. exfalso.
    assert (t ∈ t :: out2) as Ht by set_solver.
    apply (process_tweets_first _ Hh _ _ _ Ha1 H2) in Ht
      as (pre & post & k & -> & Hk & Hs & _).
    apply Hs. rewrite Hids. apply elem_of_union_r, elem_of_list_to_set.
    apply list_elem_of_omap. exists t. split; [set_solver | done]. }
  exists self2. split; [done|]. split; [done|].
  rewrite Hsame in Hdup2.
  replace (dataset_ids self1 ∖ dataset_ids self1) with (∅ : gset key) in Hdup2
    by set_solver.
  rewrite size_empty in Hdup2. lia.
Qed.

Lemma process_tweets_again_witness :
  exists out self1 self2,
    _process_tweets a_converter [tweet_with_id 1 "a"; tweet_with_id 2 "b"]
      = Ok (out, self1) /\
    _process_tweets self1 [tweet_with_id 1 "a"; tweet_with_id 2 "b"]
      = Ok ([], self2).
Proof.
  destruct (process_tweets_total [tweet_with_id 1 "a"; tweet_with_id 2 "b"])
    with (self := a_converter) as (out & self1 & H).
  { repeat constructor; intros v Hv; injection Hv as <-; by eexists. }
  destruct (process_tweets_again a_converter
              [tweet_with_id 1 "a"; tweet_with_id 2 "b"] out self1)
    as (self2 & H2 & _); [|reflexivity|exact H|].
  { repeat constructor; intros v Hv; injection Hv as <-; by eexists. }
  exists out, self1, self2. split; [exact H | exact H2].
Defined.

(** X10: an identifier that is a list or a dictionary cannot be looked up
    in the identifier set: after records whose identifiers can, the stage
    raises [TypeError]. *)
Theorem process_tweets_unhashable (pre post : list dict) (t : dict) (v : value) :
  Forall hashable_id pre ->
  dict_get "id" t = Some v ->
  is_list_like v = true ->
  forall self, _process_tweets self (pre ++ t :: post) = Raise TypeError.
Proof.
  intros Hpre Ht Hv. induction Hpre as [|t0 r Ht0 _ IH]; intros self.
  - cbn [app _process_tweets]. rewrite dict_in_get, Ht. unfold dict_item.
    rewrite Ht. cbn [bind]. by destruct v.
  - cbn [app]. destruct (id_key_cases t0 Ht0) as [(k & Hk)|(Hn & _)].
    + rewrite (process_tweets_id _ _ _ _ Hk). by rewrite IH.
    + rewrite (process_tweets_no_id _ _ _ Hn). apply IH.
Qed.

Lemma process_tweets_unhashable_witness :
  _process_tweets a_converter
    [tweet_with_id 1 "a"; [("id", VList [VInt 2])]; tweet_with_id 3 "c"]
  = Raise TypeError.
Proof.
  apply (process_tweets_unhashable [tweet_with_id 1 "a"] [tweet_with_id 3 "c"]
           [("id", VList [VInt 2])] (VList [VInt 2])); [|reflexivity..].
  repeat constructor; intros v Hv; injection Hv as <-; by eexists.
Defined.

(** ** More on the encoding of cells *)

Section Encoding.
Variable json_dumps : value -> string.

(** X11: in every mode [_process_dataframe] keeps the columns, the number
    of rows and the length of each row, and leaves a missing cell, [NaN]
    or [None], as it is: no mode writes a missing value out. *)
Theorem process_dataframe_keeps (self : DataFrameConverter) (df : DataFrame) :
  df_columns (_process_dataframe json_dumps self df) = df_columns df /\
  map length (df_rows (_process_dataframe json_dumps self df))
    = map length (df_rows df) /\
  forall i j c,
    df_rows df !! i ≫= (.!! j) = Some c ->
    c = NaN \/ c = Cell VNone ->
    df_rows (_process_dataframe json_dumps self df) !! i ≫= (.!! j) = Some c.
Proof.
  split; [apply process_dataframe_columns|].
  split; [apply process_dataframe_shape|].
  intros i j c H Hc. unfold _process_dataframe.
  destruct (json_encode_all self), (json_encode_text self),
    (json_encode_lists self); rewrite ?applymap_cell, ?applymap_cell, H;
    by destruct Hc as [-> | ->].
Qed.

(** X12: with [json_encode_all] or [json_encode_lists] on, no cell of the
    result holds a list or a dictionary. *)
Theorem process_dataframe_no_composite
    (self : DataFrameConverter) (df : DataFrame) (i j : nat) (v : value) :
  json_encode_all self = true \/ json_encode_lists self = true ->
  df_rows (_process_dataframe json_dumps self df) !! i ≫= (.!! j) = Some (Cell v) ->
  is_list_like v = false.
Proof.
  intros Hmode. unfold _process_dataframe.
  destruct (json_encode_all self) eqn:Ea.
  - rewrite applymap_cell.
    destruct (df_rows df !! i ≫= (.!! j)) as [[|[]]|]; cbn; by intros [= <-].
  - destruct Hmode as [Hmode|Hmode]; [done|]. rewrite Hmode, applymap_cell.
    match goal with
    | |- context [df_rows ?d !! i ≫= (.!! j)] =>
        destruct (df_rows d !! i ≫= (.!! j)) as [[|w]|]; cbn; try done
    end.
    destruct w; cbn; by intros [= <-].
Qed.

End Encoding.

Lemma process_dataframe_keeps_witness :
  df_rows (_process_dataframe no_dumps a_converter
             {| df_columns := ["id"; "text"];
                df_rows := [[Cell (VStr "1"); Cell VNone]] |})
    !! 0%nat ≫= (.!! 1%nat) = Some (Cell VNone).
Proof.
  apply (proj2 (proj2 (process_dataframe_keeps no_dumps a_converter
    {| df_columns := ["id"; "text"];
       df_rows := [[Cell (VStr "1"); Cell VNone]] |}))
    0%nat 1%nat (Cell VNone) eq_refl).
  by right.
Defined.

Lemma process_dataframe_no_composite_witness :
  is_list_like (VStr (no_dumps (VList [VStr "u"]))) = false.
Proof.
  apply (process_dataframe_no_composite no_dumps a_converter
           {| df_columns := ["entities.urls"];
              df_rows := [[Cell (VList [VStr "u"])]] |} 0%nat 0%nat);
    [by right | reflexivity].
Defined.

Lemma replace_absent (old : ascii) (new s : string) :
  occurs old s = false -> replace old new s = s.
Proof.
  induction s as [|c r IH]; [done|]. cbn [occurs replace].
  intros [E H]%orb_false_iff. by rewrite E, IH.
Qed.

Lemma escape_newlines_idem (x : value) :
  escape_newlines (escape_newlines x) = escape_newlines x.
Proof.
  destruct x as [| | |s| |]; try done. rewrite escape_newlines_chars.
  cbn [escape_newlines]. f_equal.
  assert (forall c, c = CR \/ c = LF ->
            occurs c (concat_map escape_char s) = false) as H
    by (intros c Hc; apply occurs_concat_map; intros x; by apply escape_char_clean).
  rewrite (replace_absent CR) by auto. by rewrite (replace_absent LF) by auto.
Qed.

(** X13: in the default mode with no encoding of lists, a table that has
    been through [_process_dataframe] is left as it is by a second pass,
    and a string with no carriage return and no line feed is left as it is
    by the first. *)
Theorem process_dataframe_idempotent
    (json_dumps : value -> string) (self : DataFrameConverter) (df : DataFrame) :
  json_encode_all self = false -> json_encode_text self = false ->
  json_encode_lists self = false ->
  _process_dataframe json_dumps self (_process_dataframe json_dumps self df)
    = _process_dataframe json_dumps self df /\
  forall i j s,
    df_rows df !! i ≫= (.!! j) = Some (Cell (VStr s)) ->
    occurs CR s = false -> occurs LF s = false ->
    df_rows (_process_dataframe json_dumps self df) !! i ≫= (.!! j)
      = Some (Cell (VStr s)).
Proof.
  intros E1 E2 E3. unfold _process_dataframe. rewrite E1, E2, E3. split.
  - unfold applymap. cbn [df_columns df_rows]. f_equal.
    rewrite <- list_fmap_compose. apply list_fmap_ext. intros i row _.
    cbn [compose]. rewrite <- list_fmap_compose. apply list_fmap_ext.
    intros j c _. cbn [compose]. destruct c as [|v]; [done|].
    destruct v; try done. by rewrite escape_newlines_idem.
  - intros i j s H Hcr Hlf. rewrite applymap_cell, H. cbn.
    by rewrite (replace_absent CR), (replace_absent LF).
Qed.

Lemma process_dataframe_idempotent_witness :
  let self := __init__ (mkArgs "tweets" false false false false true false "" "" None None) in
  let df := {| df_columns := ["text"];
               df_rows := [[Cell (VStr (String LF "a"))]] |} in
  _process_dataframe no_dumps self (_process_dataframe no_dumps self df)
    = _process_dataframe no_dumps self df.
Proof.
  intros self df.
  exact (proj1 (process_dataframe_idempotent no_dumps self df eq_refl eq_refl eq_refl)).
Defined.

(** ** What a batch leaves of the converter *)

Lemma advances_refl (self : DataFrameConverter) : advances self self.
Proof.
  unfold advances, same_settings, counts_advance. repeat split; (done || lia).
Qed.

Lemma advances_trans (a b c : DataFrameConverter) :
  advances a b -> advances b c -> advances a c.
Proof.
  unfold advances, same_settings, counts_advance. intros H1 H2. destruct_and!.
  repeat split; try congruence; try lia. set_solver.
Qed.

Lemma advances_add_count (name : counter) (n : Z) (self : DataFrameConverter) :
  0 <= n -> advances self (add_count name n self).
Proof.
  intros Hn. unfold advances, same_settings, counts_advance.
  destruct self as [? ? ? ? ? ? ? ? ? []].
  destruct name; cbn; repeat split; (done || lia).
Qed.

Lemma advances_with_dataset_ids (self : DataFrameConverter) (ids : gset key) :
  dataset_ids self ⊆ ids -> advances self (with_dataset_ids self ids).
Proof.
  intros Hi. unfold advances, same_settings, counts_advance.
  split; [by repeat split|]. split; [exact Hi|].
  cbn [counts with_dataset_ids]. repeat split; lia.
Qed.

Create HintDb adv.
#[local] Hint Resolve advances_refl advances_with_dataset_ids : adv.
#[local] Hint Extern 1 (advances _ (add_count _ _ _)) =>
  (apply advances_add_count; lia) : adv.

Lemma process_tweets_advances (tweets : list dict) :
  forall self out self',
    _process_tweets self tweets = Ok (out, self') -> advances self self'.
Proof.
  induction tweets as [|t r IH]; intros self out self' H; cbn [_process_tweets] in H.
  - injection H as <- <-. apply advances_refl.
  - destruct (dict_in "id" t).
    + bind_ok' H. bind_ok' H. bind_ok' H. destruct a1 as [out' s'].
      injection H as <- <-. apply IH in E1.
      eapply advances_trans; [|exact E1].
      eapply advances_trans; [|apply advances_with_dataset_ids; set_solver].
      eapply advances_trans; [apply (advances_add_count c_tweets 1); lia|].
      destruct (bool_decide _); auto with adv.
    + apply IH in H. eapply advances_trans; [|exact H]. auto with adv.
Qed.

Lemma inline_loop_advances (tweet : dict) (refs : list value) :
  forall self rows refs' self',
    inline_loop self tweet refs = Ok (rows, refs', self') -> advances self self'.
Proof.
  induction refs as [|x r IH]; intros self rows refs' self' H; cbn [inline_loop] in H.
  - injection H as <- <- <-. apply advances_refl.
  - destruct x; try discriminate H.
    bind_ok' H. destruct a as [y s1].
    bind_ok' H. destruct a as [[rows1 rest1] s2].
    injection H as <- <- <-. apply IH in E0.
    eapply advances_trans; [|exact E0].
    eapply advances_trans; [apply (advances_add_count c_referenced_tweets 1); lia|].
    destruct (3 <? _).
    + bind_ok' E. injection E as <- <-. apply advances_refl.
    + injection E as <- <-. auto with adv.
Qed.

Lemma inline_referenced_tweets_advances (self : DataFrameConverter) (tweet : dict) :
  forall rows tweet' self',
    _inline_referenced_tweets self tweet = Ok (rows, tweet', self') ->
    advances self self'.
Proof.
  intros rows tweet' self' H. unfold _inline_referenced_tweets in H.
  destruct (_ && _).
  - bind_ok' H. bind_ok' H. bind_ok' H. destruct a1 as [[rows1 refs1] s1].
    bind_ok' H. injection H as <- <- <-.
    by apply inline_loop_advances in E1.
  - bind_ok' H. injection H as <- <- <-. apply advances_refl.
Qed.

Lemma tweet_batch_advances (tweets : list dict) :
  forall self batch self',
    tweet_batch self tweets = Ok (batch, self') -> advances self self'.
Proof.
  induction tweets as [|t r IH]; intros self batch self' H; cbn [tweet_batch] in H.
  - injection H as <- <-. apply advances_refl.
  - bind_ok' H. destruct a as [[inlined t'] s1].
    bind_ok' H. destruct a as [rows s2].
    bind_ok' H. destruct a as [more s3].
    injection H as <- <-.
    apply inline_referenced_tweets_advances in E.
    apply process_tweets_advances in E0. apply IH in E1.
    eauto using advances_trans.
Qed.

Lemma reconcile_advances (json_dumps : value -> string)
    (self : DataFrameConverter) (batch : list dict) :
  advances self (reconcile json_dumps self batch).1.2 /\
  df_columns (reconcile json_dumps self batch).1.1 = columns self.
Proof.
  unfold reconcile. destruct (0 <? _); cbn [fst snd].
  - split; [apply advances_add_count; lia | done].
  - split; [apply advances_refl | apply process_dataframe_columns].
Qed.

(** The frame of [process]. *)
Lemma process_advances
    (json_dumps : value -> string) (ensure_flattened : value -> result (list dict))
    (self self' : DataFrameConverter) (objects : list value)
    (table : DataFrame) (messages : list diagnostic) :
  process json_dumps ensure_flattened self objects = Ok (table, self', messages) ->
  df_columns table = columns self /\ advances self self'.
Proof.
  intros H. unfold process in H. bind_ok' H. bind_ok' H. destruct a0 as [batch s1].
  injection H as H. apply tweet_batch_advances in E0.
  destruct (reconcile_advances json_dumps s1 batch) as [Ha Hc].
  rewrite H in Ha, Hc. cbn [fst snd] in Ha, Hc. split.
  - rewrite Hc. by destruct E0 as ((_ & _ & _ & _ & _ & _ & ? & _) & _).
  - by apply advances_trans with s1.
Qed.

(** X14: whenever [process] returns, the table is on the columns of the
    schema, and the converter has the settings and the schema it had, an
    identifier set that contains the one it had, and counters none of
    which has gone down; [lines], [rows], [retweets], [quotes], [replies]
    and the two column counts are as they were. *)
Theorem process_invariants
    (json_dumps : value -> string) (ensure_flattened : value -> result (list dict))
    (self self' : DataFrameConverter) (objects : list value)
    (table : DataFrame) (messages : list diagnostic) :
  process json_dumps ensure_flattened self objects = Ok (table, self', messages) ->
  df_columns table = columns self /\ advances self self'.
Proof.
  intros H. unfold process in H. bind_ok' H. bind_ok' H. destruct a0 as [batch s1].
  injection H as H. apply tweet_batch_advances in E0.
  destruct (reconcile_advances json_dumps s1 batch) as [Ha Hc].
  rewrite H in Ha, Hc. cbn [fst snd] in Ha, Hc. split.
  - rewrite Hc. by destruct E0 as ((_ & _ & _ & _ & _ & _ & ? & _) & _).
  - by apply advances_trans with s1.
Qed.

Lemma process_invariants_witness :
  exists table self' messages,
    process no_dumps flat_already a_converter [odd_tweet 1; plain_tweet 2]
      = Ok (table, self', messages) /\
    df_columns table = columns a_converter /\ advances a_converter self'.
Proof.
  destruct (process no_dumps flat_already a_converter [odd_tweet 1; plain_tweet 2])
    as [[[table self'] messages]| |] eqn:E; [|by vm_compute in E..].
  exists table, self', messages. split; [reflexivity|].
  exact (process_invariants no_dumps flat_already a_converter self' _ table messages E).
Defined.

Lemma tweet_batch_non_tweets (tweets : list dict) :
  Forall non_tweet tweets ->
  forall self, exists self',
    tweet_batch self tweets = Ok ([], self') /\
    dataset_ids self' = dataset_ids self /\
    columns self' = columns self /\
    Counts.non_tweets (counts self') =
      Counts.non_tweets (counts self) + Z.of_nat (length tweets) /\
    Counts.parse_errors (counts self') = Counts.parse_errors (counts self) /\
    Counts.tweets (counts self') = Counts.tweets (counts self).
Proof.
  induction 1 as [|t r [Hid Hrefs] _ IH]; intros self.
  - exists self. cbn. repeat split; lia.
  - cbn [tweet_batch]. unfold _inline_referenced_tweets.
    rewrite dict_in_get, Hrefs. cbn [andb].
    rewrite (format_tweet_no_refs self t Hrefs). cbn [bind _process_tweets].
    assert (dict_in "id" (finish (dict_set "referenced_tweets" (VDict []) (stripped t)))
            = false) as ->.
    { rewrite dict_in_get. lookup. by rewrite stripped_get, Hid. }
    cbn [bind].
    destruct (IH (add_count c_non_tweets 1 self))
      as (self' & -> & H1 & H2 & H3 & H4 & H5).
    exists self'. cbn [bind length]. split; [done|].
    rewrite H1, H2, H3, H4, H5. cbn. repeat split; lia.
Qed.

(** X15: objects that flatten to records without [id] and without
    references, such as the error messages of a stream, never make a batch
    fail the schema, whatever keys they have: they are counted as
    [non_tweets], the table has the columns of the schema and no row, no
    diagnostic is issued and [parse_errors] stays. *)
Theorem non_tweets_never_rejected
    (json_dumps : value -> string) (ensure_flattened : value -> result (list dict))
    (self : DataFrameConverter) (objects : list value) (tweets : list dict) :
  _generate_tweets ensure_flattened objects = Ok tweets ->
  Forall non_tweet tweets ->
  exists table self',
    process json_dumps ensure_flattened self objects = Ok (table, self', []) /\
    df_columns table = columns self /\ df_rows table = [] /\
    dataset_ids self' = dataset_ids self /\
    Counts.non_tweets (counts self') =
      Counts.non_tweets (counts self) + Z.of_nat (length tweets) /\
    Counts.parse_errors (counts self') = Counts.parse_errors (counts self) /\
    Counts.tweets (counts self') = Counts.tweets (counts self).
Proof.
  intros Hg Hn.
  destruct (tweet_batch_non_tweets tweets Hn self)
    as (self' & Hb & H1 & H2 & H3 & H4 & H5).
  unfold process. rewrite Hg. cbn [bind]. rewrite Hb. cbn [bind].
  rewrite reconcile_accepted by (intros c Hc; by apply elem_of_nil in Hc).
  eexists _, self'. split; [reflexivity|].
  rewrite process_dataframe_columns. cbn [df_columns map].
  split; [done|]. split; [|done].
  pose proof (process_dataframe_shape json_dumps self'
                {| df_columns := columns self'; df_rows := [] |}) as Hs.
  cbn [df_rows map] in Hs. by apply map_eq_nil in Hs.
Qed.

Lemma non_tweets_never_rejected_witness :
  exists table self',
    process no_dumps flat_already a_converter
      [VDict [("errors", VList [VStr "operational disconnect"])]]
    = Ok (table, self', []) /\
    df_rows table = [] /\
    Counts.parse_errors (counts self') = Counts.parse_errors (counts a_converter).
Proof.
  destruct (non_tweets_never_rejected no_dumps flat_already a_converter
              [VDict [("errors", VList [VStr "operational disconnect"])]]
              [[("errors", VList [VStr "operational disconnect"])]])
    as (table & self' & H & _ & Hr & _ & _ & Hp & _);
    [reflexivity | by repeat constructor |].
  exists table, self'. split; [exact H|]. split; [exact Hr | exact Hp].
Defined.

Lemma process_tweets_ids (tweets : list dict) :
  forall self out self',
    _process_tweets self tweets = Ok (out, self') ->
    forall t, t ∈ out -> exists k, id_key t = Some k /\ k ∈ dataset_ids self'.
Proof.
  induction tweets as [|t r IH]; intros self out self' H t' Ht';
    cbn [_process_tweets] in H.
  - injection H as <- <-. by apply elem_of_nil in Ht'.
  - destruct (dict_in "id" t) eqn:Ei.
    + bind_ok' H. bind_ok' H. bind_ok' H. destruct a1 as [out1 s1].
      injection H as <- <-. apply elem_of_app in Ht' as [Ht'|Ht'];
        [|by apply (IH _ _ _ E1)].
      assert (t' = t) as ->.
      { destruct (allow_duplicates _); [by apply list_elem_of_singleton in Ht'|].
        destruct (negb _); [by apply list_elem_of_singleton in Ht'|].
        by apply elem_of_nil in Ht'. }
      exists a0. split.
      * unfold id_key. unfold dict_item in E.
        destruct (dict_get "id" t); [|discriminate E]. injection E as ->.
        by rewrite E0.
      * apply process_tweets_advances in E1 as (_ & Hsub & _).
        apply Hsub. cbn. set_solver.
    + by apply (IH _ _ _ H).
Qed.

Lemma tweet_batch_ids (tweets : list dict) :
  forall self batch self',
    tweet_batch self tweets = Ok (batch, self') ->
    forall t, t ∈ batch -> exists k, id_key t = Some k /\ k ∈ dataset_ids self'.
Proof.
  induction tweets as [|t r IH]; intros self batch self' H t' Ht';
    cbn [tweet_batch] in H.
  - injection H as <- <-. by apply elem_of_nil in Ht'.
  - bind_ok' H. destruct a as [[inlined tw] s1].
    bind_ok' H. destruct a as [rows s2].
    bind_ok' H. destruct a as [more s3]. injection H as <- <-.
    apply elem_of_app in Ht' as [Ht'|Ht']; [|by apply (IH _ _ _ E1)].
    destruct (process_tweets_ids _ _ _ _ E0 t' Ht') as (k & Hk & Hin).
    exists k. split; [done|].
    apply tweet_batch_advances in E1 as (_ & Hsub & _). by apply Hsub.
Qed.

(** X16: the identifiers of the rows of a batch are in the identifier set
    when [process] returns, also when the batch has failed the schema and
    none of its rows is in the table: the records of a rejected batch are
    duplicates from then on. *)
Theorem batch_identifiers_remembered
    (json_dumps : value -> string) (ensure_flattened : value -> result (list dict))
    (self self1 : DataFrameConverter) (objects : list value)
    (tweets batch : list dict) :
  _generate_tweets ensure_flattened objects = Ok tweets ->
  tweet_batch self tweets = Ok (batch, self1) ->
  exists table self' messages,
    process json_dumps ensure_flattened self objects = Ok (table, self', messages) /\
    dataset_ids self' = dataset_ids self1 /\
    forall t, t ∈ batch ->
      exists k, id_key t = Some k /\ k ∈ dataset_ids self'.
Proof.
  intros Hg Hb. unfold process. rewrite Hg. cbn [bind]. rewrite Hb. cbn [bind].
  destruct (reconcile json_dumps self1 batch) as [[table self'] messages] eqn:R.
  exists table, self', messages. split; [done|].
  assert (dataset_ids self' = dataset_ids self1) as Hsame.
  { unfold reconcile in R. destruct (0 <? _); by injection R as <- <- <-. }
  split; [done|]. rewrite Hsame. by apply (tweet_batch_ids _ _ _ _ Hb).
Qed.

Lemma batch_identifiers_remembered_witness :
  exists tweets batch self1 table self' messages,
    _generate_tweets flat_already [odd_tweet 1] = Ok tweets /\
    tweet_batch a_converter tweets = Ok (batch, self1) /\
    process no_dumps flat_already a_converter [odd_tweet 1]
      = Ok (table, self', messages) /\
    dataset_ids self' = dataset_ids self1.
Proof.
  eexists _, _, _.
  edestruct (batch_identifiers_remembered no_dumps flat_already a_converter)
    with (objects := [odd_tweet 1]) as (table & self' & messages & H1 & H2 & _);
    [vm_compute; reflexivity | vm_compute; reflexivity |].
  exists table, self', messages.
  split; [vm_compute; reflexivity|]. split; [vm_compute; reflexivity|].
  split; [exact H1 | exact H2].
Defined.

(** ** Reading the lines *)

Lemma add_lines_step (n e : Z) (self : DataFrameConverter) :
  add_count c_parse_errors e (add_lines n (add_lines 1 self)) =
  add_count c_parse_errors e (add_lines (n + 1) self).
Proof.
  destruct self as [? ? ? ? ? ? ? ? ? []]. unfold add_count, add_lines, with_counts.
  cbn. f_equal. f_equal; lia.
Qed.

Lemma add_lines_error_step (n e : Z) (self : DataFrameConverter) :
  add_count c_parse_errors e (add_lines n (add_count c_parse_errors 1 (add_lines 1 self))) =
  add_count c_parse_errors (e + 1) (add_lines (n + 1) self).
Proof.
  destruct self as [? ? ? ? ? ? ? ? ? []]. unfold add_count, add_lines, with_counts.
  cbn. f_equal. f_equal; lia.
Qed.

Lemma add_nothing (self : DataFrameConverter) :
  add_count c_parse_errors 0 (add_lines 0 self) = self.
Proof.
  destruct self as [? ? ? ? ? ? ? ? ? []]. unfold add_count, add_lines, with_counts.
  cbn. f_equal. f_equal; lia.
Qed.

(** [_read_lines] on the lines of a file. *)
Lemma read_lines_spec (json_loads : string -> option value) (lines : list string) :
  Forall (fun line => line <> "") lines ->
  forall conv,
    let nonblank := List.filter (fun line => negb (is_blank line)) lines in
    _read_lines json_loads conv lines =
    (omap json_loads nonblank,
     add_count c_parse_errors
       (Z.of_nat (length (List.filter (unparsable json_loads) nonblank)))
       (add_lines (Z.of_nat (length lines)) conv)).
Proof.
  induction 1 as [|line rest Hl _ IH]; intros conv.
  - cbn. by rewrite add_nothing.
  - cbn zeta in *. cbn [_read_lines List.filter length].
    apply String.eqb_neq in Hl. rewrite Hl.
    destruct (is_blank line); cbn [negb].
    + rewrite IH. cbn [app]. f_equal. rewrite Nat2Z.inj_succ, <- Z.add_1_r.
      apply add_lines_step.
    + pose proof (eq_refl (unparsable json_loads line)) as Hu.
      unfold unparsable at 2 in Hu.
      cbn [omap list_omap List.filter]. rewrite Hu.
      destruct (json_loads line) as [o|]; rewrite IH; cbn [app length];
        f_equal; rewrite ?Nat2Z.inj_succ, <- ?Z.add_1_r;
        [apply add_lines_step | apply add_lines_error_step].
Qed.

(** X17: on the lines of a file, [_read_lines] yields the objects that
    [json.loads] gives for the lines that are not blank, in order; it adds
    one to [lines] for every line, blank or not, and one to [parse_errors]
    for every line that is not blank and that [json.loads] refuses; it
    changes nothing else of the converter. *)
Theorem read_lines_counts
    (json_loads : string -> option value) (conv : DataFrameConverter)
    (lines : list string) :
  Forall (fun line => line <> "") lines ->
  let nonblank := List.filter (fun line => negb (is_blank line)) lines in
  let refused := List.filter (unparsable json_loads) nonblank in
  exists conv',
    _read_lines json_loads conv lines = (omap json_loads nonblank, conv') /\
    conv' = add_count c_parse_errors (Z.of_nat (length refused))
              (add_lines (Z.of_nat (length lines)) conv) /\
    Counts.lines (counts conv') = Counts.lines (counts conv) + Z.of_nat (length lines) /\
    Counts.parse_errors (counts conv') =
      Counts.parse_errors (counts conv) + Z.of_nat (length refused) /\
    (length (omap json_loads nonblank) + length refused = length nonblank)%nat.
Proof.
  intros Hl nonblank refused. eexists. split; [by apply read_lines_spec|].
  split; [done|]. split; [done|]. split; [done|].
  unfold refused. clear. induction nonblank as [|l r IH]; [done|].
  pose proof (eq_refl (unparsable json_loads l)) as Hu.
  unfold unparsable at 2 in Hu.
  cbn [omap list_omap List.filter]. rewrite Hu.
  destruct (json_loads l); cbn [length]; fold (omap json_loads r); lia.
Qed.

(** ** Batches *)

Lemma ichunked_from_concat {A : Type} (m : nat) (l : list A) :
  forall room cur, concat (ichunked_from m room cur l) = rev cur ++ l.
Proof.
  induction l as [|x r IH]; intros room cur.
  - destruct cur; cbn [ichunked_from concat]; by rewrite ?app_nil_r.
  - destruct room as [|room]; cbn [ichunked_from concat].
    + rewrite IH. cbn [rev app]. by rewrite <- app_assoc.
    + rewrite IH. cbn [rev]. by rewrite <- app_assoc.
Qed.

Lemma ichunked_from_sizes {A : Type} (m : nat) (l : list A) :
  forall room cur,
    (length cur + room = m)%nat ->
    Forall (fun b => b <> [] /\ (length b <= S m)%nat) (ichunked_from m room cur l).
Proof.
  induction l as [|x r IH]; intros room cur Hm.
  - destruct cur as [|c cur]; cbn [ichunked_from]; [constructor|].
    repeat constructor.
    + intros E. apply (f_equal length) in E. rewrite length_rev in E. discriminate E.
    + rewrite length_rev. lia.
  - destruct room as [|room]; cbn [ichunked_from].
    + constructor; [|apply IH; cbn; lia]. split.
      * intros E. apply (f_equal length) in E. rewrite length_rev in E. discriminate E.
      * rewrite length_rev. cbn [length]. lia.
    + apply IH. cbn [length]. lia.
Qed.

Lemma ichunked_from_full {A : Type} (m : nat) (l : list A) :
  forall room cur i b,
    (length cur + room = m)%nat ->
    ichunked_from m room cur l !! i = Some b ->
    (S i < length (ichunked_from m room cur l))%nat ->
    length b = S m.
Proof.
  induction l as [|x r IH]; intros room cur i b Hm Hb Hi.
  - destruct cur; cbn [ichunked_from length] in Hi; lia.
  - destruct room as [|room]; cbn [ichunked_from] in Hb, Hi.
    + destruct i as [|i].
      * injection Hb as <-. rewrite length_app, length_rev. cbn [length]. lia.
      * cbn [length] in Hi. apply (IH m [] i b); [cbn; lia|exact Hb|lia].
    + apply (IH room (x :: cur) i b); [cbn [length]; lia|exact Hb|exact Hi].
Qed.

Lemma ichunked_from_head {A : Type} (m : nat) (l : list A) :
  forall room cur,
    rev cur ++ l <> [] ->
    ichunked_from m room cur l =
    (rev cur ++ take (S room) l) :: ichunked_from m m [] (drop (S room) l).
Proof.
  induction l as [|x r IH]; intros room cur Hne.
  - destruct cur as [|c cur]; [by rewrite app_nil_r in Hne|].
    cbn [ichunked_from take drop]. by rewrite app_nil_r.
  - destruct room as [|room]; cbn [ichunked_from].
    + cbn [take drop rev]. by rewrite take_0, drop_0.
    + rewrite IH by (cbn [rev]; intros E; by destruct (rev cur)).
      cbn [rev take drop]. by rewrite <- app_assoc.
Qed.

(** What [ichunked] gives: the items in order, in batches of [n]; the
    first batch is made of the first [n] items. *)
Lemma ichunked_spec (objects : list value) (n : nat) (batches : list (list value)) :
  ichunked objects n = Ok batches ->
  concat batches = objects /\ batches_of n batches /\
  (batches = [] <-> objects = []) /\
  (objects <> [] -> exists later, batches = take n objects :: later).
Proof.
  destruct n as [|m]; [discriminate|]. cbn [ichunked]. intros [= <-].
  split; [apply ichunked_from_concat|]. split.
  - split; [by apply ichunked_from_sizes|].
    intros i b. by apply ichunked_from_full.
  - split.
    + destruct objects as [|x r]; [done|]. split; [|done].
      by rewrite (ichunked_from_head m (x :: r) m []).
    + intros Hne. eexists. by apply (ichunked_from_head m objects m []).
Qed.

(** ** Writing *)

Lemma forallb_false {A : Type} (f : A -> bool) (l : list A) :
  forallb f l = false -> exists x, x ∈ l /\ f x = false.
Proof.
  induction l as [|x r IH]; [discriminate|]. cbn [forallb].
  destruct (f x) eqn:E; cbn [andb].
  - intros H. destruct (IH H) as (y & Hy & Hf). exists y. split; [by right|done].
  - intros _. exists x. split; [by left|done].
Qed.

Lemma to_csv_spec (_df : DataFrame) (mode : string) (cols : list string)
    (header : bool) :
  match to_csv _df mode cols header with
  | Ok w =>
      w_mode w = mode /\ w_header w = header /\ on_columns cols w /\
      length (w_rows w) = df_len _df /\
      Forall (fun c => c ∈ df_columns _df) cols
  | Raise e => e = KeyError /\ exists c, c ∈ cols /\ c ∉ df_columns _df
  | Unmodelled => False
  end.
Proof.
  unfold to_csv. destruct (forallb _ cols) eqn:E.
  - rewrite forallb_forall in E. cbn. repeat split.
    + apply Forall_forall. intros row Hrow. apply list_elem_of_In, in_map_iff in Hrow.
      destruct Hrow as (r & <- & _). by rewrite length_map.
    + unfold df_len. by rewrite length_map.
    + apply Forall_forall. intros c Hc. apply py_in_spec, E. by apply list_elem_of_In.
  - split; [done|]. apply forallb_false in E. destruct E as (c & Hc & Hn).
    exists c. split; [done|].
    intros Hin. apply py_in_spec in Hin. congruence.
Qed.

Lemma add_rows_0 (self : DataFrameConverter) : add_rows 0 self = self.
Proof.
  destruct self as [? ? ? ? ? ? ? ? ? []]. unfold add_rows, with_counts.
  cbn. f_equal. f_equal; lia.
Qed.

Lemma add_rows_add_rows (n m : Z) (self : DataFrameConverter) :
  add_rows n (add_rows m self) = add_rows (m + n) self.
Proof.
  destruct self as [? ? ? ? ? ? ? ? ? []]. unfold add_rows, with_counts.
  cbn. f_equal. f_equal; lia.
Qed.

Lemma advances_add_rows (n : Z) (self self' : DataFrameConverter) :
  advances self self' -> advances (add_rows n self) (add_rows n self').
Proof.
  intros (Hs & Hi & Hc). destruct self as [? ? ? ? ? ? ? ? ? []].
  destruct self' as [? ? ? ? ? ? ? ? ? []].
  unfold advances, same_settings, counts_advance in *. cbn in *.
  destruct_and!. repeat split; try done; lia.
Qed.

Lemma writes_in_order_later (ws : list write) :
  writes_in_order false ws <-> Forall (write_kind false) ws.
Proof.
  destruct ws as [|w r]; cbn [writes_in_order]; [by split|].
  by rewrite Forall_cons.
Qed.

Lemma rows_written_cons (w : write) (ws : list write) :
  rows_written (w :: ws) = Z.of_nat (length (w_rows w)) + rows_written ws.
Proof. unfold rows_written. cbn [sum_list_with]. lia. Qed.

Lemma write_output_ok (self self' : CSVConverter) (_df : DataFrame) (first_batch : bool) :
  _write_output self _df first_batch = Ok self' ->
  exists w,
    self' = {| infile := infile self;
               outfile := outfile self ++ [w];
               stderr := stderr self;
               converter := add_rows (Z.of_nat (df_len _df)) (converter self);
               batch_size := batch_size self |} /\
    write_kind first_batch w /\
    on_columns (output_columns (converter self)) w /\
    length (w_rows w) = df_len _df /\
    Forall (fun c => c ∈ df_columns _df) (output_columns (converter self)).
Proof.
  unfold _write_output. cbn zeta.
  change (output_columns (add_rows _ (converter self)))
    with (output_columns (converter self)).
  pose proof (to_csv_spec _df (if first_batch then "w" else "a+")
                (output_columns (converter self)) first_batch) as Hw.
  destruct (to_csv _ _ _ _) as [w| |]; cbn [bind]; [|discriminate..].
  intros [= <-]. exists w. destruct Hw as (? & ? & ? & ? & ?).
  split; [done|]. split; [by split|]. by split.
Qed.

Lemma write_output_missing (self : CSVConverter) (_df : DataFrame) (first_batch : bool)
    (c : string) :
  c ∈ output_columns (converter self) -> c ∉ df_columns _df ->
  _write_output self _df first_batch = Raise KeyError.
Proof.
  intros Hc Hn. unfold _write_output. cbn zeta.
  change (output_columns (add_rows _ (converter self)))
    with (output_columns (converter self)).
  pose proof (to_csv_spec _df (if first_batch then "w" else "a+")
                (output_columns (converter self)) first_batch) as Hw.
  destruct (to_csv _ _ _ _) as [w| |]; cbn [bind].
  - destruct Hw as (_ & _ & _ & _ & Hall). rewrite Forall_forall in Hall.
    destruct Hn. by apply Hall.
  - by destruct Hw as [-> _].
  - destruct Hw.
Qed.

(** The loop over the batches, when it comes to its end. *)
Lemma write_batches_spec
    (json_dumps : value -> string) (ensure_flattened : value -> result (list dict))
    (batches : list (list value)) :
  forall (self self' : CSVConverter) (first_batch : bool),
    write_batches json_dumps ensure_flattened self first_batch batches = Ok self' ->
    exists ws messages,
      outfile self' = outfile self ++ ws /\
      stderr self' = stderr self ++ messages /\
      infile self' = infile self /\
      batch_size self' = batch_size self /\
      length ws = length batches /\
      writes_in_order first_batch ws /\
      Forall (on_columns (output_columns (converter self))) ws /\
      advances (add_rows (rows_written ws) (converter self)) (converter self') /\
      (batches <> [] ->
       Forall (fun c => c ∈ columns (converter self)) (output_columns (converter self))).
Proof.
  induction batches as [|batch rest IH]; intros self self' first_batch H.
  - injection H as <-. exists [], []. rewrite !app_nil_r.
    split_and!; try done.
    change (rows_written []) with 0. rewrite add_rows_0. apply advances_refl.
  - cbn [write_batches] in H. bind_ok' H. destruct a as [[_df conv] messages].
    bind_ok' H. apply process_advances in E as [Hcols Hadv].
    apply write_output_ok in E0 as (w & -> & Hkind & Hon & Hlen & Hall).
    cbn [converter] in Hon, Hall.
    apply IH in H as (ws & more & Ho & He & Hi & Hb & Hl & Hord & Hcol & Hfin & _).
    cbn [outfile stderr infile batch_size converter] in *.
    assert (output_columns conv = output_columns (converter self)) as Hout
      by (by destruct Hadv as ((_ & _ & _ & _ & _ & _ & _ & ?) & _)).
    change (output_columns (add_rows _ conv)) with (output_columns conv) in Hcol.
    rewrite Hout in Hon, Hall, Hcol.
    exists (w :: ws), (messages ++ more).
    rewrite Ho, He, <- !app_assoc. split_and!; try done.
    + cbn [length]. by rewrite Hl.
    + split; [done|]. by apply writes_in_order_later.
    + by constructor.
    + rewrite rows_written_cons, Hlen, <- add_rows_add_rows.
      eapply advances_trans; [|exact Hfin].
      by do 2 apply advances_add_rows.
    + intros _. by rewrite <- Hcols.
Qed.

(** ** The pipeline *)

Lemma read_lines_after (json_loads : string -> option value) (lines : list string)
    (conv : DataFrameConverter) :
  file_lines lines ->
  _read_lines json_loads conv lines =
  (parsed json_loads lines, after_reading json_loads lines conv).
Proof. intros H. by rewrite read_lines_spec. Qed.

(** [CSVConverter.process], when it comes to its end. *)
Lemma converter_process_spec
    (json_loads : string -> option value) (json_dumps : value -> string)
    (ensure_flattened : value -> result (list dict)) (self self' : CSVConverter) :
  file_lines (infile self) ->
  CSVConverter_process json_loads json_dumps ensure_flattened self = Ok self' ->
  exists batches ws messages,
    ichunked (parsed json_loads (infile self)) (batch_size self) = Ok batches /\
    outfile self' = outfile self ++ ws /\
    stderr self' = stderr self ++ messages /\
    length ws = length batches /\
    writes_in_order true ws /\
    Forall (on_columns (output_columns (converter self))) ws /\
    advances
      (add_rows (rows_written ws)
         (after_reading json_loads (infile self) (converter self)))
      (converter self') /\
    (batches <> [] ->
     Forall (fun c => c ∈ columns (converter self)) (output_columns (converter self))).
Proof.
  intros Hl H. unfold CSVConverter_process in H. rewrite read_lines_after in H by done.
  bind_ok' H. rename a into batches.
  apply write_batches_spec in H
    as (ws & messages & Ho & He & _ & _ & Hn & Hord & Hcol & Hadv & Hin).
  by exists batches, ws, messages.
Qed.

(** X18: when [CSVConverter.process] comes to its end on the lines of a
    file, the objects read have been cut, in order, into batches of
    [batch_size] (none empty, all full but the last), and the output file
    has got one write per batch: the first in mode [w] with the header,
    every later one in mode [a+] without it, each on the converter's
    output columns with a cell per column in every row. Nothing at all is
    written, not even the header, exactly when no line gave an object. *)
Theorem pipeline_writes
    (json_loads : string -> option value) (json_dumps : value -> string)
    (ensure_flattened : value -> result (list dict)) (self self' : CSVConverter) :
  file_lines (infile self) ->
  CSVConverter_process json_loads json_dumps ensure_flattened self = Ok self' ->
  exists batches ws,
    concat batches = parsed json_loads (infile self) /\
    batches_of (batch_size self) batches /\
    outfile self' = outfile self ++ ws /\
    length ws = length batches /\
    writes_in_order true ws /\
    Forall (on_columns (output_columns (converter self))) ws /\
    (ws = [] <-> parsed json_loads (infile self) = []).
Proof.
  intros Hl H.
  destruct (converter_process_spec _ _ _ _ _ Hl H)
    as (batches & ws & messages & Hb & Ho & _ & Hn & Hord & Hcol & _ & _).
  apply ichunked_spec in Hb as (Hc & Hof & He & _).
  exists batches, ws. split_and!; try done. split.
  - intros ->. apply He. by destruct batches.
  - intros E. apply He in E. subst batches. by destruct ws.
Qed.

(** The counters at the end of [CSVConverter.process]. *)
Lemma converter_process_counters
    (json_loads : string -> option value) (json_dumps : value -> string)
    (ensure_flattened : value -> result (list dict)) (self self' : CSVConverter) :
  file_lines (infile self) ->
  CSVConverter_process json_loads json_dumps ensure_flattened self = Ok self' ->
  let c := counts (converter self) in
  let c' := counts (converter self') in
  exists ws,
    outfile self' = outfile self ++ ws /\
    same_settings (converter self) (converter self') /\
    Counts.rows c' = Counts.rows c + rows_written ws /\
    Counts.lines c' = Counts.lines c + Z.of_nat (length (infile self)) /\
    Counts.parse_errors c + Z.of_nat (length (refused json_loads (infile self)))
      <= Counts.parse_errors c' /\
    Counts.input_columns c' = Counts.input_columns c /\
    Counts.output_columns c' = Counts.output_columns c /\
    Counts.tweets c <= Counts.tweets c' /\
    Counts.non_tweets c <= Counts.non_tweets c' /\
    Counts.duplicates c <= Counts.duplicates c'.
Proof.
  intros Hl H c c'.
  destruct (converter_process_spec _ _ _ _ _ Hl H)
    as (batches & ws & messages & _ & Ho & _ & _ & _ & _ & Hadv & _).
  exists ws. split; [done|]. destruct Hadv as (Hs & _ & Hc).
  unfold counts_advance in Hc. subst c c'.
  destruct (converter self) as [? ? ? ? ? ? ? ? ? []].
  destruct (converter self') as [? ? ? ? ? ? ? ? ? []].
  unfold same_settings in *. cbn in Hs, Hc |- *. destruct_and!.
  split_and!; try done; lia.
Qed.

(** X19: when [CSVConverter.process] comes to its end on the lines of a
    file, the converter has the settings and the schema it had; [rows] has
    grown by the number of data rows written, [lines] by the number of
    lines of the file, [parse_errors] by the number of refused lines at
    least; the two column counts are as they were and none of [tweets],
    [non_tweets] and [duplicates] has gone down. *)
Theorem pipeline_counters
    (json_loads : string -> option value) (json_dumps : value -> string)
    (ensure_flattened : value -> result (list dict)) (self self' : CSVConverter) :
  file_lines (infile self) ->
  CSVConverter_process json_loads json_dumps ensure_flattened self = Ok self' ->
  let c := counts (converter self) in
  let c' := counts (converter self') in
  exists ws,
    outfile self' = outfile self ++ ws /\
    same_settings (converter self) (converter self') /\
    Counts.rows c' = Counts.rows c + rows_written ws /\
    Counts.lines c' = Counts.lines c + Z.of_nat (length (infile self)) /\
    Counts.parse_errors c + Z.of_nat (length (refused json_loads (infile self)))
      <= Counts.parse_errors c' /\
    Counts.input_columns c' = Counts.input_columns c /\
    Counts.output_columns c' = Counts.output_columns c /\
    Counts.tweets c <= Counts.tweets c' /\
    Counts.non_tweets c <= Counts.non_tweets c' /\
    Counts.duplicates c <= Counts.duplicates c'.
Proof.
  intros Hl H c c'.
  destruct (converter_process_spec _ _ _ _ _ Hl H)
    as (batches & ws & messages & _ & Ho & _ & _ & _ & _ & Hadv & _).
  exists ws. split; [done|]. destruct Hadv as (Hs & _ & Hc).
  unfold counts_advance in Hc. subst c c'.
  destruct (converter self) as [? ? ? ? ? ? ? ? ? []].
  destruct (converter self') as [? ? ? ? ? ? ? ? ? []].
  unfold same_settings in *. cbn in Hs, Hc |- *. destruct_and!.
  split_and!; try done; lia.
Qed.

Lemma read_lines_counts_witness :
  exists conv',
    _read_lines line_record a_converter some_lines =
      ([plain_tweet 4; plain_tweet 5; plain_tweet 6], conv') /\
    Counts.lines (counts conv') = 6 /\ Counts.parse_errors (counts conv') = 1.
Proof.
  destruct (read_lines_counts line_record a_converter some_lines)
    as (conv' & H & _ & Hlines & Herrors & _); [by repeat constructor|].
  exists conv'. split; [exact H|]. split; [exact Hlines | exact Herrors].
Defined.

Lemma pipeline_writes_witness :
  exists self' batches ws,
    CSVConverter_process line_record no_dumps flat_already a_writer = Ok self' /\
    outfile self' = ws /\ length ws = length batches /\
    concat batches = [plain_tweet 4; plain_tweet 5; plain_tweet 6].
Proof.
  destruct (CSVConverter_process line_record no_dumps flat_already a_writer)
    as [self'| |] eqn:E; [|by vm_compute in E..].
  destruct (pipeline_writes line_record no_dumps flat_already a_writer self')
    as (batches & ws & Hc & _ & Ho & Hn & _); [by repeat constructor | exact E |].
  exists self', batches, ws. split; [reflexivity|].
  split; [exact Ho|]. split; [exact Hn | exact Hc].
Defined.

Lemma pipeline_counters_witness :
  exists self' ws,
    CSVConverter_process line_record no_dumps flat_already a_writer = Ok self' /\
    outfile self' = ws /\
    Counts.rows (counts (converter self')) = rows_written ws /\
    Counts.lines (counts (converter self')) = 6.
Proof.
  destruct (CSVConverter_process line_record no_dumps flat_already a_writer)
    as [self'| |] eqn:E; [|by vm_compute in E..].
  destruct (pipeline_counters line_record no_dumps flat_already a_writer self')
    as (ws & Ho & _ & Hr & Hl & _); [by repeat constructor | exact E |].
  exists self', ws. split; [reflexivity|].
  split; [exact Ho|]. split; [exact Hr | exact Hl].
Defined.

(** X20: an output column that the schema does not have stops the
    conversion as soon as there is something to write: when the file gives
    at least one object, [CSVConverter.process] never comes to its end,
    and it raises [KeyError] at the first write if the first batch has been
    converted. *)
Theorem missing_output_column
    (json_loads : string -> option value) (json_dumps : value -> string)
    (ensure_flattened : value -> result (list dict)) (self : CSVConverter)
    (c : string) :
  file_lines (infile self) ->
  batch_size self <> 0%nat ->
  c ∈ output_columns (converter self) ->
  c ∉ columns (converter self) ->
  parsed json_loads (infile self) <> [] ->
  (forall self',
     CSVConverter_process json_loads json_dumps ensure_flattened self <> Ok self') /\
  (forall table conv messages,
     process json_dumps ensure_flattened
       (after_reading json_loads (infile self) (converter self))
       (take (batch_size self) (parsed json_loads (infile self)))
     = Ok (table, conv, messages) ->
     CSVConverter_process json_loads json_dumps ensure_flattened self = Raise KeyError).
Proof.
  intros Hl Hn Hc Hout Hne. split.
  - intros self' H.
    destruct (converter_process_spec _ _ _ _ _ Hl H)
      as (batches & ws & messages & Hb & _ & _ & _ & _ & _ & _ & Hin).
    apply ichunked_spec in Hb as (_ & _ & He & _).
    assert (batches <> []) as Hbs by (intros E; by apply He in E).
    apply Hin in Hbs. rewrite Forall_forall in Hbs. by apply Hout, Hbs.
  - intros table conv messages H. unfold CSVConverter_process.
    rewrite read_lines_after by done.
    destruct (batch_size self) as [|m]; [done|]. cbn [ichunked bind].
    rewrite ichunked_from_head by done.
    cbn [rev app write_batches with_converter converter].
    rewrite H. cbn [bind].
    apply process_advances in H as (Hcols & (_ & _ & _ & _ & _ & _ & _ & Ho) & _).
    rewrite (write_output_missing _ _ _ c); [done| |].
    + cbn [converter]. by rewrite Ho.
    + by rewrite Hcols.
Qed.

Lemma missing_output_column_witness :
  CSVConverter_process line_record no_dumps flat_already a_writer_astray
  = Raise KeyError.
Proof.
  destruct (missing_output_column line_record no_dumps flat_already
              a_writer_astray "nope") as [_ H].
  - by repeat constructor.
  - discriminate.
  - vm_compute. by right; left.
  - intros Hin. apply py_in_spec in Hin. by vm_compute in Hin.
  - discriminate.
  - destruct (process no_dumps flat_already
                (after_reading line_record (infile a_writer_astray)
                   (converter a_writer_astray))
                (take (batch_size a_writer_astray)
                   (parsed line_record (infile a_writer_astray))))
      as [[[table conv] messages]| |] eqn:E; [|by vm_compute in E..].
    exact (H table conv messages eq_refl).
Defined.

(** ** The command *)

Lemma init_counts (a : init_args) :
  arg_counts a = None ->
  let c := counts (__init__ a) in
  Counts.lines c = 0 /\ Counts.rows c = 0 /\ Counts.tweets c = 0 /\
  Counts.non_tweets c = 0 /\ Counts.parse_errors c = 0 /\
  Counts.input_columns c = Z.of_nat (length (columns (__init__ a))).
Proof. intros E. unfold __init__. cbn. by rewrite E. Qed.

(** X21: when the command has converted a file and prints its statistics,
    the number of rows it reports is the number of data rows it has
    written, the number of lines that of the lines of the file and the
    number of input columns that of the schema; it reports parse errors
    whenever a line has been refused; the writes are as those of a run.
    With no output columns asked for, every write is on the whole schema,
    and the number of output columns reported is 0. *)
Theorem csv_statistics
    (json_loads : string -> option value) (json_dumps : value -> string)
    (ensure_flattened : value -> result (list dict)) (a : csv_args)
    (printed : list echo) (ws : list write) (messages : list diagnostic) :
  file_lines (infile_lines a) ->
  infile_name a <> outfile_name a ->
  outfile_name a <> "<stdout>" ->
  infile_name a = "<stdin>" \/ infile_size a <> 0 ->
  hide_stats a = false ->
  csv json_loads json_dumps ensure_flattened a = Ok (printed, ws, messages) ->
  let schema := init_columns (input_data_type a) (extra_input_columns a) in
  exists s,
    printed = [Statistics s] /\
    sum_rows s = rows_written ws /\
    sum_lines s = Z.of_nat (length (infile_lines a)) /\
    sum_input_columns s = Z.of_nat (length schema) /\
    (refused json_loads (infile_lines a) <> [] ->
     exists e, sum_errors s = Some e /\
               Z.of_nat (length (refused json_loads (infile_lines a))) <= e) /\
    (sum_referenced s = None <-> opt_inline_referenced_tweets a = false) /\
    writes_in_order true ws /\
    (opt_output_columns a = "" ->
     sum_output_columns s = 0 /\ Forall (on_columns schema) ws).
Proof.
  intros Hl Hnames Hout Hsize Hstats H schema. unfold csv in H.
  apply String.eqb_neq in Hnames, Hout. rewrite Hnames, Hout, Hstats in H.
  replace (negb ((infile_name a =? "<stdin>")%string || false) && (infile_size a =? 0))
    with false in H
    by (destruct Hsize as [->| ->%Z.eqb_neq]; [done|by rewrite andb_false_r]).
  cbn zeta in H. bind_ok' H. rename a0 into writer. cbn [negb andb] in H.
  injection H as <- <- <-.
  pose proof E as E'.
  apply converter_process_counters in E'
    as (ws & Ho & _ & Hr & Hn & Hp & Hi & Hoc & _); [|exact Hl].
  apply converter_process_spec in E
    as (_ & ws' & _ & _ & Ho' & _ & _ & Hord & Hcol & _); [|exact Hl].
  cbn [infile outfile converter app] in *. subst ws'. rewrite Ho in Hord, Hcol |- *.
  match type of Hr with
  | context [counts (__init__ ?args)] =>
      destruct (init_counts args eq_refl) as (Z1 & Z2 & _ & _ & Z5 & Z6)
  end.
  rewrite Z1 in Hn. rewrite Z2 in Hr. rewrite Z5 in Hp. rewrite Z6 in Hi.
  eexists. split; [reflexivity|]. cbn [sum_rows sum_lines sum_input_columns
    sum_errors sum_referenced sum_output_columns]. split_and!.
  - by rewrite Hr.
  - by rewrite Hn.
  - by rewrite Hi.
  - intros Hne. destruct (refused json_loads (infile_lines a)) as [|r rs] eqn:Er; [done|].
    cbn [length] in Hp |- *. eexists. split; [|exact Hp].
    by replace (0 <? _) with true by (symmetry; apply Z.ltb_lt; lia).
  - by destruct (opt_inline_referenced_tweets a).
  - done.
  - intros Eo. split.
    + rewrite Hoc. cbn. by rewrite Eo.
    + revert Hcol. cbn [__init__ output_columns arg_output_columns]. by rewrite Eo.
Qed.

Lemma csv_statistics_witness :
  exists printed ws messages s,
    csv line_record no_dumps flat_already
      (some_args "in.jsonl" "out.csv" 27 some_lines) = Ok (printed, ws, messages) /\
    printed = [Statistics s] /\
    sum_rows s = rows_written ws /\ sum_lines s = 6 /\ sum_output_columns s = 0.
Proof.
  destruct (csv line_record no_dumps flat_already
              (some_args "in.jsonl" "out.csv" 27 some_lines))
    as [[[printed ws] messages]| |] eqn:E; [|by vm_compute in E..].
  destruct (csv_statistics line_record no_dumps flat_already
              (some_args "in.jsonl" "out.csv" 27 some_lines) printed ws messages)
    as (s & Hs & Hr & Hn & _ & _ & _ & _ & Hoc);
    [by repeat constructor | discriminate | discriminate | by right
    | reflexivity | exact E |].
  exists printed, ws, messages, s. split; [reflexivity|].
  split; [exact Hs|]. split; [exact Hr|]. split; [exact Hn|].
  exact (proj1 (Hoc eq_refl)).
Defined.

(** X22: whatever the command prints when it returns, it prints at most
    one message. It refuses with the message about converting in place
    exactly when the two files have the same name, and with the message
    about an empty input exactly when the names differ, neither file is a
    pipe and the input has size 0. When it refuses it writes nothing and
    reports no batch. *)
Theorem csv_refusals
    (json_loads : string -> option value) (json_dumps : value -> string)
    (ensure_flattened : value -> result (list dict)) (a : csv_args)
    (printed : list echo) (ws : list write) (messages : list diagnostic) :
  csv json_loads json_dumps ensure_flattened a = Ok (printed, ws, messages) ->
  (length printed <= 1)%nat /\
  (CannotConvertInPlace ∈ printed <-> infile_name a = outfile_name a) /\
  (InputFileIsEmpty ∈ printed <->
   infile_name a <> outfile_name a /\ infile_name a <> "<stdin>" /\
   outfile_name a <> "<stdout>" /\ infile_size a = 0) /\
  (refusal printed -> ws = [] /\ messages = []).
Proof.
  intros H. unfold csv, refusal in *.
  destruct (String.eqb_spec (infile_name a) (outfile_name a)) as [Hn|Hn].
  { injection H as <- <- <-. split_and!; [cbn; lia|split|split|done].
    - done.
    - intros _. by left.
    - intros Hin. apply list_elem_of_singleton in Hin. discriminate Hin.
    - by intros [? _]. }
  destruct (String.eqb_spec (infile_name a) "<stdin>") as [Hi|Hi];
    destruct (String.eqb_spec (outfile_name a) "<stdout>") as [Ho|Ho];
    destruct (Z.eqb_spec (infile_size a) 0) as [Hz|Hz];
    cbn [orb negb andb] in H;
    try (injection H as <- <- <-; split_and!; [cbn; lia|split|split|done];
         [ intros Hin; apply list_elem_of_singleton in Hin; discriminate Hin
         | done
         | done
         | intros _; by left ]).
  all: cbn zeta in H; bind_ok' H; injection H as <- _ _.
  all: destruct (negb (hide_stats a) && _).
  all: split_and!; [cbn; lia|split|split|].
  all: try (intros Hin; apply list_elem_of_singleton in Hin; discriminate Hin).
  all: try (intros Hin; by apply elem_of_nil in Hin).
  all: try done.
  all: try (intros (_ & ? & ? & ?); done).
  all: intros [Hin|Hin]; try (apply list_elem_of_singleton in Hin; discriminate Hin);
    by apply elem_of_nil in Hin.
Qed.

Lemma csv_refusals_witness :
  csv line_record no_dumps flat_already (some_args "a.jsonl" "a.jsonl" 27 some_lines)
    = Ok ([CannotConvertInPlace], [], []) /\
  (CannotConvertInPlace ∈ [CannotConvertInPlace] <-> "a.jsonl" = "a.jsonl").
Proof.
  split; [reflexivity|].
  exact (proj1 (proj2 (csv_refusals line_record no_dumps flat_already
                         (some_args "a.jsonl" "a.jsonl" 27 some_lines)
                         [CannotConvertInPlace] [] [] eq_refl))).
Defined.

(** X23: when the command does not refuse and no line of the file gives
    an object (every line is blank or refused), the command returns,
    writes nothing, not even the header, and reports no batch; the statistics
    it may print report no row, no tweet and no other object, every line
    of the file, and the refused lines as parse errors. *)
Theorem csv_no_objects
    (json_loads : string -> option value) (json_dumps : value -> string)
    (ensure_flattened : value -> result (list dict)) (a : csv_args) :
  file_lines (infile_lines a) ->
  infile_name a <> outfile_name a ->
  infile_name a = "<stdin>" \/ outfile_name a = "<stdout>" \/ infile_size a <> 0 ->
  opt_batch_size a <> 0%nat ->
  parsed json_loads (infile_lines a) = [] ->
  exists printed,
    csv json_loads json_dumps ensure_flattened a = Ok (printed, [], []) /\
    forall s, Statistics s ∈ printed ->
      sum_rows s = 0 /\ sum_tweets s = 0 /\ sum_non_tweets s = 0 /\
      sum_lines s = Z.of_nat (length (infile_lines a)) /\
      sum_errors s =
        match refused json_loads (infile_lines a) with
        | [] => None
        | _ :: _ => Some (Z.of_nat (length (refused json_loads (infile_lines a))))
        end.
Proof.
  intros Hl Hnames Hsize Hn Hnone. unfold csv.
  apply String.eqb_neq in Hnames. rewrite Hnames.
  replace (negb _ && (infile_size a =? 0)) with false
    by (destruct Hsize as [->|[->| ->%Z.eqb_neq]];
        rewrite ?orb_true_r, ?andb_false_r; done).
  cbn zeta. unfold CSVConverter_process. cbn [infile converter batch_size].
  rewrite read_lines_after by done. rewrite Hnone.
  destruct (opt_batch_size a) as [|m]; [done|].
  cbn [ichunked ichunked_from bind write_batches with_converter converter outfile stderr].
  eexists. split; [reflexivity|]. intros s Hs.
  destruct (negb (hide_stats a) && _); [|by apply elem_of_nil in Hs].
  apply list_elem_of_singleton in Hs. injection Hs as ->.
  cbn [sum_rows sum_tweets sum_non_tweets sum_lines sum_errors].
  split; [reflexivity|]. split; [reflexivity|]. split; [reflexivity|].
  split; [reflexivity|].
  change (Counts.parse_errors _)
    with (0 + Z.of_nat (length (refused json_loads (infile_lines a)))).
  destruct (refused json_loads (infile_lines a)) as [|r rs]; [reflexivity|].
  by replace (0 <? _) with true by (symmetry; apply Z.ltb_lt; cbn [length]; lia).
Qed.

Lemma csv_no_objects_witness :
  exists printed,
    csv line_record no_dumps flat_already
      (some_args "<stdin>" "out.csv" 0 [nl; "oops" +:+ nl]) = Ok (printed, [], []) /\
    forall s, Statistics s ∈ printed ->
      sum_rows s = 0 /\ sum_lines s = 2 /\ sum_errors s = Some 1.
Proof.
  destruct (csv_no_objects line_record no_dumps flat_already
              (some_args "<stdin>" "out.csv" 0 [nl; "oops" +:+ nl]))
    as (printed & H & Hs);
    [by repeat constructor | discriminate | by left | discriminate | reflexivity |].
  exists printed. split; [exact H|]. intros s Hin.
  destruct (Hs s Hin) as (Hr & _ & _ & Hn & He).
  split; [exact Hr|]. split; [exact Hn | exact He].
Defined.
